(** * TRUIDA: biometric matching and checkpoint progression

    A shallow embedding of the TypeScript sources

      - [lib/biometric-utils.ts]   (types, cosine similarity, flight validity)
      - [lib/data-store.ts]        (the localStorage-backed record and log store)
      - [components/CheckpointStation.tsx]  ([processVerification])
      - [components/EnrollmentStation.tsx]  (the enrollment wizard)

    JavaScript numbers are IEEE-754 binary64 values and are modelled by Rocq's
    primitive floats, so that the arithmetic of [calculateFaceSimilarity]
    evaluates here exactly as it does in the browser.  Millisecond time
    values are integers ([Z]).  An optional property ([x?: T], [T | null]) is
    an [option].

    The two localStorage items hold JSON text of an array.  A read parses
    the text and so gives a fresh copy: no object is shared between two
    reads.  What is read back is not always what was written: in an
    embedding [JSON.stringify] writes NaN and the infinities as [null] and
    the negative zero as [0] (module [JSON] below); strings, booleans and
    integer time values come back as they were.  The text of the passenger
    item is always one that [JSON.stringify] wrote, nothing else writes
    the item.  Storage accesses are taken to succeed, so the [catch]
    branches of the store, which only run when localStorage itself throws,
    are not modelled. *)

From Stdlib Require Import List ZArith String Ascii Bool Lia Floats DecimalString.
Import ListNotations.

Set Warnings "-inexact-float".

Open Scope Z_scope.
Open Scope string_scope.

(** ** Data model ([biometric-utils.ts], [data-store.ts]) *)

Module Checkpoint.
(** [keyof PassengerData['checkpoints']] *)
Inductive t : Type := security | immigration | boarding.

Definition eqb (a b : t) : bool :=
  match a, b with
  | security, security | immigration, immigration | boarding, boarding => true
  | _, _ => false
  end.
End Checkpoint.

Module Element.
(** An element of a stored embedding as it is at run time: the type
    [number[]] is not checked when a record is read with [JSON.parse], and
    an element that [JSON.stringify] wrote as [null] is read back as
    [null]. *)
Inductive t : Type :=
| Number (x : float)
| Null.

(** The conversion that [*] applies to an operand: [null] becomes [+0].
    Apart from [JSON.stringify], the products in [calculateFaceSimilarity]
    are the only reads of an element. *)
Definition toNumber (e : t) : float :=
  match e with
  | Number x => x
  | Null => 0%float
  end.
End Element.

Record BiometricData : Type := {
  faceHash : string;
  fingerprintHash : string;
  faceEmbedding : option (list Element.t);
  timestamp : Z
}.

Record Checkpoints : Type := {
  security : bool;
  immigration : bool;
  boarding : bool
}.

Record PassengerData : Type := {
  id : string;
  passportNumber : string;
  firstName : string;
  lastName : string;
  flightNumber : string;
  gate : string;
  departureTime : string;
  biometrics : BiometricData;
  enrollmentTime : Z;
  checkpoints : Checkpoints;
  guardianId : option string
}.

Module StaffLog.
Inductive result_t : Type := granted | denied.

(** [Omit<StaffLogEntry, 'id'>], the argument of [logCheckpointAccess]. *)
Record fields : Type := {
  passengerId : string;
  checkpoint : Checkpoint.t;
  timestamp : Z;
  result : result_t;
  staffId : string;
  notes : option string
}.

(** [StaffLogEntry]: [{ ...entry, id }]. *)
Record StaffLogEntry : Type := {
  entry : fields;
  id : string
}.
End StaffLog.

(** ** JSON text of the passenger list *)

Module JSON.

(** [JSON.parse(JSON.stringify(x))] for a number [x]: a number that is not
    finite is written as [null]; a zero of either sign is written as [0];
    every other number is written with digits that read back as the same
    number. *)
Definition number (x : float) : Element.t :=
  if PrimFloat.is_finite x
  then Element.Number (if PrimFloat.is_zero x then 0%float else x)
  else Element.Null.

Definition element (e : Element.t) : Element.t :=
  match e with
  | Element.Number x => number x
  | Element.Null => Element.Null
  end.

Definition biometricData (b : BiometricData) : BiometricData :=
  {| faceHash := faceHash b;
     fingerprintHash := fingerprintHash b;
     faceEmbedding := option_map (map element) (faceEmbedding b);
     timestamp := timestamp b |}.

(** A passenger object as it is read back after it was written. *)
Definition passengerData (p : PassengerData) : PassengerData :=
  {| id := id p;
     passportNumber := passportNumber p;
     firstName := firstName p;
     lastName := lastName p;
     flightNumber := flightNumber p;
     gate := gate p;
     departureTime := departureTime p;
     biometrics := biometricData (biometrics p);
     enrollmentTime := enrollmentTime p;
     checkpoints := checkpoints p;
     guardianId := guardianId p |}.

(** The text that [JSON.stringify] writes for an array of passengers.  Its
    characters are not spelled out: the text is given by an array it was
    written from.  Two arrays can have one text (an embedding [-0] and an
    embedding [0], say), so an equation between two texts that holds here
    holds of the characters, and not the other way round. *)
Inductive text : Type :=
| stringify (passengers : list PassengerData).

Definition parse (data : text) : list PassengerData :=
  match data with
  | stringify passengers => map passengerData passengers
  end.

End JSON.

(** [localStorage], restricted to the two keys the application uses.  [None]
    is an absent key ([getItem] returns [null]).  A log entry holds strings,
    an integer time value and two enumerations, and is read back from its
    JSON text as it was written: the log item is given by the array. *)
Record LocalStorage : Type := {
  truida_passengers : option JSON.text;
  truida_staff_logs : option (list StaffLog.StaffLogEntry)
}.

Definition emptyStorage : LocalStorage :=
  {| truida_passengers := None; truida_staff_logs := None |}.

(** ** JavaScript helpers *)

(** Truthiness of a string: the empty string is falsy. *)
Definition truthy (s : string) : bool := negb (s =? "").

(** Truthiness of an optional string ([undefined], [null] and [""] are falsy). *)
Definition truthy_opt (s : option string) : bool :=
  match s with
  | Some s => truthy s
  | None => false
  end.

(** [Array.prototype.findIndex]; [None] stands for the result [-1]. *)
Fixpoint findIndex {A : Type} (f : A -> bool) (l : list A) : option nat :=
  match l with
  | [] => None
  | x :: l' => if f x then Some O else option_map S (findIndex f l')
  end.

(** [l[i] = x] for an index inside the array. *)
Fixpoint assign {A : Type} (l : list A) (i : nat) (x : A) : list A :=
  match l, i with
  | [], _ => []
  | _ :: l', O => x :: l'
  | y :: l', S i' => y :: assign l' i' x
  end.

(** [checkpoints[checkpoint]] *)
Definition getCheckpoint (c : Checkpoints) (k : Checkpoint.t) : bool :=
  match k with
  | Checkpoint.security => security c
  | Checkpoint.immigration => immigration c
  | Checkpoint.boarding => boarding c
  end.

(** [checkpoints[checkpoint] = status] *)
Definition setCheckpoint (c : Checkpoints) (k : Checkpoint.t) (status : bool) : Checkpoints :=
  match k with
  | Checkpoint.security =>
      {| security := status; immigration := immigration c; boarding := boarding c |}
  | Checkpoint.immigration =>
      {| security := security c; immigration := status; boarding := boarding c |}
  | Checkpoint.boarding =>
      {| security := security c; immigration := immigration c; boarding := status |}
  end.

(** [passenger.checkpoints[checkpoint] = status] on a passenger object. *)
Definition withCheckpoint (p : PassengerData) (k : Checkpoint.t) (status : bool) : PassengerData :=
  {| id := id p;
     passportNumber := passportNumber p;
     firstName := firstName p;
     lastName := lastName p;
     flightNumber := flightNumber p;
     gate := gate p;
     departureTime := departureTime p;
     biometrics := biometrics p;
     enrollmentTime := enrollmentTime p;
     checkpoints := setCheckpoint (checkpoints p) k status;
     guardianId := guardianId p |}.

(** ** [biometric-utils.ts] *)

(** [generatePassengerId]; the argument is the value of [crypto.randomUUID()]. *)
Definition generatePassengerId (uuid : string) : string := "TRU-" ++ uuid.

(** The [for] loop of [calculateFaceSimilarity]: the accumulator is
    [(dotProduct, norm1, norm2)].  It is entered only with arrays of one
    length, so walking both lists together visits the indices
    [0 .. embedding1.length - 1]. *)
Fixpoint similarityLoop (embedding1 embedding2 : list float)
    (acc : float * float * float) : float * float * float :=
  match embedding1, embedding2 with
  | x :: e1, y :: e2 =>
      let '(dotProduct, norm1, norm2) := acc in
      similarityLoop e1 e2
        ((dotProduct + x * y)%float, (norm1 + x * x)%float, (norm2 + y * y)%float)
  | _, _ => acc
  end.

Definition calculateFaceSimilarity (embedding1 embedding2 : list float) : float :=
  if negb (Nat.eqb (List.length embedding1) (List.length embedding2)) then 0%float
  else
    let '(dotProduct, norm1, norm2) :=
      similarityLoop embedding1 embedding2 (0%float, 0%float, 0%float) in
    (dotProduct / (PrimFloat.sqrt norm1 * PrimFloat.sqrt norm2))%float.

Module BiometricMatch.
(** The object returned by [verifyBiometricMatch]. *)
Record t : Type := {
  faceMatch : bool;
  fingerprintMatch : bool;
  similarity : float
}.
End BiometricMatch.

Definition verifyBiometricMatch (storedBiometrics : BiometricData)
    (currentFaceHash : string) (currentFingerprintHash : option string)
    (currentFaceEmbedding : option (list float)) : BiometricMatch.t :=
  {| BiometricMatch.faceMatch := faceHash storedBiometrics =? currentFaceHash;
     BiometricMatch.fingerprintMatch :=
       if truthy_opt currentFingerprintHash
       then match currentFingerprintHash with
            | Some h => fingerprintHash storedBiometrics =? h
            | None => true
            end
       else true;
     BiometricMatch.similarity :=
       match currentFaceEmbedding, faceEmbedding storedBiometrics with
       | Some current, Some stored =>
           calculateFaceSimilarity (map Element.toNumber stored) current
       | _, _ => 0%float
       end |}.

(** ** [data-store.ts]: operations that do not read the clock *)

Definition getAllPassengers (ls : LocalStorage) : list PassengerData :=
  match truida_passengers ls with
  | Some data => JSON.parse data
  | None => []
  end.

Definition getStaffLogs (ls : LocalStorage) : list StaffLog.StaffLogEntry :=
  match truida_staff_logs ls with
  | Some data => data
  | None => []
  end.

(** [localStorage.setItem(STORAGE_KEY, JSON.stringify(passengers))] *)
Definition setPassengers (ls : LocalStorage) (passengers : list PassengerData) : LocalStorage :=
  {| truida_passengers := Some (JSON.stringify passengers);
     truida_staff_logs := truida_staff_logs ls |}.

(** [localStorage.setItem(STAFF_STORAGE_KEY, JSON.stringify(logs))] *)
Definition setStaffLogs (ls : LocalStorage) (logs : list StaffLog.StaffLogEntry) : LocalStorage :=
  {| truida_passengers := truida_passengers ls; truida_staff_logs := Some logs |}.

Definition savePassengerData (ls : LocalStorage) (passenger : PassengerData) : LocalStorage :=
  let passengers := getAllPassengers ls in
  let existingIndex := findIndex (fun p => id p =? id passenger) passengers in
  match existingIndex with
  | Some i => setPassengers ls (assign passengers i passenger)
  | None => setPassengers ls (passengers ++ [passenger])%list
  end.

Definition getPassengerById (ls : LocalStorage) (i : string) : option PassengerData :=
  find (fun p => id p =? i) (getAllPassengers ls).

Definition getPassengerByPassport (ls : LocalStorage) (passport : string) : option PassengerData :=
  find (fun p => passportNumber p =? passport) (getAllPassengers ls).

Definition findPassengersByBiometrics (ls : LocalStorage) (fHash : string)
    (fpHash : option string) : list PassengerData :=
  filter
    (fun p =>
       let faceMatch := faceHash (biometrics p) =? fHash in
       let fingerprintMatch :=
         if truthy_opt fpHash
         then match fpHash with
              | Some h => fingerprintHash (biometrics p) =? h
              | None => true
              end
         else true in
       faceMatch && fingerprintMatch)
    (getAllPassengers ls).

Definition updateCheckpointStatus (ls : LocalStorage) (passengerId : string)
    (k : Checkpoint.t) (status : bool) : LocalStorage * bool :=
  match find (fun p => id p =? passengerId) (getAllPassengers ls) with
  | None => (ls, false)
  | Some passenger => (savePassengerData ls (withCheckpoint passenger k status), true)
  end.

Definition deletePassengerData (ls : LocalStorage) (passengerId : string) : LocalStorage * bool :=
  let passengers := getAllPassengers ls in
  let filteredPassengers := filter (fun p => negb (id p =? passengerId)) passengers in
  (setPassengers ls filteredPassengers, true).

Definition clearAllPassengerData (ls : LocalStorage) : LocalStorage := emptyStorage.

(** [logCheckpointAccess]; [uuid] is the value of [crypto.randomUUID()]. *)
Definition logCheckpointAccess (ls : LocalStorage) (uuid : string)
    (entry : StaffLog.fields) : LocalStorage :=
  let logs := getStaffLogs ls in
  let logEntry := {| StaffLog.entry := entry; StaffLog.id := uuid |} in
  setStaffLogs ls (logs ++ [logEntry])%list.

(** ** Operations that read the clock or format a number

    Two built-ins of the JavaScript engine are parameters of the model:
    [newDate s] is the time value of [new Date(s)] ([None] for an Invalid
    Date, whose time value is NaN), and [toFixed1 x] is [x.toFixed(1)].
    Every other read of the environment ([new Date()], [Date.now()],
    [crypto.randomUUID()]) is an argument of the operation that performs it. *)

Record VerificationResult : Type := {
  success : bool;
  passenger : option PassengerData;
  message : string;
  similarity : option float
}.

(** What one call of [processVerification] reads from its environment. *)
Record Reads : Type := {
  clock : Z;          (* [new Date()] inside [isFlightValid] *)
  dateNow : Z;        (* [Date.now()] for the log entry *)
  randomUUID : string (* [crypto.randomUUID()] for the log entry *)
}.

Section Engine.

Variable newDate : string -> option Z.
Variable toFixed1 : float -> string.

(** [departure > now] on two Date objects compares their time values, and is
    false when the time value of [departure] is NaN.  [now] is the value of
    [new Date()]. *)
Definition isFlightValid (now : Z) (departureTime : string) : bool :=
  match newDate departureTime with
  | Some departure => (now <? departure)%Z
  | None => false
  end.

Definition cleanupExpiredPassengers (ls : LocalStorage) (now : Z) : LocalStorage * Z :=
  let passengers := getAllPassengers ls in
  let activePassengers :=
    filter
      (fun p => match newDate (departureTime p) with
                | Some departure => (now <? departure)%Z
                | None => false
                end)
      passengers in
  let deletedCount :=
    Z.of_nat (List.length passengers) - Z.of_nat (List.length activePassengers) in
  (setPassengers ls activePassengers, deletedCount).

(** One iteration of the best-match loop of [processVerification]; the
    state is [(bestMatch, bestSimilarity)]. *)
Definition bestMatchStep (fHash : string) (fpHash : option string)
    (embedding : list float) (best : PassengerData * float)
    (candidate : PassengerData) : PassengerData * float :=
  match faceEmbedding (biometrics candidate) with
  | Some _ =>
      let verification :=
        verifyBiometricMatch (biometrics candidate) fHash fpHash (Some embedding) in
      if (snd best <? BiometricMatch.similarity verification)%float
      then (candidate, BiometricMatch.similarity verification)
      else best
  | None => best
  end.

(** The loop, started from [(candidates[0], 0)]. *)
Definition selectBestMatch (fHash : string) (fpHash : option string)
    (embedding : list float) (first : PassengerData)
    (candidates : list PassengerData) : PassengerData * float :=
  fold_left (bestMatchStep fHash fpHash embedding) candidates (first, 0%float).

Definition processVerification (checkpoint : Checkpoint.t) (ls : LocalStorage)
    (fHash : string) (embedding : list float) (fpHash : option string)
    (env : Reads) : LocalStorage * VerificationResult :=
  let candidates := findPassengersByBiometrics ls fHash fpHash in
  match candidates with
  | [] =>
      (ls, {| success := false;
              passenger := None;
              message := "No matching passenger found. Please verify your identity or enroll first.";
              similarity := None |})
  | first :: _ =>
      let '(bestMatch, bestSimilarity) :=
        selectBestMatch fHash fpHash embedding first candidates in
      if negb (isFlightValid (clock env) (departureTime bestMatch)) then
        (ls, {| success := false;
                passenger := Some bestMatch;
                message := "Flight has already departed. Access denied.";
                similarity := Some bestSimilarity |})
      else if Checkpoint.eqb checkpoint Checkpoint.immigration
              && negb (security (checkpoints bestMatch)) then
        (ls, {| success := false;
                passenger := Some bestMatch;
                message := "Must clear security checkpoint first.";
                similarity := Some bestSimilarity |})
      else if Checkpoint.eqb checkpoint Checkpoint.boarding
              && (negb (security (checkpoints bestMatch))
                  || negb (immigration (checkpoints bestMatch))) then
        (ls, {| success := false;
                passenger := Some bestMatch;
                message := "Must clear security and immigration checkpoints first.";
                similarity := Some bestSimilarity |})
      else if getCheckpoint (checkpoints bestMatch) checkpoint then
        (ls, {| success := true;
                passenger := Some bestMatch;
                message := "Already cleared this checkpoint. Access granted.";
                similarity := Some bestSimilarity |})
      else
        let ls1 := fst (updateCheckpointStatus ls (id bestMatch) checkpoint true) in
        let ls2 :=
          logCheckpointAccess ls1 (randomUUID env)
            {| StaffLog.passengerId := id bestMatch;
               StaffLog.checkpoint := checkpoint;
               StaffLog.timestamp := dateNow env;
               StaffLog.result := StaffLog.granted;
               StaffLog.staffId := "SYSTEM";
               StaffLog.notes :=
                 Some ("Similarity: " ++ toFixed1 (bestSimilarity * 100)%float ++ "%") |} in
        (ls2, {| success := true;
                 passenger := Some bestMatch;
                 message := "Access granted. Welcome, " ++ firstName bestMatch ++ "!";
                 similarity := Some bestSimilarity |})
  end.

(** A sequence of verifications at the three stations, each with its own
    presented sample and environment. *)
Record VerifyCall : Type := {
  call_checkpoint : Checkpoint.t;
  call_faceHash : string;
  call_embedding : list float;
  call_fingerprintHash : option string;
  call_env : Reads
}.

Definition verifyCall (ls : LocalStorage) (c : VerifyCall) : LocalStorage * VerificationResult :=
  processVerification (call_checkpoint c) ls (call_faceHash c) (call_embedding c)
    (call_fingerprintHash c) (call_env c).

Definition verifyAll (ls : LocalStorage) (calls : list VerifyCall) : LocalStorage :=
  fold_left (fun ls c => fst (verifyCall ls c)) calls ls.

(** The log entry written on a grant. *)
Definition grantEntry (checkpoint : Checkpoint.t) (best : PassengerData)
    (sim : float) (env : Reads) : StaffLog.StaffLogEntry :=
  {| StaffLog.entry :=
       {| StaffLog.passengerId := id best;
          StaffLog.checkpoint := checkpoint;
          StaffLog.timestamp := dateNow env;
          StaffLog.result := StaffLog.granted;
          StaffLog.staffId := "SYSTEM";
          StaffLog.notes :=
            Some ("Similarity: " ++ toFixed1 (sim * 100)%float ++ "%") |};
     StaffLog.id := randomUUID env |}.

(** The state and result of the grant branch. *)
Definition grantResult (checkpoint : Checkpoint.t) (ls : LocalStorage)
    (best : PassengerData) (sim : float) (env : Reads) : LocalStorage * VerificationResult :=
  (logCheckpointAccess (fst (updateCheckpointStatus ls (id best) checkpoint true))
     (randomUUID env) (StaffLog.entry (grantEntry checkpoint best sim env)),
   {| success := true;
      passenger := Some best;
      message := "Access granted. Welcome, " ++ firstName best ++ "!";
      similarity := Some sim |}).

(** The stores that the application can produce from an empty localStorage:
    every operation that writes the passenger list. *)
Inductive reachable : LocalStorage -> Prop :=
| reach_empty : reachable emptyStorage
| reach_save ls passenger :
    reachable ls -> reachable (savePassengerData ls passenger)
| reach_verify ls checkpoint fHash embedding fpHash env :
    reachable ls ->
    reachable (fst (processVerification checkpoint ls fHash embedding fpHash env))
| reach_delete ls passengerId :
    reachable ls -> reachable (fst (deletePassengerData ls passengerId))
| reach_cleanup ls now :
    reachable ls -> reachable (fst (cleanupExpiredPassengers ls now))
| reach_clear ls :
    reachable ls -> reachable (clearAllPassengerData ls).

End Engine.

(** The five outcomes of a verification, read off the returned object: the
    source distinguishes them by [success] and [message] only. *)
Inductive VerificationOutcome : Type :=
| NO_MATCH | FLIGHT_DEPARTED | PREREQUISITE_MISSING | ALREADY_CLEARED | GRANTED.

Definition outcome (r : VerificationResult) : VerificationOutcome :=
  if message r =? "No matching passenger found. Please verify your identity or enroll first."
  then NO_MATCH
  else if message r =? "Flight has already departed. Access denied."
  then FLIGHT_DEPARTED
  else if (message r =? "Must clear security checkpoint first.")
          || (message r =? "Must clear security and immigration checkpoints first.")
  then PREREQUISITE_MISSING
  else if message r =? "Already cleared this checkpoint. Access granted."
  then ALREADY_CLEARED
  else GRANTED.

(** ** [EnrollmentStation.tsx]: the enrollment wizard *)

Module Form.
(** The [formData] state of the component. *)
Record t : Type := {
  firstName : string;
  lastName : string;
  passportNumber : string;
  flightNumber : string;
  gate : string;
  departureTime : string
}.

Definition empty : t :=
  {| firstName := ""; lastName := ""; passportNumber := "";
     flightNumber := ""; gate := ""; departureTime := "" |}.

Inductive field : Type :=
| FirstName | LastName | PassportNumber | FlightNumber | Gate | DepartureTime.

(** [setFormData(prev => ({ ...prev, [field]: value }))] *)
Definition set (f : t) (k : field) (v : string) : t :=
  match k with
  | FirstName =>
      {| firstName := v; lastName := lastName f; passportNumber := passportNumber f;
         flightNumber := flightNumber f; gate := gate f; departureTime := departureTime f |}
  | LastName =>
      {| firstName := firstName f; lastName := v; passportNumber := passportNumber f;
         flightNumber := flightNumber f; gate := gate f; departureTime := departureTime f |}
  | PassportNumber =>
      {| firstName := firstName f; lastName := lastName f; passportNumber := v;
         flightNumber := flightNumber f; gate := gate f; departureTime := departureTime f |}
  | FlightNumber =>
      {| firstName := firstName f; lastName := lastName f; passportNumber := passportNumber f;
         flightNumber := v; gate := gate f; departureTime := departureTime f |}
  | Gate =>
      {| firstName := firstName f; lastName := lastName f; passportNumber := passportNumber f;
         flightNumber := flightNumber f; gate := v; departureTime := departureTime f |}
  | DepartureTime =>
      {| firstName := firstName f; lastName := lastName f; passportNumber := passportNumber f;
         flightNumber := flightNumber f; gate := gate f; departureTime := v |}
  end.
End Form.

(** The record literal built by [completeEnrollment]. *)
Definition newPassenger (formData : Form.t) (faceData : string * list float)
    (fpHash : string) (uuid : string) (capturedAt enrolledAt : Z) : PassengerData :=
  {| id := generatePassengerId uuid;
     passportNumber := Form.passportNumber formData;
     firstName := Form.firstName formData;
     lastName := Form.lastName formData;
     flightNumber := Form.flightNumber formData;
     gate := Form.gate formData;
     departureTime := Form.departureTime formData;
     biometrics :=
       {| faceHash := fst faceData;
          fingerprintHash := fpHash;
          faceEmbedding := Some (map Element.Number (snd faceData));
          timestamp := capturedAt |};
     enrollmentTime := enrolledAt;
     checkpoints := {| security := false; immigration := false; boarding := false |};
     guardianId := None |}.

(** [completeEnrollment]: [None] when the guard on the biometric scans
    returns early, otherwise the passenger that was saved. *)
Definition completeEnrollment (ls : LocalStorage) (formData : Form.t)
    (faceData : option (string * list float)) (fpHash : option string)
    (uuid : string) (capturedAt enrolledAt : Z) : LocalStorage * option PassengerData :=
  match faceData, fpHash with
  | Some fd, Some h =>
      if truthy h then
        let passenger := newPassenger formData fd h uuid capturedAt enrolledAt in
        (savePassengerData ls passenger, Some passenger)
      else (ls, None)
  | _, _ => (ls, None)
  end.

Module Enrollment.

Inductive step_t : Type := info | face | fingerprint | complete.

(** The state of the component, and the asynchronous operations that it
    has started and that have not finished: [capturePhoto] ends in the
    [onload] handler of an image, and [handleFingerprintUpload] continues
    after its two [await]s.  [stream] tells whether the camera stream is
    there ([null] or a [MediaStream]). *)
Record wizard : Type := {
  currentStep : step_t;
  isProcessing : bool;
  stream : bool;
  formData : Form.t;
  faceData : option (string * list float);
  fingerprintHash : option string;
  captures : nat;  (* face captures that have not finished *)
  uploads : nat    (* fingerprint uploads that have not finished *)
}.

Definition initial : wizard :=
  {| currentStep := info; isProcessing := false; stream := false;
     formData := Form.empty; faceData := None; fingerprintHash := None;
     captures := 0; uploads := 0 |}.

(** What the user, the camera and the pending operations can do to the
    component. *)
Inductive event : Type :=
| Input (k : Form.field) (v : string)          (* typing into a field of the info step *)
| Continue                                     (* "Continue to Face Scan" *)
| Back
| CameraStarted                                (* [startCamera]: [getUserMedia] resolved *)
| CaptureFace                                  (* "Capture Face" *)
| FaceCaptured (hash : string) (embedding : list float)
                                               (* a capture finishes: [processFaceImage] resolved *)
| FaceFailed                                   (* a capture finishes: [processFaceImage] rejected *)
| FingerprintChosen                            (* a file is picked in the file input *)
| FingerprintProcessed (hash : string)         (* an upload finishes: both promises resolved *)
| FingerprintFailed                            (* an upload finishes: a promise rejected *)
| Complete (uuid : string) (capturedAt enrolledAt : Z).

(** [disabled] of the "Continue to Face Scan" button. *)
Definition continueDisabled (f : Form.t) : bool :=
  negb (truthy (Form.firstName f)) || negb (truthy (Form.lastName f))
  || negb (truthy (Form.passportNumber f)) || negb (truthy (Form.flightNumber f)).

(** [setCurrentStep(s)] *)
Definition goto (w : wizard) (s : step_t) : wizard :=
  {| currentStep := s; isProcessing := isProcessing w; stream := stream w;
     formData := formData w; faceData := faceData w;
     fingerprintHash := fingerprintHash w;
     captures := captures w; uploads := uploads w |}.

(** One event.  A control that the current step does not render, or that is
    disabled, does nothing: the text inputs and "Continue" belong to the
    info step, "Capture Face" to the face step, the file input to the
    fingerprint step and "Complete Enrollment" to the last step; "Back",
    "Capture Face" and "Complete Enrollment" are disabled while
    [isProcessing] is set, "Capture Face" also while there is no camera
    stream, and the file input never is.  The camera is started by an event
    of the video element; the model lets its stream arrive at any time.
    The end of a pending operation is an event of its own, whatever step is
    shown by then: its handler tests no state, it sets the scan, the step
    that follows the scan, and [isProcessing] to false.  After a successful
    enrollment the page returns to the menu and the component is unmounted:
    the next visit starts from [initial], and what is still pending belongs
    to the unmounted component. *)
Definition step (s : LocalStorage * wizard) (e : event) : LocalStorage * wizard :=
  let '(ls, w) := s in
  match e with
  | Input k v =>
      match currentStep w with
      | info =>
          (ls, {| currentStep := info; isProcessing := isProcessing w;
                  stream := stream w;
                  formData := Form.set (formData w) k v;
                  faceData := faceData w; fingerprintHash := fingerprintHash w;
                  captures := captures w; uploads := uploads w |})
      | _ => (ls, w)
      end
  | Continue =>
      match currentStep w with
      | info => if continueDisabled (formData w) then (ls, w) else (ls, goto w face)
      | _ => (ls, w)
      end
  | Back =>
      if isProcessing w then (ls, w)
      else
        match currentStep w with
        | info => (ls, w)
        | face => (ls, goto w info)
        | fingerprint => (ls, goto w face)
        | complete => (ls, goto w fingerprint)
        end
  | CameraStarted =>
      (ls, {| currentStep := currentStep w; isProcessing := isProcessing w;
              stream := true;
              formData := formData w;
              faceData := faceData w; fingerprintHash := fingerprintHash w;
              captures := captures w; uploads := uploads w |})
  | CaptureFace =>
      match currentStep w with
      | face =>
          if isProcessing w || negb (stream w) then (ls, w)
          else
            (ls, {| currentStep := face; isProcessing := true; stream := stream w;
                    formData := formData w;
                    faceData := faceData w; fingerprintHash := fingerprintHash w;
                    captures := S (captures w); uploads := uploads w |})
      | _ => (ls, w)
      end
  | FaceCaptured hash embedding =>
      match captures w with
      | S n =>
          (* [setFaceData(result); stopCamera(); setCurrentStep('fingerprint')] *)
          (ls, {| currentStep := fingerprint; isProcessing := false; stream := false;
                  formData := formData w;
                  faceData := Some (hash, embedding);
                  fingerprintHash := fingerprintHash w;
                  captures := n; uploads := uploads w |})
      | O => (ls, w)
      end
  | FaceFailed =>
      match captures w with
      | S n =>
          (ls, {| currentStep := currentStep w; isProcessing := false;
                  stream := stream w;
                  formData := formData w;
                  faceData := faceData w; fingerprintHash := fingerprintHash w;
                  captures := n; uploads := uploads w |})
      | O => (ls, w)
      end
  | FingerprintChosen =>
      match currentStep w with
      | fingerprint =>
          (ls, {| currentStep := fingerprint; isProcessing := true; stream := stream w;
                  formData := formData w;
                  faceData := faceData w; fingerprintHash := fingerprintHash w;
                  captures := captures w; uploads := S (uploads w) |})
      | _ => (ls, w)
      end
  | FingerprintProcessed hash =>
      match uploads w with
      | S n =>
          (* [setFingerprintHash(hash); setCurrentStep('complete')] *)
          (ls, {| currentStep := complete; isProcessing := false; stream := stream w;
                  formData := formData w;
                  faceData := faceData w; fingerprintHash := Some hash;
                  captures := captures w; uploads := n |})
      | O => (ls, w)
      end
  | FingerprintFailed =>
      match uploads w with
      | S n =>
          (ls, {| currentStep := currentStep w; isProcessing := false;
                  stream := stream w;
                  formData := formData w;
                  faceData := faceData w; fingerprintHash := fingerprintHash w;
                  captures := captures w; uploads := n |})
      | O => (ls, w)
      end
  | Complete uuid capturedAt enrolledAt =>
      match currentStep w with
      | complete =>
          if isProcessing w then (ls, w)
          else
            match completeEnrollment ls (formData w) (faceData w) (fingerprintHash w)
                    uuid capturedAt enrolledAt with
            | (ls', Some _) => (ls', initial)
            | (ls', None) => (ls', w)
            end
      | _ => (ls, w)
      end
  end.

Definition run (s : LocalStorage * wizard) (es : list event) : LocalStorage * wizard :=
  fold_left step es s.

End Enrollment.

(** ** [biometric-utils.ts]: hashing, and the sweep on a list

    [hashData] encodes its argument with [TextEncoder] and digests it with
    [crypto.subtle.digest('SHA-256', _)]; both are parameters.  The digest
    bytes are then written as two lower-case hexadecimal digits each. *)

(** The digit of a value below 16 in [Number.prototype.toString(16)]. *)
Definition hexDigit (n : N) : ascii :=
  match n with
  | 0%N => "0" | 1%N => "1" | 2%N => "2" | 3%N => "3" | 4%N => "4"
  | 5%N => "5" | 6%N => "6" | 7%N => "7" | 8%N => "8" | 9%N => "9"
  | 10%N => "a" | 11%N => "b" | 12%N => "c" | 13%N => "d" | 14%N => "e"
  | _ => "f"
  end%char.

(** [b.toString(16)] for an element [b] of a [Uint8Array]. *)
Definition toString16 (b : Byte.byte) : string :=
  let n := Byte.to_N b in
  if (n <? 16)%N then String (hexDigit n) ""
  else String (hexDigit (n / 16)) (String (hexDigit (n mod 16)) "").

(** [s.padStart(targetLength, "0")] *)
Definition padStart (targetLength : nat) (s : string) : string :=
  String.concat "" (repeat "0" (targetLength - String.length s)) ++ s.

Section Hashing.

Variable encode : string -> list Byte.byte.
Variable sha256 : list Byte.byte -> list Byte.byte.

Definition hashData (data : string) : string :=
  let dataBuffer := encode data in
  let hashArray := sha256 dataBuffer in
  String.concat "" (map (fun b => padStart 2 (toString16 b)) hashArray).

(** [processFingerprintImage]; the argument is the data URL of the canvas. *)
Definition processFingerprintImage (imageData : string) : string :=
  hashData imageData.

(** [processFaceImage]; [randoms] are the values of [Math.random()] drawn by
    [Array.from({length: 384}, ...)].  The fallback of the [catch] branch
    computes the same pair. *)
Definition processFaceImage (imageData : string) (randoms : list float)
    : string * list float :=
  (hashData imageData, firstn 384 randoms).

End Hashing.

Section SweepOnList.

Variable newDate : string -> option Z.

(** [cleanupExpiredData]: [isFlightValid] reads the clock anew for every
    element; [clock k] is the k-th value of [new Date()]. *)
Fixpoint cleanupExpiredDataFrom (clock : nat -> Z) (k : nat)
    (passengers : list PassengerData) : list PassengerData :=
  match passengers with
  | [] => []
  | passenger :: rest =>
      if isFlightValid newDate (clock k) (departureTime passenger)
      then passenger :: cleanupExpiredDataFrom clock (S k) rest
      else cleanupExpiredDataFrom clock (S k) rest
  end.

Definition cleanupExpiredData (clock : nat -> Z) (passengers : list PassengerData)
    : list PassengerData :=
  cleanupExpiredDataFrom clock 0 passengers.

End SweepOnList.

(** ** [data-store.ts]: statistics *)

Module Stats.
Record checkpointStats_t : Type := {
  security : nat;
  immigration : nat;
  boarding : nat
}.

(** [TruidaStats] *)
Record t : Type := {
  totalEnrolled : nat;
  totalActive : nat;
  checkpointStats : checkpointStats_t;
  recentActivity : list StaffLog.StaffLogEntry
}.
End Stats.

(** [l.slice(-n)]: the last [n] elements, all of them when there are fewer. *)
Definition sliceLast {A : Type} (n : nat) (l : list A) : list A :=
  skipn (List.length l - n) l.

Section Statistics.

Variable newDate : string -> option Z.

(** [getTruidaStats]; [now] is the value of [new Date()]. *)
Definition getTruidaStats (ls : LocalStorage) (now : Z) : Stats.t :=
  let passengers := getAllPassengers ls in
  let logs := getStaffLogs ls in
  let oneHourAgo := (now - 60 * 60 * 1000)%Z in
  {| Stats.totalEnrolled := List.length passengers;
     Stats.totalActive :=
       List.length
         (filter (fun p => match newDate (departureTime p) with
                           | Some departure => (now <? departure)%Z
                           | None => false
                           end) passengers);
     Stats.checkpointStats :=
       {| Stats.security :=
            List.length (filter (fun p => security (checkpoints p)) passengers);
          Stats.immigration :=
            List.length (filter (fun p => immigration (checkpoints p)) passengers);
          Stats.boarding :=
            List.length (filter (fun p => boarding (checkpoints p)) passengers) |};
     Stats.recentActivity :=
       sliceLast 10
         (filter (fun log => (oneHourAgo <? StaffLog.timestamp (StaffLog.entry log))%Z)
            logs) |}.

End Statistics.

(** ** [StaffDashboard.tsx] and the station handlers *)

Module Dashboard.
(** The [stats], [passengers] and [logs] state of the dashboard. *)
Record t : Type := {
  stats : Stats.t;
  passengers : list PassengerData;
  logs : list StaffLog.StaffLogEntry
}.
End Dashboard.

(** The name shown beside a log entry in the overview. *)
Definition passengerLabel (passengers : list PassengerData)
    (log : StaffLog.StaffLogEntry) : string :=
  match find (fun p => id p =? StaffLog.passengerId (StaffLog.entry log)) passengers with
  | Some passenger => firstName passenger ++ " " ++ lastName passenger
  | None => "Unknown Passenger"
  end.

Section DashboardHandlers.

Variable newDate : string -> option Z.
Variable toFixed1 : float -> string.

(** [refreshData]; [now] is read by [getTruidaStats]. *)
Definition refreshData (ls : LocalStorage) (now : Z) : Dashboard.t :=
  {| Dashboard.stats := getTruidaStats newDate ls now;
     Dashboard.passengers := getAllPassengers ls;
     Dashboard.logs := rev (sliceLast 50 (getStaffLogs ls)) |}.

(** [handleCleanup]: the sweep reads the clock, then [refreshData] does;
    the count is what the toast reports. *)
Definition handleCleanup (ls : LocalStorage) (sweepNow refreshNow : Z)
    : LocalStorage * Z * Dashboard.t :=
  let '(ls', deletedCount) := cleanupExpiredPassengers newDate ls sweepNow in
  (ls', deletedCount, refreshData ls' refreshNow).

(** [handleClearAll]; [confirmed] is the answer to [window.confirm]. *)
Definition handleClearAll (ls : LocalStorage) (confirmed : bool) (now : Z)
    : LocalStorage * option Dashboard.t :=
  if confirmed
  then (clearAllPassengerData ls, Some (refreshData (clearAllPassengerData ls) now))
  else (ls, None).

(** [handleFileUpload] and [captureAndVerify] of a checkpoint station, after
    the image is processed: the station passes the face hash and embedding
    of the capture and no fingerprint hash. *)
Definition verifyCapture (checkpoint : Checkpoint.t) (ls : LocalStorage)
    (capture : string * list float) (env : Reads)
    : LocalStorage * VerificationResult :=
  processVerification newDate toFixed1 checkpoint ls (fst capture) (snd capture) None env.

End DashboardHandlers.

(** ** Instances of the two engine parameters, used in the examples

    [isoDate] agrees with [new Date(s).getTime()] on the strings
    [YYYY-MM-DDTHH:mmZ] of the ECMAScript date-time format that name a valid
    calendar date, and is [None] on the empty string, as [new Date("")] is
    an Invalid Date.  [toFixedOne] is [Number.prototype.toFixed(1)] below
    1e21. *)

Definition digitValue (c : ascii) : option Z :=
  let n := Z.of_nat (nat_of_ascii c) in
  if (48 <=? n)%Z && (n <=? 57)%Z then Some (n - 48) else None.

Fixpoint digitsValue (cs : list ascii) (acc : Z) : option Z :=
  match cs with
  | [] => Some acc
  | c :: cs' =>
      match digitValue c with
      | Some d => digitsValue cs' (10 * acc + d)
      | None => None
      end
  end.

(** Days from 1970-01-01 to the given civil date. *)
Definition daysFromCivil (y m d : Z) : Z :=
  let y' := if (m <=? 2)%Z then y - 1 else y in
  let era := y' / 400 in
  let yoe := y' - era * 400 in
  let mp := if (2 <? m)%Z then m - 3 else m + 9 in
  let doy := (153 * mp + 2) / 5 + d - 1 in
  let doe := yoe * 365 + yoe / 4 - yoe / 100 + doy in
  era * 146097 + doe - 719468.

Definition isoDate (s : string) : option Z :=
  match list_ascii_of_string s with
  | [y1; y2; y3; y4; "-"%char; m1; m2; "-"%char; d1; d2; "T"%char;
     h1; h2; ":"%char; n1; n2; "Z"%char] =>
      match digitsValue [y1; y2; y3; y4] 0, digitsValue [m1; m2] 0,
            digitsValue [d1; d2] 0, digitsValue [h1; h2] 0, digitsValue [n1; n2] 0 with
      | Some y, Some m, Some d, Some h, Some n =>
          if (1 <=? m)%Z && (m <=? 12)%Z && (1 <=? d)%Z && (d <=? 31)%Z
             && (h <=? 23)%Z && (n <=? 59)%Z
          then Some (((daysFromCivil y m d * 24 + h) * 60 + n) * 60000)
          else None
      | _, _, _, _, _ => None
      end
  | _ => None
  end.

Definition toFixedOne (x : float) : string :=
  match Prim2SF x with
  | S754_nan => "NaN"
  | S754_infinity s => if s then "-Infinity" else "Infinity"
  | S754_zero _ => "0.0"
  | S754_finite s m e =>
      (* the integer n nearest to |x| * 10, the larger one on a tie *)
      let n :=
        if (0 <=? e)%Z then Zpos m * 2 ^ e * 10
        else (20 * Zpos m + 2 ^ (- e)) / 2 ^ (1 - e) in
      (if s then "-" else "")
      ++ NilZero.string_of_uint (N.to_uint (Z.to_N (n / 10)))
      ++ "."
      ++ NilZero.string_of_uint (N.to_uint (Z.to_N (n mod 10)))
  end.

(** ** Example data *)

Definition noCheckpoints : Checkpoints :=
  {| security := false; immigration := false; boarding := false |}.

Definition examplePassenger (i fHash : string) (embedding : option (list float))
    (departure : string) (c : Checkpoints) : PassengerData :=
  {| id := i;
     passportNumber := "X1234567";
     firstName := "Ada";
     lastName := "Byron";
     flightNumber := "EK123";
     gate := "A12";
     departureTime := departure;
     biometrics :=
       {| faceHash := fHash; fingerprintHash := "f1";
          faceEmbedding := option_map (map Element.Number) embedding;
          timestamp := 1767000000000 |};
     enrollmentTime := 1767000000000;
     checkpoints := c;
     guardianId := None |}.

(** Two passengers enrolled under one face hash, whose embeddings score 0.9
    and 0.3 against [presented], and one without an embedding. *)
Definition presented : list float := [1; 0; 0; 0]%float.

Definition alice : PassengerData :=
  examplePassenger "TRU-a" "h1" (Some [9; 3; 3; 1]%float) "2030-01-01T10:00Z" noCheckpoints.

Definition bob : PassengerData :=
  examplePassenger "TRU-b" "h1" (Some [3; 9; 3; 1]%float) "2030-01-01T10:00Z" noCheckpoints.

Definition carol : PassengerData :=
  examplePassenger "TRU-c" "h1" None "2030-01-01T10:00Z" noCheckpoints.

(** A passenger whose stored embedding is orthogonal to [presented]. *)
Definition dave : PassengerData :=
  examplePassenger "TRU-d" "h1" (Some [0; 1; 0; 0]%float) "2030-01-01T10:00Z" noCheckpoints.

(** A passenger whose flight left in 2020. *)
Definition quentin : PassengerData :=
  examplePassenger "TRU-q" "h2" (Some [1; 0; 0; 0]%float) "2020-01-01T10:00Z" noCheckpoints.

(** The same passenger with every checkpoint already cleared. *)
Definition quentinCleared : PassengerData :=
  examplePassenger "TRU-q" "h2" (Some [1; 0; 0; 0]%float) "2020-01-01T10:00Z"
    {| security := true; immigration := true; boarding := true |}.

Definition storeOf (passengers : list PassengerData) : LocalStorage :=
  {| truida_passengers := Some (JSON.stringify passengers); truida_staff_logs := None |}.

(** 2026-01-01T00:00Z and 2031-01-01T00:00Z as time values. *)
Definition t2026 : Z := 1767225600000.
Definition t2031 : Z := 1924992000000.

Definition readsAt (now : Z) (uuid : string) : Reads :=
  {| clock := now; dateNow := now; randomUUID := uuid |}.

(** The presented sample taken to the three stations in turn. *)
Definition callAt (k : Checkpoint.t) (uuid : string) : VerifyCall :=
  {| call_checkpoint := k; call_faceHash := "h1"; call_embedding := presented;
     call_fingerprintHash := None; call_env := readsAt t2026 uuid |}.

Definition throughAllStations : list VerifyCall :=
  [callAt Checkpoint.security "u1"; callAt Checkpoint.immigration "u2";
   callAt Checkpoint.boarding "u3"].

Definition aliceBoarded : PassengerData :=
  examplePassenger "TRU-a" "h1" (Some [9; 3; 3; 1]%float) "2030-01-01T10:00Z"
    {| security := true; immigration := true; boarding := true |}.

Definition exampleForm : Form.t :=
  {| Form.firstName := "Ada"; Form.lastName := "Byron"; Form.passportNumber := "X1234567";
     Form.flightNumber := "EK123"; Form.gate := ""; Form.departureTime := "" |}.

(** ** Vocabulary of the properties *)

(** The sum [x1 * y1 + ... + xn * yn], accumulated from 0 in index order as
    the loop of [calculateFaceSimilarity] does, with binary64 rounding at
    every step. *)
Definition sumOfProducts (e1 e2 : list float) : float :=
  fold_left (fun acc xy => (acc + fst xy * snd xy)%float) (combine e1 e2) 0%float.

(** [updateCheckpointStatus] followed by [savePassengerData] rewrites the
    first record that carries the id, whatever record the caller looked at. *)
Fixpoint updateFirst (i : string) (g : PassengerData -> PassengerData)
    (l : list PassengerData) : list PassengerData :=
  match l with
  | [] => []
  | p :: l' => if id p =? i then g p :: l' else p :: updateFirst i g l'
  end.

(** The prerequisites of a checkpoint, as the two guards test them. *)
Definition prerequisitesMet (checkpoint : Checkpoint.t) (c : Checkpoints) : Prop :=
  (checkpoint = Checkpoint.immigration -> security c = true)
  /\ (checkpoint = Checkpoint.boarding -> security c = true /\ immigration c = true).

(** Checkpoint precedence on one record. *)
Definition precedence (p : PassengerData) : Prop :=
  boarding (checkpoints p) = true ->
  security (checkpoints p) = true /\ immigration (checkpoints p) = true.

(** A record that stands behind another record with the same id is never
    written by a grant, so it keeps the flags it started with.  This keeps
    the invariant inductive without asking that ids be unique. *)
Fixpoint shadowedClear (l : list PassengerData) : Prop :=
  match l with
  | [] => True
  | p :: l' =>
      (forall q, In q l' -> id q = id p -> checkpoints q = noCheckpoints)
      /\ shadowedClear l'
  end.

Definition storeInvariant (l : list PassengerData) : Prop :=
  (forall p, In p l -> precedence p) /\ shadowedClear l.

(** The similarity a candidate contributes to the loop: none when it has no
    stored embedding. *)
Definition score (embedding : list float) (c : PassengerData) : option float :=
  match faceEmbedding (biometrics c) with
  | Some stored => Some (calculateFaceSimilarity (map Element.toNumber stored) embedding)
  | None => None
  end.

(** What the loop returns, from any starting pair. *)
Definition selected (embedding : list float) (l : list PassengerData)
    (start result : PassengerData * float) : Prop :=
  (result = start
   /\ forall c v, In c l -> score embedding c = Some v -> (snd start <? v)%float = false)
  \/ (exists l1 l2,
        l = (l1 ++ fst result :: l2)%list
        /\ score embedding (fst result) = Some (snd result)
        /\ (snd start <? snd result)%float = true
        /\ (forall c v, In c l -> score embedding c = Some v ->
                        (snd result <? v)%float = false)
        /\ (forall c, In c l1 -> score embedding c <> Some (snd result))).






(** One record as a later state of another: the same traveller, flight and
    biometrics, and every checkpoint that was cleared still cleared. *)
Definition advances (p p' : PassengerData) : Prop :=
  id p' = id p
  /\ passportNumber p' = passportNumber p
  /\ firstName p' = firstName p
  /\ lastName p' = lastName p
  /\ flightNumber p' = flightNumber p
  /\ gate p' = gate p
  /\ departureTime p' = departureTime p
  /\ biometrics p' = biometrics p
  /\ enrollmentTime p' = enrollmentTime p
  /\ guardianId p' = guardianId p
  /\ forall k, getCheckpoint (checkpoints p) k = true ->
               getCheckpoint (checkpoints p') k = true.

(** The checkpoints of a record are cleared in order. *)
Definition inOrder (p : PassengerData) : Prop :=
  (immigration (checkpoints p) = true -> security (checkpoints p) = true)
  /\ (boarding (checkpoints p) = true -> immigration (checkpoints p) = true).

(** How many checkpoint flags are set in a record, and in a store. *)
Definition clearedCount (p : PassengerData) : nat :=
  (if security (checkpoints p) then 1 else 0)
  + (if immigration (checkpoints p) then 1 else 0)
  + (if boarding (checkpoints p) then 1 else 0).

Fixpoint clearedTotal (l : list PassengerData) : nat :=
  match l with
  | [] => 0
  | p :: l' => clearedCount p + clearedTotal l'
  end.

(** A log entry as [processVerification] writes them. *)
Definition grantedBySystem (e : StaffLog.StaffLogEntry) : Prop :=
  StaffLog.result (StaffLog.entry e) = StaffLog.granted
  /\ StaffLog.staffId (StaffLog.entry e) = "SYSTEM".

(** The scans that the wizard has collected on reaching a step, whatever
    was pending on the way: an upload is started from the fingerprint step
    only, so the face scan is there when it finishes. *)
Definition scansPresent (w : Enrollment.wizard) : Prop :=
  match Enrollment.currentStep w with
  | Enrollment.info | Enrollment.face => True
  | Enrollment.fingerprint => Enrollment.faceData w <> None
  | Enrollment.complete =>
      Enrollment.faceData w <> None /\ Enrollment.fingerprintHash w <> None
      /\ Enrollment.isProcessing w = false
  end
  /\ (Enrollment.uploads w <> 0%nat -> Enrollment.faceData w <> None).

(** Reading two hexadecimal digits back as a byte: the inverse of the
    rendering in [hashData]. *)
Definition unhexDigit (c : ascii) : N :=
  let n := N_of_ascii c in
  if (n <=? 57)%N then (n - 48)%N else (n - 87)%N.

Definition unhexPair (s : string) : option Byte.byte :=
  match s with
  | String c1 (String c2 EmptyString) => Byte.of_N (16 * unhexDigit c1 + unhexDigit c2)
  | _ => None
  end.

(** A number that [JSON.stringify] writes with digits which read back as
    the same number: it is finite, and it is not the negative zero. *)
Definition exactNumber (x : float) : Prop :=
  PrimFloat.is_finite x = true /\ (PrimFloat.is_zero x = true -> x = 0%float).

Definition exactElement (e : Element.t) : Prop :=
  match e with
  | Element.Number x => exactNumber x
  | Element.Null => True
  end.

(** A passenger object that is read back as it was written: every element
    of its embedding, when it has one, is. *)
Definition readBackAsWritten (p : PassengerData) : Prop :=
  match faceEmbedding (biometrics p) with
  | Some embedding => Forall exactElement embedding
  | None => True
  end.

(** A number that is a zero of either sign, or NaN. *)
Definition zeroOrNaN (x : float) : Prop :=
  match Prim2SF x with
  | S754_zero _ | S754_nan => True
  | _ => False
  end.

(** * Properties *)

(** ** Reading back what was written *)

Lemma JSON_number_exact :
  forall x, JSON.number x = Element.Number x <-> exactNumber x.
Proof.
  intros x. unfold JSON.number, exactNumber.
  destruct (PrimFloat.is_finite x); [|split; [discriminate | intros [H _]; discriminate]].
  destruct (PrimFloat.is_zero x).
  - split.
    + intros H. inversion H. split; [reflexivity | intros _; reflexivity].
    + intros [_ H]. rewrite (H eq_refl). reflexivity.
  - split; [intros _; split; [reflexivity | discriminate] | reflexivity].
Qed.

Lemma JSON_element_exact :
  forall e, JSON.element e = e <-> exactElement e.
Proof.
  intros [x|]; cbn [JSON.element exactElement]; [apply JSON_number_exact|].
  split; [intros _; exact I | reflexivity].
Qed.

(** What was read from a text is written again as the same text. *)
Lemma JSON_element_idempotent :
  forall e, JSON.element (JSON.element e) = JSON.element e.
Proof.
  intros [x|]; [|reflexivity]. cbn [JSON.element]. unfold JSON.number.
  destruct (PrimFloat.is_finite x) eqn:F; [|reflexivity].
  destruct (PrimFloat.is_zero x) eqn:Z; cbn [JSON.element]; unfold JSON.number.
  - reflexivity.
  - rewrite F, Z. reflexivity.
Qed.

Lemma JSON_passengerData_exact :
  forall p, JSON.passengerData p = p <-> readBackAsWritten p.
Proof.
  intros [i pn fn lname fl g d [fh fph emb ts] et c gi].
  unfold JSON.passengerData, JSON.biometricData, readBackAsWritten.
  cbn [id passportNumber firstName lastName flightNumber gate departureTime
       biometrics enrollmentTime checkpoints guardianId faceHash fingerprintHash
       faceEmbedding timestamp].
  destruct emb as [l|]; cbn [option_map]; [|split; [intros _; exact I | reflexivity]].
  assert (H : map JSON.element l = l <-> Forall exactElement l).
  { induction l as [|a l IH]; cbn [map].
    - split; [intros _; constructor | reflexivity].
    - split.
      + intros E. inversion E as [[E1 E2]]. rewrite E1, E2.
        constructor; [apply JSON_element_exact, E1 | apply IH, E2].
      + intros E. inversion E as [|x xs Ha Hl]. subst.
        rewrite (proj2 (JSON_element_exact a) Ha), (proj2 IH Hl). reflexivity. }
  split.
  - intros E. apply H. inversion E as [E']. rewrite E'. exact E'.
  - intros E. rewrite (proj2 H E). reflexivity.
Qed.

Lemma JSON_passengerData_idempotent :
  forall p, JSON.passengerData (JSON.passengerData p) = JSON.passengerData p.
Proof.
  intros p. unfold JSON.passengerData, JSON.biometricData.
  cbn [id passportNumber firstName lastName flightNumber gate departureTime
       biometrics enrollmentTime checkpoints guardianId faceHash fingerprintHash
       faceEmbedding timestamp].
  destruct (faceEmbedding (biometrics p)) as [l|]; cbn [option_map]; [|reflexivity].
  rewrite map_map.
  rewrite (map_ext _ _ JSON_element_idempotent). reflexivity.
Qed.

Lemma map_JSON_stored :
  forall l,
    (forall p, In p l -> JSON.passengerData p = p) -> map JSON.passengerData l = l.
Proof.
  intros l H. induction l as [|a l IH]; [reflexivity|].
  cbn [map]. rewrite (H a (or_introl eq_refl)), IH; [reflexivity|].
  intros p Hp. apply H. right. exact Hp.
Qed.

(** Every passenger that is read from the store is read back as written. *)
Lemma getAllPassengers_stored :
  forall ls p, In p (getAllPassengers ls) -> JSON.passengerData p = p.
Proof.
  intros ls p. unfold getAllPassengers.
  destruct (truida_passengers ls) as [[l]|]; [|intros []].
  cbn [JSON.parse]. intros H. apply in_map_iff in H. destruct H as [q [<- _]].
  apply JSON_passengerData_idempotent.
Qed.

Lemma getAllPassengers_setPassengers :
  forall ls l, getAllPassengers (setPassengers ls l) = map JSON.passengerData l.
Proof. reflexivity. Qed.

(** Writing back passengers that were read from the store. *)
Lemma getAllPassengers_setPassengers_stored :
  forall ls l,
    (forall p, In p l -> JSON.passengerData p = p) ->
    getAllPassengers (setPassengers ls l) = l.
Proof.
  intros ls l H. rewrite getAllPassengers_setPassengers. apply map_JSON_stored, H.
Qed.

Lemma getAllPassengers_setPassengers_filter :
  forall ls ls' (f : PassengerData -> bool),
    getAllPassengers (setPassengers ls' (filter f (getAllPassengers ls)))
    = filter f (getAllPassengers ls).
Proof.
  intros ls ls' f. apply getAllPassengers_setPassengers_stored.
  intros p Hp. apply filter_In in Hp. apply (getAllPassengers_stored ls), Hp.
Qed.

Lemma map_assign :
  forall (A B : Type) (f : A -> B) (l : list A) n x,
    map f (assign l n x) = assign (map f l) n (f x).
Proof.
  intros A B f l. induction l as [|a l IH]; intros [|n] x; cbn [assign map];
    try reflexivity.
  rewrite IH. reflexivity.
Qed.

(** The passengers after a save: the saved one is read back as
    [JSON.stringify] wrote it, the others as they were. *)
Lemma getAllPassengers_savePassengerData :
  forall ls p,
    getAllPassengers (savePassengerData ls p)
    = match findIndex (fun q => id q =? id p) (getAllPassengers ls) with
      | Some n => assign (getAllPassengers ls) n (JSON.passengerData p)
      | None => (getAllPassengers ls ++ [JSON.passengerData p])%list
      end.
Proof.
  intros ls p. unfold savePassengerData.
  destruct (findIndex (fun q => id q =? id p) (getAllPassengers ls)) as [n|];
    rewrite getAllPassengers_setPassengers.
  - rewrite map_assign, (map_JSON_stored _ (getAllPassengers_stored ls)). reflexivity.
  - rewrite map_app, (map_JSON_stored _ (getAllPassengers_stored ls)). reflexivity.
Qed.

Lemma JSON_passengerData_withCheckpoint :
  forall p k b,
    JSON.passengerData (withCheckpoint p k b) = withCheckpoint (JSON.passengerData p) k b.
Proof. reflexivity. Qed.

Lemma getStaffLogs_setPassengers :
  forall ls l, getStaffLogs (setPassengers ls l) = getStaffLogs ls.
Proof. reflexivity. Qed.

Lemma getAllPassengers_setStaffLogs :
  forall ls l, getAllPassengers (setStaffLogs ls l) = getAllPassengers ls.
Proof. reflexivity. Qed.

Lemma getStaffLogs_setStaffLogs :
  forall ls l, getStaffLogs (setStaffLogs ls l) = l.
Proof. reflexivity. Qed.

(** ** Similarity *)

Lemma calculateFaceSimilarity_length_mismatch :
  forall embedding1 embedding2 : list float,
    List.length embedding1 <> List.length embedding2 ->
    calculateFaceSimilarity embedding1 embedding2 = 0%float.
Proof.
  intros e1 e2 Hlen. unfold calculateFaceSimilarity.
  destruct (Nat.eqb (List.length e1) (List.length e2)) eqn:E.
  - apply Nat.eqb_eq in E. contradiction.
  - reflexivity.
Qed.

Lemma similarityLoop_sums :
  forall e1 e2 d n1 n2,
    List.length e1 = List.length e2 ->
    similarityLoop e1 e2 (d, n1, n2)
    = (fold_left (fun acc xy => (acc + fst xy * snd xy)%float) (combine e1 e2) d,
       fold_left (fun acc xy => (acc + fst xy * snd xy)%float) (combine e1 e1) n1,
       fold_left (fun acc xy => (acc + fst xy * snd xy)%float) (combine e2 e2) n2).
Proof.
  intros e1. induction e1 as [|x e1 IH]; intros [|y e2] d n1 n2 Hlen;
    try discriminate; [reflexivity|].
  cbn [similarityLoop combine fold_left fst snd]. apply IH.
  cbn [List.length] in Hlen. congruence.
Qed.

(** On two arrays of one length the result is the quotient of the dot
    product by the product of the two norms, each operation rounded. *)
Lemma calculateFaceSimilarity_equal_length :
  forall embedding1 embedding2 : list float,
    List.length embedding1 = List.length embedding2 ->
    calculateFaceSimilarity embedding1 embedding2
    = (sumOfProducts embedding1 embedding2
       / (PrimFloat.sqrt (sumOfProducts embedding1 embedding1)
          * PrimFloat.sqrt (sumOfProducts embedding2 embedding2)))%float.
Proof.
  intros e1 e2 Hlen. unfold calculateFaceSimilarity.
  rewrite Hlen, Nat.eqb_refl. cbn [negb].
  rewrite (similarityLoop_sums e1 e2 _ _ _ Hlen). reflexivity.
Qed.

(** The rounded quotient can leave the interval [-1, 1]. *)
Lemma calculateFaceSimilarity_above_one :
  (1 <? calculateFaceSimilarity [1; 1; 1] [1; 1; 1])%float = true.
Proof. vm_compute. reflexivity. Qed.

(** C5 (the code departs from the specification).  The specification asks
    for 0, not NaN, when a vector has zero norm.  [calculateFaceSimilarity]
    has no such case: when one of two vectors of equal length is the zero
    vector it divides 0 by 0 and returns NaN, while the length guard in
    front of the loop does return 0. *)
Theorem calculateFaceSimilarity_zero_norm_is_nan :
  calculateFaceSimilarity [0; 0; 0]%float [0; 0; 0]%float = nan
  /\ calculateFaceSimilarity [0; 0; 0]%float [1; 2; 3]%float = nan
  /\ calculateFaceSimilarity [0; 0; 0]%float [1; 2]%float = 0%float.
Proof. repeat split; vm_compute; reflexivity. Qed.

(** ** Deleting a passenger *)

Lemma filter_id_unchanged :
  forall (f : PassengerData -> bool) (l : list PassengerData),
    find f l = None -> filter (fun p => negb (f p)) l = l.
Proof.
  intros f l. induction l as [|a l IH]; simpl; intros H; [reflexivity|].
  destruct (f a); [discriminate|]. simpl. f_equal. apply IH, H.
Qed.

Lemma find_filter_negb :
  forall (f : PassengerData -> bool) (l : list PassengerData),
    find f (filter (fun p => negb (f p)) l) = None.
Proof.
  intros f l. induction l as [|a l IH]; simpl; [reflexivity|].
  destruct (f a) eqn:E; simpl; [exact IH|]. rewrite E. exact IH.
Qed.

(** C9, counterexample: no record is stored, and the result is [true]. *)
Lemma deletePassengerData_absent_true :
  getPassengerById emptyStorage "TRU-a" = None
  /\ snd (deletePassengerData emptyStorage "TRU-a") = true
  /\ getPassengerById (storeOf [bob]) "TRU-a" = None
  /\ snd (deletePassengerData (storeOf [bob]) "TRU-a") = true.
Proof. repeat split. Qed.

(** C9, amended.  [deletePassengerData] returns [true] whether or not a record
    with the id is stored.  It removes every record with that id and keeps
    the others in order; on an absent id the list of passengers is
    unchanged.  The log is untouched. *)
Theorem deletePassengerData_spec :
  forall (ls : LocalStorage) (passengerId : string),
    snd (deletePassengerData ls passengerId) = true
    /\ getAllPassengers (fst (deletePassengerData ls passengerId))
       = filter (fun p => negb (id p =? passengerId)) (getAllPassengers ls)
    /\ getPassengerById (fst (deletePassengerData ls passengerId)) passengerId = None
    /\ (getPassengerById ls passengerId = None ->
        getAllPassengers (fst (deletePassengerData ls passengerId)) = getAllPassengers ls)
    /\ getStaffLogs (fst (deletePassengerData ls passengerId)) = getStaffLogs ls.
Proof.
  intros ls i. unfold deletePassengerData, getPassengerById. cbn [fst snd].
  rewrite getAllPassengers_setPassengers_filter.
  split; [reflexivity|]. split; [reflexivity|]. split; [|split].
  - apply (find_filter_negb (fun p => id p =? i)).
  - intros H. apply (filter_id_unchanged (fun p => id p =? i)), H.
  - reflexivity.
Qed.

(** ** The expiry sweep *)

Section Sweep.

Variable newDate : string -> option Z.

Lemma isFlightValid_iff :
  forall now s,
    isFlightValid newDate now s = true <->
    exists departure, newDate s = Some departure /\ (now < departure)%Z.
Proof.
  intros now s. unfold isFlightValid. destruct (newDate s) as [d|].
  - rewrite Z.ltb_lt. split.
    + intros H. exists d. split; [reflexivity | exact H].
    + intros [d' [E H]]. inversion E. subst. exact H.
  - split; [discriminate | intros [d' [E _]]; discriminate].
Qed.

Lemma isFlightValid_departed :
  forall now s departure,
    newDate s = Some departure -> (departure <= now)%Z ->
    isFlightValid newDate now s = false.
Proof.
  intros now s d E H. unfold isFlightValid. rewrite E. apply Z.ltb_ge, H.
Qed.

Lemma filter_length_split :
  forall (A : Type) (f : A -> bool) (l : list A),
    (Z.of_nat (List.length l) - Z.of_nat (List.length (filter f l)))%Z
    = Z.of_nat (List.length (filter (fun x => negb (f x)) l)).
Proof.
  intros A f l. induction l as [|a l IH]; [reflexivity|].
  cbn [filter]. destruct (f a); cbn [negb List.length];
    rewrite ?Nat2Z.inj_succ; lia.
Qed.

Lemma filter_idempotent :
  forall (A : Type) (f : A -> bool) (l : list A),
    filter f (filter f l) = filter f l.
Proof.
  intros A f l. induction l as [|a l IH]; simpl; [reflexivity|].
  destruct (f a) eqn:E; simpl; [rewrite E, IH|]; auto.
Qed.

Lemma filter_filter_andb :
  forall (A : Type) (f g : A -> bool) (l : list A),
    filter f (filter g l) = filter (fun x => g x && f x) l.
Proof.
  intros A f g l. induction l as [|a l IH]; [reflexivity|].
  cbn [filter]. destruct (g a); cbn [filter andb]; [destruct (f a)|];
    rewrite IH; reflexivity.
Qed.

(** C8, amended.  The sweep at [now] keeps, in order, exactly the records
    whose departure time parses to an instant strictly after [now]; it
    removes the others (departure at or before [now], and also a departure
    string that does not parse) and returns how many it removed.  A second
    sweep at the same [now] removes nothing and returns 0, and a sweep of
    an empty store returns 0.  A second sweep at another instant [now']
    removes the survivors that are no longer valid at [now'], that is, the
    records that departed in between.  The log is untouched. *)
Theorem cleanupExpiredPassengers_spec :
  forall (ls : LocalStorage) (now : Z),
    let r := cleanupExpiredPassengers newDate ls now in
    getAllPassengers (fst r)
    = filter (fun p => isFlightValid newDate now (departureTime p)) (getAllPassengers ls)
    /\ (forall p, In p (getAllPassengers (fst r)) <->
                  In p (getAllPassengers ls)
                  /\ exists departure,
                       newDate (departureTime p) = Some departure /\ (now < departure)%Z)
    /\ snd r = Z.of_nat (List.length
                 (filter (fun p => negb (isFlightValid newDate now (departureTime p)))
                    (getAllPassengers ls)))
    /\ getStaffLogs (fst r) = getStaffLogs ls
    /\ cleanupExpiredPassengers newDate (fst r) now = (fst r, 0%Z)
    /\ snd (cleanupExpiredPassengers newDate emptyStorage now) = 0%Z
    /\ (forall now',
          snd (cleanupExpiredPassengers newDate (fst r) now')
          = Z.of_nat (List.length
              (filter (fun p => isFlightValid newDate now (departureTime p)
                                && negb (isFlightValid newDate now' (departureTime p)))
                 (getAllPassengers ls)))).
Proof.
  intros ls now r. subst r.
  unfold cleanupExpiredPassengers. cbn [fst snd].
  rewrite !getAllPassengers_setPassengers_filter.
  split; [reflexivity|]. split.
  { intros p. rewrite filter_In, <- isFlightValid_iff. reflexivity. }
  split; [apply (filter_length_split _ (fun p => isFlightValid newDate now (departureTime p)))|].
  split; [reflexivity|]. split.
  { rewrite filter_idempotent, Z.sub_diag. reflexivity. }
  split; [reflexivity|].
  intros now'.
  rewrite (filter_length_split _ (fun p => isFlightValid newDate now' (departureTime p))).
  rewrite filter_filter_andb. reflexivity.
Qed.

End Sweep.

(** C8, counterexample: a flight leaving in 2030 survives the sweep of 2026,
    and a second sweep at a later instant (2031) removes one record. *)
Lemma cleanup_twice_later_now_removes :
  (t2026 <= t2031)%Z
  /\ snd (cleanupExpiredPassengers isoDate (storeOf [alice]) t2026) = 0%Z
  /\ snd (cleanupExpiredPassengers isoDate
            (fst (cleanupExpiredPassengers isoDate (storeOf [alice]) t2026)) t2031) = 1%Z.
Proof. repeat split; vm_compute; congruence. Qed.

(** A record whose departure string does not parse is swept as well. *)
Lemma cleanup_removes_unparseable :
  snd (cleanupExpiredPassengers isoDate
         (storeOf [examplePassenger "TRU-e" "h3" None "" noCheckpoints]) t2026) = 1%Z.
Proof. reflexivity. Qed.

(** ** Verification: order of the checks, and the log *)

Lemma getStaffLogs_savePassengerData :
  forall ls p, getStaffLogs (savePassengerData ls p) = getStaffLogs ls.
Proof.
  intros ls p. unfold savePassengerData.
  destruct (findIndex _ _); apply getStaffLogs_setPassengers.
Qed.

Lemma getStaffLogs_updateCheckpointStatus :
  forall ls i k b,
    getStaffLogs (fst (updateCheckpointStatus ls i k b)) = getStaffLogs ls.
Proof.
  intros ls i k b. unfold updateCheckpointStatus.
  destruct (find _ _); cbn [fst]; [apply getStaffLogs_savePassengerData | reflexivity].
Qed.

Lemma outcome_granted_message :
  forall b p name s,
    outcome {| success := b; passenger := p;
               message := "Access granted. Welcome, " ++ name ++ "!";
               similarity := s |} = GRANTED.
Proof. intros. reflexivity. Qed.

Section Verification.

Variable newDate : string -> option Z.
Variable toFixed1 : float -> string.

(** C1.  When some candidate matches and the departure time of the selected
    best match is at or before the time of the call, the result is the
    denial "Flight has already departed", carrying the best match and its
    similarity, and nothing is written; this holds for every requested
    checkpoint and every value of the record's checkpoint flags. *)
Theorem flight_departed_before_other_checks :
  forall checkpoint ls fHash embedding fpHash env first rest departure,
    findPassengersByBiometrics ls fHash fpHash = first :: rest ->
    let best := selectBestMatch fHash fpHash embedding first (first :: rest) in
    newDate (departureTime (fst best)) = Some departure ->
    (departure <= clock env)%Z ->
    let r := processVerification newDate toFixed1 checkpoint ls fHash embedding fpHash env in
    r = (ls, {| success := false;
                passenger := Some (fst best);
                message := "Flight has already departed. Access denied.";
                similarity := Some (snd best) |})
    /\ outcome (snd r) = FLIGHT_DEPARTED.
Proof.
  intros checkpoint ls fHash embedding fpHash env first rest departure Hc best Hd Hle r.
  assert (E : r = (ls, {| success := false;
                          passenger := Some (fst best);
                          message := "Flight has already departed. Access denied.";
                          similarity := Some (snd best) |})).
  { subst r. unfold processVerification. rewrite Hc. fold best.
    destruct best as [b s]. cbn [fst snd] in *.
    rewrite (isFlightValid_departed newDate _ _ _ Hd Hle). reflexivity. }
  split; [exact E | rewrite E; reflexivity].
Qed.

(** C2, amended.  A verification appends exactly one log entry when its
    outcome is GRANTED: the entry has result [granted] and notes
    "Similarity: s%", with s the similarity times 100 to one decimal.
    For every other outcome (NO_MATCH, FLIGHT_DEPARTED,
    PREREQUISITE_MISSING, ALREADY_CLEARED) the store, and so the log, is
    left as it was. *)
Theorem processVerification_log :
  forall checkpoint ls fHash embedding fpHash env,
    let r := processVerification newDate toFixed1 checkpoint ls fHash embedding fpHash env in
    match outcome (snd r) with
    | GRANTED =>
        exists best sim,
          passenger (snd r) = Some best
          /\ similarity (snd r) = Some sim
          /\ getStaffLogs (fst r)
             = (getStaffLogs ls ++ [grantEntry toFixed1 checkpoint best sim env])%list
    | _ => fst r = ls
    end.
Proof.
  intros checkpoint ls fHash embedding fpHash env r. subst r.
  unfold processVerification.
  destruct (findPassengersByBiometrics ls fHash fpHash) as [|first rest];
    [reflexivity|].
  destruct (selectBestMatch fHash fpHash embedding first (first :: rest)) as [best sim].
  destruct (negb (isFlightValid newDate (clock env) (departureTime best)));
    [reflexivity|].
  destruct (Checkpoint.eqb checkpoint Checkpoint.immigration
            && negb (security (checkpoints best))); [reflexivity|].
  destruct (Checkpoint.eqb checkpoint Checkpoint.boarding
            && (negb (security (checkpoints best))
                || negb (immigration (checkpoints best)))); [reflexivity|].
  destruct (getCheckpoint (checkpoints best) checkpoint); [reflexivity|].
  cbn [fst snd]. rewrite outcome_granted_message.
  exists best, sim. split; [reflexivity|]. split; [reflexivity|].
  unfold logCheckpointAccess. rewrite getStaffLogs_setStaffLogs.
  rewrite getStaffLogs_updateCheckpointStatus. reflexivity.
Qed.

End Verification.

(** C1 at a concrete call: a passenger whose flight left in 2020 and whose
    three checkpoints are already cleared asks for boarding in 2026. *)
Lemma flight_departed_before_other_checks_witness :
  outcome
    (snd (processVerification isoDate toFixedOne Checkpoint.boarding
            (storeOf [quentinCleared]) "h2" presented None (readsAt t2026 "u1")))
  = FLIGHT_DEPARTED.
Proof.
  refine (proj2 (flight_departed_before_other_checks isoDate toFixedOne
                   Checkpoint.boarding (storeOf [quentinCleared]) "h2" presented None
                   (readsAt t2026 "u1") quentinCleared [] 1577872800000 _ _ _)).
  - reflexivity.
  - reflexivity.
  - vm_compute. discriminate.
Defined.

(** C2, counterexample: a passenger whose flight has left is denied, another
    is denied for a missing prerequisite, and neither verification appends a
    log entry. *)
Lemma denial_is_not_logged :
  let departed :=
    processVerification isoDate toFixedOne Checkpoint.security (storeOf [quentin])
      "h2" presented None (readsAt t2026 "u1") in
  let missing :=
    processVerification isoDate toFixedOne Checkpoint.boarding (storeOf [alice])
      "h1" presented None (readsAt t2026 "u2") in
  outcome (snd departed) = FLIGHT_DEPARTED
  /\ getStaffLogs (fst departed) = []
  /\ outcome (snd missing) = PREREQUISITE_MISSING
  /\ getStaffLogs (fst missing) = [].
Proof. repeat split. Qed.

(** ** The write of a grant, seen on the list of passengers *)

Lemma id_withCheckpoint :
  forall p k b, id (withCheckpoint p k b) = id p.
Proof. reflexivity. Qed.

Lemma save_after_find :
  forall (i : string) (g : PassengerData -> PassengerData) (l : list PassengerData),
    (forall p, id (g p) = id p) ->
    match find (fun p => id p =? i) l with
    | Some passenger =>
        match findIndex (fun p => id p =? id (g passenger)) l with
        | Some n => assign l n (g passenger)
        | None => (l ++ [g passenger])%list
        end
    | None => l
    end = updateFirst i g l.
Proof.
  intros i g l Hg. induction l as [|a l IH]; [reflexivity|].
  cbn [find updateFirst]. destruct (id a =? i) eqn:E.
  - cbn [findIndex]. rewrite Hg, String.eqb_refl. reflexivity.
  - destruct (find (fun p => id p =? i) l) as [q|] eqn:F.
    + cbn [findIndex].
      assert (Hq : id q = i).
      { apply find_some in F. apply String.eqb_eq, F. }
      rewrite Hg, Hq, E. rewrite Hg, Hq in IH.
      destruct (findIndex (fun p => id p =? i) l) as [n|]; cbn [option_map].
      * cbn [assign]. f_equal. exact IH.
      * cbn [app]. f_equal. exact IH.
    + f_equal. exact IH.
Qed.

Lemma getAllPassengers_updateCheckpointStatus :
  forall ls i k b,
    getAllPassengers (fst (updateCheckpointStatus ls i k b))
    = updateFirst i (fun p => withCheckpoint p k b) (getAllPassengers ls).
Proof.
  intros ls i k b.
  rewrite <- (save_after_find i (fun p => withCheckpoint p k b) (getAllPassengers ls))
    by (intros; reflexivity).
  unfold updateCheckpointStatus.
  destruct (find (fun p => id p =? i) (getAllPassengers ls)) as [q|] eqn:F;
    [|reflexivity].
  cbn [fst]. rewrite getAllPassengers_savePassengerData.
  rewrite JSON_passengerData_withCheckpoint.
  rewrite (getAllPassengers_stored ls q (proj1 (find_some _ _ F))). reflexivity.
Qed.

Lemma In_updateFirst :
  forall i g l q,
    In q (updateFirst i g l) ->
    In q l \/ exists p, In p l /\ id p = i /\ q = g p.
Proof.
  intros i g l q. induction l as [|a l IH]; cbn [updateFirst]; [tauto|].
  destruct (id a =? i) eqn:E.
  - intros [H|H].
    + right. exists a. split; [left; reflexivity|].
      split; [apply String.eqb_eq, E | symmetry; exact H].
    + left. right. exact H.
  - intros [H|H].
    + left. left. exact H.
    + destruct (IH H) as [H1|[p [H1 [H2 H3]]]].
      * left. right. exact H1.
      * right. exists p. split; [right; exact H1 | split; assumption].
Qed.

(** With unique ids the rewritten record is the one that carries the id, and
    the write is a pointwise map. *)
Lemma updateFirst_map :
  forall i g l,
    NoDup (map id l) ->
    updateFirst i g l = map (fun p => if id p =? i then g p else p) l.
Proof.
  intros i g l. induction l as [|a l IH]; [reflexivity|].
  cbn [map updateFirst]. intros Hnd. inversion Hnd as [|x xs Hnotin Hnd']. subst.
  destruct (id a =? i) eqn:E.
  - f_equal. apply String.eqb_eq in E. subst i.
    clear IH Hnd Hnd'. induction l as [|c l IHl]; [reflexivity|].
    cbn [map] in *. destruct (id c =? id a) eqn:Ec.
    + apply String.eqb_eq in Ec. exfalso. apply Hnotin. left. exact Ec.
    + f_equal. apply IHl. intros H. apply Hnotin. right. exact H.
  - f_equal. apply IH, Hnd'.
Qed.

Lemma updateFirst_assign :
  forall i g l n best,
    NoDup (map id l) ->
    nth_error l n = Some best -> id best = i ->
    updateFirst i g l = assign l n (g best).
Proof.
  intros i g l. induction l as [|a l IH]; intros n best Hnd Hn Hi.
  - destruct n; discriminate.
  - inversion Hnd as [|x xs Hnotin Hnd']. subst. cbn [updateFirst].
    destruct n as [|n]; cbn [nth_error] in Hn.
    + inversion Hn. subst. rewrite String.eqb_refl. reflexivity.
    + destruct (id a =? id best) eqn:E.
      * apply String.eqb_eq in E. exfalso. apply Hnotin. rewrite E.
        apply in_map, (nth_error_In _ _ Hn).
      * cbn [assign]. f_equal. apply (IH n best Hnd' Hn eq_refl).
Qed.

Lemma nth_error_assign_same :
  forall (A : Type) (l : list A) n x y,
    nth_error l n = Some y -> nth_error (assign l n x) n = Some x.
Proof.
  intros A l. induction l as [|a l IH]; intros [|n] x y H; try discriminate.
  - reflexivity.
  - cbn [assign nth_error] in *. apply (IH _ _ _ H).
Qed.

Lemma nth_error_assign_other :
  forall (A : Type) (l : list A) n m x,
    m <> n -> nth_error (assign l n x) m = nth_error l m.
Proof.
  intros A l. induction l as [|a l IH]; intros [|n] [|m] x H;
    try reflexivity; try congruence.
  cbn [assign nth_error]. apply IH. congruence.
Qed.

(** ** Best-match selection always returns one of the candidates *)

Lemma selectBestMatch_In :
  forall fHash fpHash embedding candidates best0,
    let r := fold_left (bestMatchStep fHash fpHash embedding) candidates best0 in
    fst r = fst best0 \/ In (fst r) candidates.
Proof.
  intros fHash fpHash embedding candidates.
  induction candidates as [|c cs IH]; intros best0; cbn [fold_left].
  - left. reflexivity.
  - destruct (IH (bestMatchStep fHash fpHash embedding best0 c)) as [H|H].
    + cbn zeta. rewrite H. unfold bestMatchStep.
      destruct (faceEmbedding (biometrics c)); [|left; reflexivity].
      destruct (_ <? _)%float; [right; left; reflexivity | left; reflexivity].
    + right. right. exact H.
Qed.

Lemma findPassengersByBiometrics_In :
  forall ls fHash fpHash p,
    In p (findPassengersByBiometrics ls fHash fpHash) -> In p (getAllPassengers ls).
Proof.
  intros ls fHash fpHash p H. unfold findPassengersByBiometrics in H.
  apply filter_In in H. apply H.
Qed.

(** ** The two shapes of a verification: nothing written, or a grant *)

Section Grant.

Variable newDate : string -> option Z.
Variable toFixed1 : float -> string.

Lemma processVerification_grant :
  forall checkpoint ls fHash embedding fpHash env first rest best sim,
    findPassengersByBiometrics ls fHash fpHash = first :: rest ->
    selectBestMatch fHash fpHash embedding first (first :: rest) = (best, sim) ->
    isFlightValid newDate (clock env) (departureTime best) = true ->
    prerequisitesMet checkpoint (checkpoints best) ->
    getCheckpoint (checkpoints best) checkpoint = false ->
    processVerification newDate toFixed1 checkpoint ls fHash embedding fpHash env
    = grantResult toFixed1 checkpoint ls best sim env.
Proof.
  intros checkpoint ls fHash embedding fpHash env first rest best sim
    Hc Hs Hv [Hi Hb] Hk.
  unfold processVerification. rewrite Hc, Hs, Hv. cbn [negb].
  destruct checkpoint; cbn [Checkpoint.eqb andb].
  - cbn [getCheckpoint] in Hk. cbn [getCheckpoint]. rewrite Hk. reflexivity.
  - rewrite (Hi eq_refl). cbn [negb getCheckpoint] in *. rewrite Hk. reflexivity.
  - destruct (Hb eq_refl) as [H1 H2]. rewrite H1, H2.
    cbn [negb orb getCheckpoint] in *. rewrite Hk. reflexivity.
Qed.

Lemma processVerification_already_cleared :
  forall checkpoint ls fHash embedding fpHash env first rest best sim,
    findPassengersByBiometrics ls fHash fpHash = first :: rest ->
    selectBestMatch fHash fpHash embedding first (first :: rest) = (best, sim) ->
    isFlightValid newDate (clock env) (departureTime best) = true ->
    prerequisitesMet checkpoint (checkpoints best) ->
    getCheckpoint (checkpoints best) checkpoint = true ->
    processVerification newDate toFixed1 checkpoint ls fHash embedding fpHash env
    = (ls, {| success := true;
              passenger := Some best;
              message := "Already cleared this checkpoint. Access granted.";
              similarity := Some sim |}).
Proof.
  intros checkpoint ls fHash embedding fpHash env first rest best sim
    Hc Hs Hv [Hi Hb] Hk.
  unfold processVerification. rewrite Hc, Hs, Hv. cbn [negb].
  destruct checkpoint; cbn [Checkpoint.eqb andb].
  - cbn [getCheckpoint] in Hk. cbn [getCheckpoint]. rewrite Hk. reflexivity.
  - rewrite (Hi eq_refl). cbn [negb getCheckpoint] in *. rewrite Hk. reflexivity.
  - destruct (Hb eq_refl) as [H1 H2]. rewrite H1, H2.
    cbn [negb orb getCheckpoint] in *. rewrite Hk. reflexivity.
Qed.

Lemma processVerification_inv :
  forall checkpoint ls fHash embedding fpHash env,
    let r := processVerification newDate toFixed1 checkpoint ls fHash embedding fpHash env in
    (outcome (snd r) <> GRANTED /\ fst r = ls)
    \/ exists first rest best sim,
         findPassengersByBiometrics ls fHash fpHash = first :: rest
         /\ selectBestMatch fHash fpHash embedding first (first :: rest) = (best, sim)
         /\ In best (getAllPassengers ls)
         /\ isFlightValid newDate (clock env) (departureTime best) = true
         /\ prerequisitesMet checkpoint (checkpoints best)
         /\ getCheckpoint (checkpoints best) checkpoint = false
         /\ r = grantResult toFixed1 checkpoint ls best sim env.
Proof.
  intros checkpoint ls fHash embedding fpHash env r. subst r.
  unfold processVerification.
  destruct (findPassengersByBiometrics ls fHash fpHash) as [|first rest] eqn:Hc.
  { left. split; [discriminate | reflexivity]. }
  destruct (selectBestMatch fHash fpHash embedding first (first :: rest))
    as [best sim] eqn:Hs.
  assert (Hin : In best (getAllPassengers ls)).
  { apply (findPassengersByBiometrics_In ls fHash fpHash). rewrite Hc.
    pose proof (selectBestMatch_In fHash fpHash embedding (first :: rest)
                  (first, 0%float)) as H.
    cbv zeta in H. unfold selectBestMatch in Hs. rewrite Hs in H. cbn [fst] in H.
    destruct H as [H|H]; [left; symmetry; exact H | exact H]. }
  destruct (isFlightValid newDate (clock env) (departureTime best)) eqn:Hv; cbn [negb].
  2:{ left. split; [discriminate | reflexivity]. }
  destruct (Checkpoint.eqb checkpoint Checkpoint.immigration
            && negb (security (checkpoints best))) eqn:Hi.
  { left. split; [discriminate | reflexivity]. }
  destruct (Checkpoint.eqb checkpoint Checkpoint.boarding
            && (negb (security (checkpoints best))
                || negb (immigration (checkpoints best)))) eqn:Hb.
  { left. split; [discriminate | reflexivity]. }
  destruct (getCheckpoint (checkpoints best) checkpoint) eqn:Hk.
  { left. split; [discriminate | reflexivity]. }
  assert (Hp : prerequisitesMet checkpoint (checkpoints best)).
  { split.
    - intros ->. cbn [Checkpoint.eqb andb] in Hi.
      destruct (security (checkpoints best)); [reflexivity | discriminate].
    - intros ->. cbn [Checkpoint.eqb andb] in Hb.
      destruct (security (checkpoints best)), (immigration (checkpoints best));
        try discriminate. split; reflexivity. }
  right. exists first, rest, best, sim.
  split; [first [exact Hc | reflexivity]|]. split; [exact Hs|].
  split; [exact Hin|]. split; [exact Hv|]. split; [exact Hp|].
  split; [exact Hk | reflexivity].
Qed.

End Grant.

(** ** Checkpoint precedence as an invariant of the store *)

Lemma storeInvariant_initial :
  forall l,
    (forall p, In p l -> checkpoints p = noCheckpoints) -> storeInvariant l.
Proof.
  intros l H. split.
  - intros p Hp Hb. rewrite (H p Hp) in Hb. discriminate.
  - induction l as [|a l IH]; cbn [shadowedClear]; [exact I|]. split.
    + intros q Hq _. apply H. right. exact Hq.
    + apply IH. intros p Hp. apply H. right. exact Hp.
Qed.

Lemma precedence_withCheckpoint :
  forall k p,
    precedence p -> prerequisitesMet k (checkpoints p) ->
    precedence (withCheckpoint p k true).
Proof.
  intros k p Hp [Hi Hb]. unfold precedence in *.
  destruct k; cbn [withCheckpoint checkpoints setCheckpoint security immigration boarding].
  - intros H. destruct (Hp H) as [_ H2]. split; [reflexivity | exact H2].
  - intros _. split; [exact (Hi eq_refl) | reflexivity].
  - intros _. exact (Hb eq_refl).
Qed.

Lemma prerequisitesMet_clear :
  forall k c c',
    c = noCheckpoints -> prerequisitesMet k c -> prerequisitesMet k c'.
Proof.
  intros k c c' -> [Hi Hb]. split; intros ->.
  - specialize (Hi eq_refl). discriminate.
  - destruct (Hb eq_refl). discriminate.
Qed.

Lemma storeInvariant_grant :
  forall k best l,
    storeInvariant l -> In best l -> prerequisitesMet k (checkpoints best) ->
    storeInvariant (updateFirst (id best) (fun p => withCheckpoint p k true) l).
Proof.
  intros k best l. induction l as [|a l IH]; intros [Hprec Hsh] Hin Hpre.
  - destruct Hin.
  - cbn [shadowedClear] in Hsh. destruct Hsh as [Hhead Htail].
    cbn [updateFirst]. destruct (id a =? id best) eqn:E.
    + apply String.eqb_eq in E. split.
      * intros p [Hp|Hp]; [|apply Hprec; right; exact Hp]. subst p.
        apply precedence_withCheckpoint; [apply Hprec; left; reflexivity|].
        destruct Hin as [Hin|Hin]; [subst a; exact Hpre|].
        apply (prerequisitesMet_clear k (checkpoints best)); [|exact Hpre].
        apply Hhead; [exact Hin | symmetry; exact E].
      * cbn [shadowedClear]. split; [|exact Htail].
        intros q Hq Hid. apply Hhead; [exact Hq | exact Hid].
    + assert (Hin' : In best l).
      { destruct Hin as [Hin|Hin]; [|exact Hin]. subst a.
        rewrite String.eqb_refl in E. discriminate. }
      destruct (IH (conj (fun p Hp => Hprec p (or_intror Hp)) Htail) Hin' Hpre)
        as [IH1 IH2].
      split.
      * intros p [Hp|Hp]; [apply Hprec; left; exact Hp | apply IH1, Hp].
      * cbn [shadowedClear]. split; [|exact IH2].
        intros q Hq Hid. apply In_updateFirst in Hq.
        destruct Hq as [Hq|[p0 [_ [Hp0 Hq]]]]; [apply Hhead; assumption|].
        subst q. rewrite id_withCheckpoint in Hid. rewrite Hp0 in Hid.
        rewrite Hid, String.eqb_refl in E. discriminate.
Qed.

Section Precedence.

Variable newDate : string -> option Z.
Variable toFixed1 : float -> string.

Lemma storeInvariant_processVerification :
  forall checkpoint ls fHash embedding fpHash env,
    storeInvariant (getAllPassengers ls) ->
    storeInvariant
      (getAllPassengers
         (fst (processVerification newDate toFixed1 checkpoint ls fHash embedding fpHash env))).
Proof.
  intros checkpoint ls fHash embedding fpHash env Hinv.
  destruct (processVerification_inv newDate toFixed1 checkpoint ls fHash embedding fpHash env)
    as [[_ H]|[first [rest [best [sim [_ [_ [Hin [_ [Hpre [_ H]]]]]]]]]]].
  - rewrite H. exact Hinv.
  - rewrite H. unfold grantResult. cbn [fst]. unfold logCheckpointAccess.
    rewrite getAllPassengers_setStaffLogs, getAllPassengers_updateCheckpointStatus.
    apply storeInvariant_grant; assumption.
Qed.

Lemma storeInvariant_verifyAll :
  forall calls ls,
    storeInvariant (getAllPassengers ls) ->
    storeInvariant (getAllPassengers (verifyAll newDate toFixed1 ls calls)).
Proof.
  intros calls. induction calls as [|c cs IH]; intros ls Hinv; [exact Hinv|].
  unfold verifyAll. cbn [fold_left]. apply IH. unfold verifyCall.
  apply storeInvariant_processVerification, Hinv.
Qed.

Lemma processVerification_prerequisite_missing :
  forall checkpoint ls fHash embedding fpHash env first rest best sim,
    findPassengersByBiometrics ls fHash fpHash = first :: rest ->
    selectBestMatch fHash fpHash embedding first (first :: rest) = (best, sim) ->
    isFlightValid newDate (clock env) (departureTime best) = true ->
    (checkpoint = Checkpoint.immigration /\ security (checkpoints best) = false)
    \/ (checkpoint = Checkpoint.boarding
        /\ (security (checkpoints best) = false \/ immigration (checkpoints best) = false)) ->
    let r := processVerification newDate toFixed1 checkpoint ls fHash embedding fpHash env in
    fst r = ls /\ outcome (snd r) = PREREQUISITE_MISSING
    /\ success (snd r) = false /\ passenger (snd r) = Some best.
Proof.
  intros checkpoint ls fHash embedding fpHash env first rest best sim Hc Hs Hv H r.
  subst r. unfold processVerification. rewrite Hc, Hs, Hv. cbn [negb].
  destruct H as [[-> H]|[-> H]]; cbn [Checkpoint.eqb andb].
  - rewrite H. repeat split.
  - destruct H as [H|H]; rewrite H;
      destruct (security (checkpoints best)), (immigration (checkpoints best));
      repeat split; discriminate.
Qed.

(** C3.  Starting from records whose checkpoints are all false, after any
    sequence of verifications every stored record with [boarding] set has
    [security] and [immigration] set.  A grant is given only when the
    prerequisites of the requested checkpoint hold on the best match; when
    they do not (and the flight has not left) the outcome is
    PREREQUISITE_MISSING and the store is unchanged. *)
Theorem boarding_implies_security_and_immigration :
  forall (ls : LocalStorage) (calls : list VerifyCall),
    (forall p, In p (getAllPassengers ls) -> checkpoints p = noCheckpoints) ->
    (forall p,
        In p (getAllPassengers (verifyAll newDate toFixed1 ls calls)) ->
        boarding (checkpoints p) = true ->
        security (checkpoints p) = true /\ immigration (checkpoints p) = true)
    /\ (forall ls' c,
          let r := verifyCall newDate toFixed1 ls' c in
          (outcome (snd r) = GRANTED ->
           exists best,
             passenger (snd r) = Some best
             /\ prerequisitesMet (call_checkpoint c) (checkpoints best))
          /\ (outcome (snd r) = PREREQUISITE_MISSING -> fst r = ls')
          /\ (forall first rest best sim,
                findPassengersByBiometrics ls' (call_faceHash c) (call_fingerprintHash c)
                = first :: rest ->
                selectBestMatch (call_faceHash c) (call_fingerprintHash c)
                  (call_embedding c) first (first :: rest) = (best, sim) ->
                isFlightValid newDate (clock (call_env c)) (departureTime best) = true ->
                (call_checkpoint c = Checkpoint.immigration
                 /\ security (checkpoints best) = false)
                \/ (call_checkpoint c = Checkpoint.boarding
                    /\ (security (checkpoints best) = false
                        \/ immigration (checkpoints best) = false)) ->
                outcome (snd r) = PREREQUISITE_MISSING /\ fst r = ls')).
Proof.
  intros ls calls Hinit. split.
  - intros p Hp. 
    apply (storeInvariant_verifyAll calls ls (storeInvariant_initial _ Hinit)), Hp.
  - intros ls' c r. subst r. unfold verifyCall.
    destruct (processVerification_inv newDate toFixed1 (call_checkpoint c) ls'
                (call_faceHash c) (call_embedding c) (call_fingerprintHash c) (call_env c))
      as [[Hng H]|[first [rest [best [sim [_ [_ [_ [_ [Hpre [_ H]]]]]]]]]]].
    + split; [intros Hg; contradiction|]. split; [intros _; exact H|].
      intros first rest best sim Hc Hs Hv Hm.
      destruct (processVerification_prerequisite_missing _ _ _ _ _ _ _ _ _ _ Hc Hs Hv Hm)
        as [H1 [H2 _]]. split; assumption.
    + split.
      { intros _. exists best. rewrite H. split; [reflexivity | exact Hpre]. }
      split.
      { rewrite H. unfold grantResult. cbn [snd].
        rewrite outcome_granted_message. discriminate. }
      intros first' rest' best' sim' Hc Hs Hv Hm.
      destruct (processVerification_prerequisite_missing _ _ _ _ _ _ _ _ _ _ Hc Hs Hv Hm)
        as [H1 [H2 _]]. split; assumption.
Qed.

End Precedence.

(** C3 at a concrete run: two passengers share a face hash; the presented
    sample is taken through security, immigration and boarding. *)
Lemma boarding_implies_security_and_immigration_witness :
  In aliceBoarded
    (getAllPassengers
       (verifyAll isoDate toFixedOne (storeOf [bob; alice]) throughAllStations))
  /\ security (checkpoints aliceBoarded) = true
  /\ immigration (checkpoints aliceBoarded) = true.
Proof.
  assert (Hin : In aliceBoarded
                  (getAllPassengers
                     (verifyAll isoDate toFixedOne (storeOf [bob; alice])
                        throughAllStations))).
  { vm_compute. right. left. reflexivity. }
  split; [exact Hin|].
  refine (proj1 (boarding_implies_security_and_immigration isoDate toFixedOne
                   (storeOf [bob; alice]) throughAllStations _) aliceBoarded Hin _).
  - intros p [<-|[<-|[]]]; reflexivity.
  - reflexivity.
Defined.

(** ** What a grant changes, and what a repeated verification does *)

Lemma getCheckpoint_setCheckpoint_same :
  forall c k b, getCheckpoint (setCheckpoint c k b) k = b.
Proof. intros c [] b; reflexivity. Qed.

Lemma getCheckpoint_setCheckpoint_other :
  forall c k k' b, k' <> k -> getCheckpoint (setCheckpoint c k b) k' = getCheckpoint c k'.
Proof. intros c [] [] b H; try reflexivity; congruence. Qed.

Lemma prerequisitesMet_setCheckpoint :
  forall k k' c, prerequisitesMet k c -> prerequisitesMet k (setCheckpoint c k' true).
Proof.
  intros k k' c [Hi Hb]. split; intros ->.
  - specialize (Hi eq_refl). destruct k'; cbn; auto.
  - destruct (Hb eq_refl) as [H1 H2]. destruct k'; cbn; auto.
Qed.

Lemma filter_map_preserved :
  forall (A : Type) (f : A -> bool) (g : A -> A) (l : list A),
    (forall x, f (g x) = f x) -> filter f (map g l) = map g (filter f l).
Proof.
  intros A f g l H. induction l as [|a l IH]; [reflexivity|].
  cbn [map filter]. rewrite H. destruct (f a); cbn [map]; rewrite IH; reflexivity.
Qed.

(** Selection looks at the biometrics of the candidates only: rewriting
    other fields of the candidates rewrites the selected record alike. *)
Lemma bestMatch_map :
  forall fHash fpHash embedding (g : PassengerData -> PassengerData),
    (forall p, biometrics (g p) = biometrics p) ->
    forall candidates best sim,
      fold_left (bestMatchStep fHash fpHash embedding) (map g candidates) (g best, sim)
      = (g (fst (fold_left (bestMatchStep fHash fpHash embedding) candidates (best, sim))),
         snd (fold_left (bestMatchStep fHash fpHash embedding) candidates (best, sim))).
Proof.
  intros fHash fpHash embedding g Hg candidates.
  induction candidates as [|c cs IH]; intros best sim; [reflexivity|].
  cbn [map fold_left]. unfold bestMatchStep at 2 4 6. rewrite Hg. cbn [snd].
  destruct (faceEmbedding (biometrics c)); [|apply IH].
  destruct (_ <? _)%float; apply IH.
Qed.

Section Frame.

Variable newDate : string -> option Z.
Variable toFixed1 : float -> string.

(** C10.  In a store with unique ids, a verification whose outcome is
    GRANTED replaces the selected best match, at its position, by the same
    record with the requested checkpoint flag turned from false to true.
    Every other field of that record and its two other flags keep their
    values, every other position of the store keeps its record, and the log
    is the old log followed by one new entry. *)
Theorem grant_changes_one_flag :
  forall checkpoint ls fHash embedding fpHash env,
    NoDup (map id (getAllPassengers ls)) ->
    let r := processVerification newDate toFixed1 checkpoint ls fHash embedding fpHash env in
    outcome (snd r) = GRANTED ->
    exists best sim n,
      let updated := withCheckpoint best checkpoint true in
      passenger (snd r) = Some best
      /\ nth_error (getAllPassengers ls) n = Some best
      /\ getCheckpoint (checkpoints best) checkpoint = false
      /\ getCheckpoint (checkpoints updated) checkpoint = true
      /\ (forall k, k <> checkpoint ->
            getCheckpoint (checkpoints updated) k = getCheckpoint (checkpoints best) k)
      /\ (id updated = id best
          /\ passportNumber updated = passportNumber best
          /\ firstName updated = firstName best
          /\ lastName updated = lastName best
          /\ flightNumber updated = flightNumber best
          /\ gate updated = gate best
          /\ departureTime updated = departureTime best
          /\ biometrics updated = biometrics best
          /\ enrollmentTime updated = enrollmentTime best
          /\ guardianId updated = guardianId best)
      /\ getAllPassengers (fst r) = assign (getAllPassengers ls) n updated
      /\ nth_error (getAllPassengers (fst r)) n = Some updated
      /\ (forall m, m <> n ->
            nth_error (getAllPassengers (fst r)) m = nth_error (getAllPassengers ls) m)
      /\ getStaffLogs (fst r)
         = (getStaffLogs ls ++ [grantEntry toFixed1 checkpoint best sim env])%list.
Proof.
  intros checkpoint ls fHash embedding fpHash env Hnd r Hg.
  destruct (processVerification_inv newDate toFixed1 checkpoint ls fHash embedding fpHash env)
    as [[Hng _]|[first [rest [best [sim [_ [_ [Hin [_ [_ [Hk H]]]]]]]]]]].
  { contradiction. }
  destruct (In_nth_error _ _ Hin) as [n Hn].
  exists best, sim, n. cbv zeta. subst r. rewrite H. unfold grantResult. cbn [fst snd].
  assert (Hl : getAllPassengers
                 (logCheckpointAccess
                    (fst (updateCheckpointStatus ls (id best) checkpoint true))
                    (randomUUID env)
                    (StaffLog.entry (grantEntry toFixed1 checkpoint best sim env)))
               = assign (getAllPassengers ls) n (withCheckpoint best checkpoint true)).
  { unfold logCheckpointAccess.
    rewrite getAllPassengers_setStaffLogs, getAllPassengers_updateCheckpointStatus.
    apply (updateFirst_assign (id best) (fun p => withCheckpoint p checkpoint true)
             _ n best Hnd Hn eq_refl). }
  split; [reflexivity|]. split; [exact Hn|]. split; [exact Hk|].
  split; [apply getCheckpoint_setCheckpoint_same|].
  split; [intros k Hne; apply getCheckpoint_setCheckpoint_other, Hne|].
  split; [repeat split|].
  split; [exact Hl|]. rewrite Hl.
  split; [apply (nth_error_assign_same _ _ _ _ _ Hn)|].
  split; [intros m Hm; apply nth_error_assign_other, Hm|].
  unfold logCheckpointAccess. rewrite getStaffLogs_setStaffLogs.
  rewrite getStaffLogs_updateCheckpointStatus. reflexivity.
Qed.

(** C4, amended.  In a store with unique ids, let the best match of a
    presented sample have a flight that has not left (at both calls), the
    prerequisites of the checkpoint met and the checkpoint flag false.  Two
    verifications in sequence with the same checkpoint and sample yield
    GRANTED and then ALREADY_CLEARED, both successful.  The first sets the
    flag of the best match and appends one log entry with result
    [granted]; the second leaves the whole store, log included, as the
    first left it: one mutation and one log entry in all. *)
Theorem verify_twice_granted_then_already_cleared :
  forall checkpoint ls fHash embedding fpHash env1 env2 first rest best sim,
    NoDup (map id (getAllPassengers ls)) ->
    findPassengersByBiometrics ls fHash fpHash = first :: rest ->
    selectBestMatch fHash fpHash embedding first (first :: rest) = (best, sim) ->
    isFlightValid newDate (clock env1) (departureTime best) = true ->
    isFlightValid newDate (clock env2) (departureTime best) = true ->
    prerequisitesMet checkpoint (checkpoints best) ->
    getCheckpoint (checkpoints best) checkpoint = false ->
    let r1 := processVerification newDate toFixed1 checkpoint ls fHash embedding fpHash env1 in
    let r2 :=
      processVerification newDate toFixed1 checkpoint (fst r1) fHash embedding fpHash env2 in
    outcome (snd r1) = GRANTED /\ success (snd r1) = true
    /\ outcome (snd r2) = ALREADY_CLEARED /\ success (snd r2) = true
    /\ passenger (snd r2) = Some (withCheckpoint best checkpoint true)
    /\ getAllPassengers (fst r1)
       = map (fun p => if id p =? id best then withCheckpoint p checkpoint true else p)
           (getAllPassengers ls)
    /\ fst r2 = fst r1
    /\ getStaffLogs (fst r2)
       = (getStaffLogs ls ++ [grantEntry toFixed1 checkpoint best sim env1])%list
    /\ StaffLog.result (StaffLog.entry (grantEntry toFixed1 checkpoint best sim env1))
       = StaffLog.granted.
Proof.
  intros checkpoint ls fHash embedding fpHash env1 env2 first rest best sim
    Hnd Hc Hs Hv1 Hv2 Hpre Hk r1 r2.
  pose (upd := fun p => if id p =? id best then withCheckpoint p checkpoint true else p).
  assert (Hbio : forall p, biometrics (upd p) = biometrics p).
  { intros p. unfold upd. destruct (id p =? id best); reflexivity. }
  assert (E1 : r1 = grantResult toFixed1 checkpoint ls best sim env1).
  { apply (processVerification_grant newDate toFixed1 _ _ _ _ _ _ first rest); assumption. }
  assert (Hl : getAllPassengers (fst r1) = map upd (getAllPassengers ls)).
  { rewrite E1. unfold grantResult. cbn [fst]. unfold logCheckpointAccess.
    rewrite getAllPassengers_setStaffLogs, getAllPassengers_updateCheckpointStatus.
    apply updateFirst_map, Hnd. }
  assert (Hlog : getStaffLogs (fst r1)
                 = (getStaffLogs ls ++ [grantEntry toFixed1 checkpoint best sim env1])%list).
  { rewrite E1. unfold grantResult. cbn [fst]. unfold logCheckpointAccess.
    rewrite getStaffLogs_setStaffLogs, getStaffLogs_updateCheckpointStatus. reflexivity. }
  assert (Hc2 : findPassengersByBiometrics (fst r1) fHash fpHash
                = upd first :: map upd rest).
  { unfold findPassengersByBiometrics in *. rewrite Hl.
    rewrite filter_map_preserved by (intros x; rewrite Hbio; reflexivity).
    rewrite Hc. reflexivity. }
  assert (Hs2 : selectBestMatch fHash fpHash embedding (upd first)
                  (upd first :: map upd rest)
                = (withCheckpoint best checkpoint true, sim)).
  { unfold selectBestMatch in *.
    change (upd first :: map upd rest) with (map upd (first :: rest)).
    rewrite (bestMatch_map fHash fpHash embedding upd Hbio), Hs. cbn [fst snd].
    unfold upd. rewrite String.eqb_refl. reflexivity. }
  assert (E2 : r2 = (fst r1,
                     {| success := true;
                        passenger := Some (withCheckpoint best checkpoint true);
                        message := "Already cleared this checkpoint. Access granted.";
                        similarity := Some sim |})).
  { apply (processVerification_already_cleared newDate toFixed1 _ _ _ _ _ _
             (upd first) (map upd rest)).
    - exact Hc2.
    - exact Hs2.
    - exact Hv2.
    - apply prerequisitesMet_setCheckpoint, Hpre.
    - apply getCheckpoint_setCheckpoint_same. }
  rewrite E2. cbn [fst snd]. rewrite Hlog, Hl. rewrite E1. unfold grantResult. cbn [snd].
  rewrite outcome_granted_message. repeat split.
Qed.

End Frame.

(** C4, counterexample: the same verification twice gives GRANTED and then
    ALREADY_CLEARED, and the log holds one entry, not two. *)
Lemma second_verification_is_not_logged :
  let r1 :=
    processVerification isoDate toFixedOne Checkpoint.security (storeOf [alice])
      "h1" presented None (readsAt t2026 "u1") in
  let r2 :=
    processVerification isoDate toFixedOne Checkpoint.security (fst r1)
      "h1" presented None (readsAt t2026 "u2") in
  outcome (snd r1) = GRANTED
  /\ outcome (snd r2) = ALREADY_CLEARED
  /\ List.length (getStaffLogs (storeOf [alice])) = 0%nat
  /\ List.length (getStaffLogs (fst r2)) = 1%nat.
Proof. vm_compute. repeat split. Qed.

(** The ids of the example store are pairwise distinct. *)
Lemma example_ids_unique : NoDup (map id (getAllPassengers (storeOf [bob; alice]))).
Proof.
  cbn. constructor.
  - intros [H|[]]. discriminate.
  - constructor; [intros [] | constructor].
Qed.

(** C10 at a concrete call: the second stored record is the best match. *)
Lemma grant_changes_one_flag_witness :
  let r :=
    processVerification isoDate toFixedOne Checkpoint.security (storeOf [bob; alice])
      "h1" presented None (readsAt t2026 "u1") in
  outcome (snd r) = GRANTED
  /\ exists best n,
       passenger (snd r) = Some best
       /\ nth_error [bob; alice] n = Some best
       /\ getAllPassengers (fst r)
          = assign [bob; alice] n (withCheckpoint best Checkpoint.security true).
Proof.
  cbv zeta.
  assert (Hg : outcome
                 (snd (processVerification isoDate toFixedOne Checkpoint.security
                         (storeOf [bob; alice]) "h1" presented None
                         (readsAt t2026 "u1"))) = GRANTED).
  { vm_compute. reflexivity. }
  split; [exact Hg|].
  destruct (grant_changes_one_flag isoDate toFixedOne Checkpoint.security
              (storeOf [bob; alice]) "h1" presented None (readsAt t2026 "u1")
              example_ids_unique Hg)
    as [best [sim [n [H1 [H2 [_ [_ [_ [_ [H3 _]]]]]]]]]].
  exists best, n. split; [exact H1|]. split; [exact H2 | exact H3].
Defined.

(** C4 (amended) at a concrete pair of calls. *)
Lemma verify_twice_granted_then_already_cleared_witness :
  let r1 :=
    processVerification isoDate toFixedOne Checkpoint.security (storeOf [bob; alice])
      "h1" presented None (readsAt t2026 "u1") in
  let r2 :=
    processVerification isoDate toFixedOne Checkpoint.security (fst r1)
      "h1" presented None (readsAt t2026 "u2") in
  outcome (snd r1) = GRANTED
  /\ outcome (snd r2) = ALREADY_CLEARED
  /\ fst r2 = fst r1.
Proof.
  cbv zeta.
  destruct (verify_twice_granted_then_already_cleared isoDate toFixedOne
              Checkpoint.security (storeOf [bob; alice]) "h1" presented None
              (readsAt t2026 "u1") (readsAt t2026 "u2") bob [alice] alice 0.9%float
              example_ids_unique)
    as [H1 [_ [H2 [_ [_ [_ [H3 _]]]]]]].
  - reflexivity.
  - vm_compute. reflexivity.
  - reflexivity.
  - reflexivity.
  - split; discriminate.
  - reflexivity.
  - split; [exact H1|]. split; [exact H2 | exact H3].
Defined.

(** ** Best-match selection *)

(** The comparison [<] of binary64 numbers is a strict partial order (NaN is
    comparable with nothing). *)
Lemma SFltb_irrefl : forall a, SFltb a a = false.
Proof.
  intros [s|s| |s m e]; unfold SFltb, SFcompare; try reflexivity.
  - destruct s; reflexivity.
  - destruct s; rewrite Z.compare_refl, Pos.compare_cont_refl; reflexivity.
Qed.

Lemma SFltb_trans :
  forall a b c, SFltb a b = true -> SFltb b c = true -> SFltb a c = true.
Proof.
  intros [sa|sa| |sa ma ea] [sb|sb| |sb mb eb] [sc|sc| |sc mc ec];
    unfold SFltb, SFcompare;
    try destruct sa; try destruct sb; try destruct sc;
    try discriminate; try reflexivity.
  all: destruct (Z.compare_spec ea eb), (Z.compare_spec eb ec), (Z.compare_spec ea ec);
    try discriminate; try reflexivity; try lia; subst;
    fold (Pos.compare ma mb); fold (Pos.compare mb mc); fold (Pos.compare ma mc);
    destruct (Pos.compare_spec ma mb), (Pos.compare_spec mb mc), (Pos.compare_spec ma mc);
    cbn; try discriminate; try reflexivity; try lia.
Qed.

Lemma float_ltb_irrefl : forall x : float, (x <? x)%float = false.
Proof. intros x. rewrite ltb_spec. apply SFltb_irrefl. Qed.

Lemma float_ltb_trans :
  forall x y z : float,
    (x <? y)%float = true -> (y <? z)%float = true -> (x <? z)%float = true.
Proof. intros x y z. rewrite !ltb_spec. apply SFltb_trans. Qed.

Lemma float_ltb_not_above :
  forall x y z : float,
    (x <? y)%float = true -> (x <? z)%float = false -> (y <? z)%float = false.
Proof.
  intros x y z Hxy Hxz. destruct (y <? z)%float eqn:E; [|reflexivity].
  rewrite (float_ltb_trans x y z Hxy E) in Hxz. discriminate.
Qed.

Lemma bestMatchStep_score :
  forall fHash fpHash embedding best c,
    bestMatchStep fHash fpHash embedding best c
    = match score embedding c with
      | Some v => if (snd best <? v)%float then (c, v) else best
      | None => best
      end.
Proof.
  intros fHash fpHash embedding best c. unfold bestMatchStep, score.
  destruct (faceEmbedding (biometrics c)) as [stored|] eqn:E; [|reflexivity].
  unfold verifyBiometricMatch. cbn [BiometricMatch.similarity]. rewrite E. reflexivity.
Qed.

Lemma bestMatch_loop_selected :
  forall fHash fpHash embedding l start,
    selected embedding l start
      (fold_left (bestMatchStep fHash fpHash embedding) l start).
Proof.
  intros fHash fpHash embedding l.
  induction l as [|c cs IH]; intros [b0 s0].
  { left. split; [reflexivity | intros c v []]. }
  cbn [fold_left]. rewrite bestMatchStep_score. cbn [snd].
  destruct (score embedding c) as [v|] eqn:Ec.
  2:{ pose proof (IH (b0, s0)) as H0.
      destruct (fold_left (bestMatchStep fHash fpHash embedding) cs (b0, s0)) as [b s].
      destruct H0 as [[E H]|[l1 [l2 [E [Hs [Hgt [Hmax Htie]]]]]]]; cbn [fst snd] in *.
      - left. split; [exact E|]. intros c' v' [<-|Hin] Hv; [congruence|].
        apply (H c' v' Hin Hv).
      - right. exists (c :: l1), l2. split; [cbn [app fst]; f_equal; exact E|].
        split; [exact Hs|]. split; [exact Hgt|]. split.
        + intros c' v' [<-|Hin] Hv; [congruence | apply (Hmax c' v' Hin Hv)].
        + intros c' [<-|Hin]; [congruence | apply Htie, Hin]. }
  destruct (s0 <? v)%float eqn:Ev.
  - pose proof (IH (c, v)) as H0.
    destruct (fold_left (bestMatchStep fHash fpHash embedding) cs (c, v)) as [b s].
    destruct H0 as [[E H]|[l1 [l2 [E [Hs [Hgt [Hmax Htie]]]]]]]; cbn [fst snd] in *.
    + right. inversion E. subst b s. cbn [fst snd]. exists [], cs.
      split; [reflexivity|]. split; [exact Ec|]. split; [exact Ev|]. split.
      * intros c' v' [<-|Hin] Hv.
        -- rewrite Ec in Hv. inversion Hv. subst. apply float_ltb_irrefl.
        -- apply (H c' v' Hin Hv).
      * intros c' [].
    + right. exists (c :: l1), l2. cbn [fst snd].
      split; [cbn [app]; f_equal; exact E|].
      split; [exact Hs|]. split; [apply (float_ltb_trans _ v _ Ev Hgt)|]. split.
      * intros c' v' [<-|Hin] Hv; [|apply (Hmax c' v' Hin Hv)].
        rewrite Ec in Hv. inversion Hv. subst v'.
        destruct (s <? v)%float eqn:E'; [|reflexivity].
        pose proof (float_ltb_trans _ _ _ Hgt E') as Hvv.
        rewrite float_ltb_irrefl in Hvv. discriminate.
      * intros c' [<-|Hin]; [|apply Htie, Hin].
        rewrite Ec. intros Heq. inversion Heq. subst v.
        rewrite float_ltb_irrefl in Hgt. discriminate.
  - pose proof (IH (b0, s0)) as H0.
    destruct (fold_left (bestMatchStep fHash fpHash embedding) cs (b0, s0)) as [b s].
    destruct H0 as [[E H]|[l1 [l2 [E [Hs [Hgt [Hmax Htie]]]]]]]; cbn [fst snd] in *.
    + left. split; [exact E|]. intros c' v' [<-|Hin] Hv.
      * rewrite Ec in Hv. inversion Hv. subst. exact Ev.
      * apply (H c' v' Hin Hv).
    + right. exists (c :: l1), l2. cbn [fst snd].
      split; [cbn [app]; f_equal; exact E|].
      split; [exact Hs|]. split; [exact Hgt|]. split.
      * intros c' v' [<-|Hin] Hv; [|apply (Hmax c' v' Hin Hv)].
        rewrite Ec in Hv. inversion Hv. subst v'.
        apply (float_ltb_not_above _ _ _ Hgt Ev).
      * intros c' [<-|Hin]; [|apply Htie, Hin].
        rewrite Ec. intros Heq. inversion Heq. subst v.
        rewrite Hgt in Ev. discriminate.
Qed.

(** C6, amended.  Over a non-empty candidate list the loop returns either
    the first candidate with similarity 0, when no candidate has a stored
    embedding scoring strictly above 0, or else a candidate with a stored
    embedding whose similarity is above 0, is exceeded by no candidate, and
    is reached by no earlier candidate (the first seen wins a tie).  So a
    candidate without an embedding is skipped by the loop, and is returned
    only as the first candidate when nobody scores above 0; in particular the
    first candidate is returned with similarity 0 when no candidate has an
    embedding.  Of two candidates scoring 0.9 and 0.3, in either order, the
    one scoring 0.9 is selected. *)
Theorem selectBestMatch_spec :
  forall fHash fpHash embedding first rest,
    let candidates := first :: rest in
    let r := selectBestMatch fHash fpHash embedding first candidates in
    ((r = (first, 0%float)
      /\ forall c v, In c candidates -> score embedding c = Some v ->
                     (0 <? v)%float = false)
     \/ (exists l1 l2,
           candidates = (l1 ++ fst r :: l2)%list
           /\ score embedding (fst r) = Some (snd r)
           /\ (0 <? snd r)%float = true
           /\ (forall c v, In c candidates -> score embedding c = Some v ->
                           (snd r <? v)%float = false)
           /\ (forall c, In c l1 -> score embedding c <> Some (snd r))))
    /\ ((forall c, In c candidates -> faceEmbedding (biometrics c) = None) ->
        r = (first, 0%float))
    /\ ((exists c v, In c candidates /\ score embedding c = Some v
                     /\ (0 <? v)%float = true) ->
        faceEmbedding (biometrics (fst r)) <> None)
    /\ (forall a b,
          score embedding a = Some 0.9%float ->
          score embedding b = Some 0.3%float ->
          selectBestMatch fHash fpHash embedding a [a; b] = (a, 0.9%float)
          /\ selectBestMatch fHash fpHash embedding b [b; a] = (a, 0.9%float)).
Proof.
  intros fHash fpHash embedding first rest candidates r.
  assert (Hsel : selected embedding candidates (first, 0%float) r).
  { apply bestMatch_loop_selected. }
  unfold selected in Hsel. cbn [fst snd] in Hsel.
  split; [exact Hsel|]. split; [|split].
  - intros Hnone.
    destruct Hsel as [[E _]|[l1 [l2 [E [Hs _]]]]]; [exact E|].
    assert (Hin : In (fst r) candidates).
    { rewrite E. apply in_or_app. right. left. reflexivity. }
    unfold score in Hs. rewrite (Hnone _ Hin) in Hs. discriminate.
  - intros [c [v [Hin [Hv Hpos]]]].
    destruct Hsel as [[_ H]|[l1 [l2 [_ [Hs _]]]]].
    + rewrite (H c v Hin Hv) in Hpos. discriminate.
    + unfold score in Hs. intros Hn. rewrite Hn in Hs. discriminate.
  - intros a b Ha Hb.
    assert (H1 : (0 <? 0.9)%float = true) by (vm_compute; reflexivity).
    assert (H2 : (0.9 <? 0.3)%float = false) by (vm_compute; reflexivity).
    assert (H3 : (0 <? 0.3)%float = true) by (vm_compute; reflexivity).
    assert (H4 : (0.3 <? 0.9)%float = true) by (vm_compute; reflexivity).
    unfold selectBestMatch. cbn [fold_left].
    rewrite !bestMatchStep_score, Ha, Hb. cbn [snd].
    rewrite H1, H3. cbn [snd]. rewrite H2, H4. split; reflexivity.
Qed.

(** C6, counterexample: the first candidate has no stored embedding, the
    second has one (scoring 0 against the presented sample), and the first is
    selected. *)
Lemma candidate_without_embedding_selected :
  faceEmbedding (biometrics carol) = None
  /\ score presented dave = Some 0%float
  /\ selectBestMatch "h1" None presented carol [carol; dave] = (carol, 0%float).
Proof. repeat split. Qed.

(** The same scenario on stored embeddings: [alice] scores 0.9 and
    [bob] 0.3 against [presented], and [alice] is selected in either order. *)
Lemma best_of_two_candidates :
  score presented alice = Some 0.9%float
  /\ score presented bob = Some 0.3%float
  /\ selectBestMatch "h1" None presented alice [alice; bob] = (alice, 0.9%float)
  /\ selectBestMatch "h1" None presented bob [bob; alice] = (alice, 0.9%float).
Proof. repeat split; vm_compute; reflexivity. Qed.

(** ** Enrollment *)

Ltac wizard_fields :=
  cbn [fst snd Enrollment.currentStep Enrollment.isProcessing Enrollment.stream
       Enrollment.formData Enrollment.faceData Enrollment.fingerprintHash
       Enrollment.captures Enrollment.uploads orb negb] in *.






Lemma In_assign_findIndex :
  forall (A : Type) (f : A -> bool) (l : list A) n x,
    findIndex f l = Some n -> In x (assign l n x).
Proof.
  intros A f l. induction l as [|a l IH]; intros n x; cbn [findIndex]; [discriminate|].
  destruct (f a).
  - intros H. inversion H. left. reflexivity.
  - destruct (findIndex f l) as [m|] eqn:E; cbn [option_map]; [|discriminate].
    intros H. inversion H. cbn [assign]. right. apply (IH m x eq_refl).
Qed.

Lemma findIndex_None :
  forall (A : Type) (f : A -> bool) (l : list A),
    find f l = None -> findIndex f l = None.
Proof.
  intros A f l. induction l as [|a l IH]; cbn [find findIndex]; [reflexivity|].
  destruct (f a); [discriminate|]. intros H. rewrite (IH H). reflexivity.
Qed.

Lemma In_savePassengerData :
  forall ls p, In (JSON.passengerData p) (getAllPassengers (savePassengerData ls p)).
Proof.
  intros ls p. rewrite getAllPassengers_savePassengerData.
  destruct (findIndex (fun q => id q =? id p) (getAllPassengers ls)) as [n|] eqn:E.
  - apply (In_assign_findIndex _ _ _ _ _ E).
  - apply in_or_app. right. left. reflexivity.
Qed.

Lemma savePassengerData_fresh :
  forall ls p,
    find (fun q => id q =? id p) (getAllPassengers ls) = None ->
    getAllPassengers (savePassengerData ls p)
    = (getAllPassengers ls ++ [JSON.passengerData p])%list.
Proof.
  intros ls p H. rewrite getAllPassengers_savePassengerData.
  rewrite (findIndex_None _ _ _ H). reflexivity.
Qed.

Lemma find_assign_same :
  forall (A : Type) (f : A -> bool) (l : list A) n x,
    findIndex f l = Some n -> f x = true -> find f (assign l n x) = Some x.
Proof.
  intros A f l. induction l as [|a l IH]; intros n x; cbn [findIndex]; [discriminate|].
  destruct (f a) eqn:E.
  - intros H Hx. inversion H. cbn [assign find]. rewrite Hx. reflexivity.
  - destruct (findIndex f l) as [m|] eqn:F; cbn [option_map]; [|discriminate].
    intros H Hx. inversion H. cbn [assign find]. rewrite E. apply (IH m x eq_refl Hx).
Qed.

Lemma find_app_last :
  forall (A : Type) (g : A -> bool) (l : list A) x,
    find g (l ++ [x])%list
    = match find g l with
      | Some y => Some y
      | None => if g x then Some x else None
      end.
Proof.
  intros A g l x. induction l as [|a l IH]; cbn [find app]; [reflexivity|].
  destruct (g a); [reflexivity | exact IH].
Qed.

Lemma find_None_findIndex :
  forall (A : Type) (f : A -> bool) (l : list A),
    findIndex f l = None -> find f l = None.
Proof.
  intros A f l. induction l as [|a l IH]; cbn [find findIndex]; [reflexivity|].
  destruct (f a); [discriminate|].
  destruct (findIndex f l); cbn [option_map]; [discriminate | intros _; apply IH; reflexivity].
Qed.


Lemma newPassenger_readBackAsWritten :
  forall f fd h uuid capturedAt enrolledAt,
    Forall exactNumber (snd fd) ->
    readBackAsWritten (newPassenger f fd h uuid capturedAt enrolledAt).
Proof.
  intros f fd h uuid capturedAt enrolledAt H.
  unfold readBackAsWritten, newPassenger. cbn [biometrics faceEmbedding].
  induction H as [|x l Hx _ IH]; cbn [map]; constructor; assumption.
Qed.






(** What a click on "Complete Enrollment" does, in any state of the wizard. *)
Lemma step_Complete :
  forall ls w uuid capturedAt enrolledAt,
    let s' := Enrollment.step (ls, w) (Enrollment.Complete uuid capturedAt enrolledAt) in
    (s' = (ls, w)
     /\ (Enrollment.currentStep w <> Enrollment.complete
         \/ Enrollment.isProcessing w = true
         \/ Enrollment.faceData w = None
         \/ Enrollment.fingerprintHash w = None
         \/ Enrollment.fingerprintHash w = Some ""))
    \/ exists fd h,
         Enrollment.currentStep w = Enrollment.complete
         /\ Enrollment.isProcessing w = false
         /\ Enrollment.faceData w = Some fd
         /\ Enrollment.fingerprintHash w = Some h
         /\ truthy h = true
         /\ s' = (savePassengerData ls
                    (newPassenger (Enrollment.formData w) fd h uuid capturedAt enrolledAt),
                  Enrollment.initial).
Proof.
  intros ls w uuid capturedAt enrolledAt s'. subst s'. unfold Enrollment.step.
  destruct (Enrollment.currentStep w) eqn:Es;
    try (left; split; [reflexivity | left; discriminate]).
  destruct (Enrollment.isProcessing w) eqn:Ep;
    [left; split; [reflexivity | right; left; reflexivity]|].
  unfold completeEnrollment.
  destruct (Enrollment.faceData w) as [fd|];
    [|left; split; [reflexivity | right; right; left; reflexivity]].
  destruct (Enrollment.fingerprintHash w) as [h|];
    [|left; split; [reflexivity | right; right; right; left; reflexivity]].
  destruct (truthy h) eqn:Eh.
  - right. exists fd, h. repeat split; first [exact Eh | reflexivity].
  - left. split; [reflexivity|]. right. right. right. right.
    unfold truthy in Eh. apply negb_false_iff, String.eqb_eq in Eh. rewrite Eh.
    reflexivity.
Qed.



(** ** Unique ids are an invariant of the reachable stores

    The theorems on grants above assume that no two stored records share an
    id.  Every write of the passenger list keeps it so: [savePassengerData]
    replaces the record that has the id of the saved one, and appends only
    when there is none. *)

Lemma map_id_assign :
  forall l n (p : PassengerData),
    findIndex (fun q => id q =? id p) l = Some n ->
    map id (assign l n p) = map id l.
Proof.
  intros l. induction l as [|a l IH]; intros n p; cbn [findIndex]; [discriminate|].
  destruct (id a =? id p) eqn:E.
  - intros H. inversion H. cbn [assign map]. apply String.eqb_eq in E.
    rewrite E. reflexivity.
  - destruct (findIndex (fun q => id q =? id p) l) as [m|] eqn:F;
      cbn [option_map]; [|discriminate].
    intros H. inversion H. cbn [assign map]. f_equal. apply (IH m p F).
Qed.

Lemma findIndex_None_not_In :
  forall l (i : string),
    findIndex (fun q => id q =? i) l = None -> ~ In i (map id l).
Proof.
  intros l i. induction l as [|a l IH]; cbn [findIndex map]; [intros _ []|].
  destruct (id a =? i) eqn:E; [discriminate|].
  destruct (findIndex (fun q => id q =? i) l); cbn [option_map]; [discriminate|].
  intros _ [H|H].
  - rewrite H, String.eqb_refl in E. discriminate.
  - apply (IH eq_refl H).
Qed.

Lemma NoDup_map_filter :
  forall (A B : Type) (f : A -> B) (g : A -> bool) (l : list A),
    NoDup (map f l) -> NoDup (map f (filter g l)).
Proof.
  intros A B f g l. induction l as [|a l IH]; cbn [map filter]; [auto|].
  intros H. inversion H as [|x xs Hn Hd]. subst.
  destruct (g a); [|apply IH, Hd]. cbn [map]. constructor; [|apply IH, Hd].
  intros Hin. apply Hn. apply in_map_iff in Hin. destruct Hin as [y [Hy Hin]].
  apply filter_In in Hin. rewrite <- Hy. apply in_map, Hin.
Qed.

Lemma ids_unique_savePassengerData :
  forall ls p,
    NoDup (map id (getAllPassengers ls)) ->
    NoDup (map id (getAllPassengers (savePassengerData ls p))).
Proof.
  intros ls p H. rewrite getAllPassengers_savePassengerData.
  destruct (findIndex (fun q => id q =? id p) (getAllPassengers ls)) as [n|] eqn:E.
  - rewrite (map_id_assign _ _ (JSON.passengerData p) E). exact H.
  - rewrite map_app. cbn [map]. apply NoDup_app.
    + exact H.
    + constructor; [intros [] | constructor].
    + intros x Hx [Hp|[]]. subst x.
      apply (findIndex_None_not_In _ _ E Hx).
Qed.

Lemma ids_unique_updateCheckpointStatus :
  forall ls i k b,
    NoDup (map id (getAllPassengers ls)) ->
    NoDup (map id (getAllPassengers (fst (updateCheckpointStatus ls i k b)))).
Proof.
  intros ls i k b H. unfold updateCheckpointStatus.
  destruct (find _ _); cbn [fst]; [apply ids_unique_savePassengerData, H | exact H].
Qed.

Section Reachable.

Variable newDate : string -> option Z.
Variable toFixed1 : float -> string.

Lemma ids_unique_processVerification :
  forall checkpoint ls fHash embedding fpHash env,
    NoDup (map id (getAllPassengers ls)) ->
    NoDup (map id (getAllPassengers
             (fst (processVerification newDate toFixed1 checkpoint ls fHash
                     embedding fpHash env)))).
Proof.
  intros checkpoint ls fHash embedding fpHash env Hnd.
  destruct (processVerification_inv newDate toFixed1 checkpoint ls fHash embedding fpHash env)
    as [[_ H]|[first [rest [best [sim [_ [_ [_ [_ [_ [_ H]]]]]]]]]]]; rewrite H.
  - exact Hnd.
  - unfold grantResult. cbn [fst]. unfold logCheckpointAccess.
    rewrite getAllPassengers_setStaffLogs.
    apply ids_unique_updateCheckpointStatus, Hnd.
Qed.

(** X28.  No two records of a store that the application can reach share an
    id, whatever was saved, verified, deleted, swept or cleared on the way
    from an empty localStorage. *)
Lemma reachable_ids_unique :
  forall ls,
    reachable newDate toFixed1 ls -> NoDup (map id (getAllPassengers ls)).
Proof.
  intros ls H. induction H.
  - constructor.
  - apply ids_unique_savePassengerData, IHreachable.
  - apply ids_unique_processVerification, IHreachable.
  - unfold deletePassengerData. cbn [fst].
    rewrite getAllPassengers_setPassengers_filter.
    apply NoDup_map_filter, IHreachable.
  - unfold cleanupExpiredPassengers. cbn [fst].
    rewrite getAllPassengers_setPassengers_filter.
    apply NoDup_map_filter, IHreachable.
  - constructor.
Qed.

(** An enrollment step keeps a reachable store reachable. *)
Lemma reachable_enrollment_step :
  forall ls w e,
    reachable newDate toFixed1 ls ->
    reachable newDate toFixed1 (fst (Enrollment.step (ls, w) e)).
Proof.
  intros ls w e H.
  destruct e;
    try (unfold Enrollment.step;
         repeat match goal with
                | |- context [match ?x with _ => _ end] => destruct x
                end;
         exact H).
  pose proof (step_Complete ls w uuid capturedAt enrolledAt) as Hs. cbv zeta in Hs.
  destruct Hs as [[E _]|[fd [h [_ [_ [_ [_ [_ E]]]]]]]]; rewrite E; cbn [fst];
    [exact H | apply reach_save, H].
Qed.

End Reachable.

(** * Further properties of the code *)

(** ** The passenger store: save, look up, update *)

Lemma findIndex_assign_same :
  forall (A : Type) (f : A -> bool) (l : list A) n x,
    findIndex f l = Some n -> f x = true -> findIndex f (assign l n x) = Some n.
Proof.
  intros A f l. induction l as [|a l IH]; intros n x; cbn [findIndex]; [discriminate|].
  destruct (f a) eqn:E.
  - intros H Hx. inversion H. cbn [assign findIndex]. rewrite Hx. reflexivity.
  - destruct (findIndex f l) as [m|] eqn:F; cbn [option_map]; [|discriminate].
    intros H Hx. inversion H. cbn [assign findIndex]. rewrite E.
    rewrite (IH m x eq_refl Hx). reflexivity.
Qed.

Lemma assign_assign :
  forall (A : Type) (l : list A) n x y, assign (assign l n x) n y = assign l n y.
Proof.
  intros A l. induction l as [|a l IH]; intros [|n] x y; try reflexivity.
  cbn [assign]. rewrite IH. reflexivity.
Qed.

Lemma length_assign :
  forall (A : Type) (l : list A) n x, List.length (assign l n x) = List.length l.
Proof.
  intros A l. induction l as [|a l IH]; intros [|n] x; try reflexivity.
  cbn [assign List.length]. rewrite IH. reflexivity.
Qed.

Lemma findIndex_app_last :
  forall (A : Type) (f : A -> bool) (l : list A) x,
    findIndex f l = None -> f x = true ->
    findIndex f (l ++ [x])%list = Some (List.length l).
Proof.
  intros A f l x. induction l as [|a l IH]; cbn [findIndex app List.length].
  - intros _ Hx. rewrite Hx. reflexivity.
  - destruct (f a); [discriminate|].
    destruct (findIndex f l) eqn:F; cbn [option_map]; [discriminate|].
    intros _ Hx. rewrite (IH eq_refl Hx). reflexivity.
Qed.

Lemma assign_app_last :
  forall (A : Type) (l : list A) x y,
    assign (l ++ [x])%list (List.length l) y = (l ++ [y])%list.
Proof.
  intros A l x y. induction l as [|a l IH]; [reflexivity|].
  cbn [app List.length assign]. rewrite IH. reflexivity.
Qed.

Lemma find_assign_other :
  forall (A : Type) (f g : A -> bool) (l : list A) n x,
    findIndex f l = Some n ->
    (forall y, f y = true -> g y = false) -> g x = false ->
    find g (assign l n x) = find g l.
Proof.
  intros A f g l. induction l as [|a l IH]; intros n x; cbn [findIndex]; [discriminate|].
  destruct (f a) eqn:E.
  - intros H Hfg Hx. inversion H. cbn [assign find]. rewrite Hx, (Hfg a E). reflexivity.
  - destruct (findIndex f l) as [m|] eqn:F; cbn [option_map]; [|discriminate].
    intros H Hfg Hx. inversion H. cbn [assign find].
    rewrite (IH m x eq_refl Hfg Hx). reflexivity.
Qed.

Lemma getPassengerById_save_same :
  forall ls p,
    getPassengerById (savePassengerData ls p) (id p) = Some (JSON.passengerData p).
Proof.
  intros ls p. unfold getPassengerById. rewrite getAllPassengers_savePassengerData.
  destruct (findIndex (fun q => id q =? id p) (getAllPassengers ls)) as [n|] eqn:E.
  - apply (find_assign_same _ _ _ _ _ E). apply String.eqb_refl.
  - rewrite find_app_last, (find_None_findIndex _ _ _ E).
    cbn [JSON.passengerData id]. rewrite String.eqb_refl. reflexivity.
Qed.

Lemma getPassengerById_save_other :
  forall ls p i,
    i <> id p ->
    getPassengerById (savePassengerData ls p) i = getPassengerById ls i.
Proof.
  intros ls p i Hne. unfold getPassengerById. rewrite getAllPassengers_savePassengerData.
  assert (Hp : (id p =? i) = false) by (apply String.eqb_neq; congruence).
  destruct (findIndex (fun q => id q =? id p) (getAllPassengers ls)) as [n|] eqn:E.
  - apply (find_assign_other _ _ _ _ _ _ E); [|exact Hp].
    intros y Hy. apply String.eqb_eq in Hy. rewrite Hy. exact Hp.
  - rewrite find_app_last. cbn [JSON.passengerData id]. rewrite Hp.
    destruct (find (fun p0 => id p0 =? i) (getAllPassengers ls)); reflexivity.
Qed.

(** X1.  Saving a passenger and looking its id up gives the passenger as it
    is read back from the JSON text, whether the save replaced a record or
    appended one.  That is the saved passenger itself exactly when every
    number of its embedding is finite and is not the negative zero;
    otherwise the embedding comes back with [null] for each NaN or
    infinity and [0] for each negative zero, and the other fields as they
    were saved.  The lookup of every other id is what it was before the
    save. *)
Theorem save_then_lookup :
  forall (ls : LocalStorage) (p : PassengerData) (i : string),
    getPassengerById (savePassengerData ls p) (id p) = Some (JSON.passengerData p)
    /\ (getPassengerById (savePassengerData ls p) (id p) = Some p
        <-> readBackAsWritten p)
    /\ (i <> id p ->
        getPassengerById (savePassengerData ls p) i = getPassengerById ls i)
    /\ JSON.number PrimFloat.neg_zero = Element.Number 0%float
    /\ JSON.number PrimFloat.infinity = Element.Null
    /\ JSON.number PrimFloat.neg_infinity = Element.Null
    /\ JSON.number PrimFloat.nan = Element.Null
    /\ (forall x,
          PrimFloat.is_finite x = true -> PrimFloat.is_zero x = false ->
          JSON.number x = Element.Number x).
Proof.
  intros ls p i. rewrite getPassengerById_save_same.
  split; [reflexivity|]. split.
  { rewrite <- JSON_passengerData_exact. split; [intros H; inversion H as [E] | intros ->];
      [rewrite E; exact E | reflexivity]. }
  split; [apply getPassengerById_save_other|].
  do 4 (split; [reflexivity|]).
  intros x Hf Hz. unfold JSON.number. rewrite Hf, Hz. reflexivity.
Qed.

(** Two embeddings that are not read back as saved: [-0, 1] comes back as
    [0, 1], and [Infinity, 1] as [null, 1]. *)
Lemma saved_embedding_read_back :
  let p :=
    examplePassenger "TRU-z" "h9" (Some [PrimFloat.neg_zero; 1%float])
      "2030-01-01T10:00Z" noCheckpoints in
  let q :=
    examplePassenger "TRU-i" "h9" (Some [PrimFloat.infinity; 1%float])
      "2030-01-01T10:00Z" noCheckpoints in
  option_map (fun r => faceEmbedding (biometrics r))
    (getPassengerById (savePassengerData emptyStorage p) "TRU-z")
  = Some (Some [Element.Number 0%float; Element.Number 1%float])
  /\ option_map (fun r => faceEmbedding (biometrics r))
       (getPassengerById (savePassengerData emptyStorage q) "TRU-i")
     = Some (Some [Element.Null; Element.Number 1%float])
  /\ getPassengerById (savePassengerData emptyStorage alice) "TRU-a" = Some alice.
Proof. repeat split. Qed.

(** X2.  [savePassengerData] has update semantics: saving the same passenger
    twice leaves the store as after the first save, and a save changes the
    number of stored records by one when the id was absent and not at all
    when it was present. *)
Theorem save_twice_is_save_once :
  forall (ls : LocalStorage) (p : PassengerData),
    savePassengerData (savePassengerData ls p) p = savePassengerData ls p
    /\ List.length (getAllPassengers (savePassengerData ls p))
       = match getPassengerById ls (id p) with
         | Some _ => List.length (getAllPassengers ls)
         | None => S (List.length (getAllPassengers ls))
         end.
Proof.
  intros ls p. unfold getPassengerById.
  unfold savePassengerData at 2 3 4.
  destruct (findIndex (fun q => id q =? id p) (getAllPassengers ls)) as [n|] eqn:E.
  - split.
    + unfold savePassengerData. rewrite getAllPassengers_setPassengers, map_assign.
      rewrite (map_JSON_stored _ (getAllPassengers_stored ls)).
      rewrite (findIndex_assign_same _ _ _ _ (JSON.passengerData p) E
                 (String.eqb_refl _)).
      rewrite assign_assign. reflexivity.
    + rewrite getAllPassengers_setPassengers, length_map, length_assign.
      destruct (find (fun q => id q =? id p) (getAllPassengers ls)) eqn:F; [reflexivity|].
      rewrite (findIndex_None _ _ _ F) in E. discriminate.
  - split.
    + unfold savePassengerData. rewrite getAllPassengers_setPassengers, map_app.
      rewrite (map_JSON_stored _ (getAllPassengers_stored ls)). cbn [map].
      rewrite (findIndex_app_last _ _ _ (JSON.passengerData p) E (String.eqb_refl _)).
      rewrite assign_app_last. reflexivity.
    + rewrite getAllPassengers_setPassengers, length_map, (find_None_findIndex _ _ _ E).
      rewrite length_app. cbn [List.length]. lia.
Qed.

(** X3.  [updateCheckpointStatus] reports whether a record with the id
    exists: on an absent id it returns false and leaves the store as it is;
    on a present id it returns true, the lookup of that id then gives the
    same record with the flag set to the given status, the lookup of every
    other id is unchanged, and so is the log. *)
Theorem updateCheckpointStatus_spec :
  forall (ls : LocalStorage) (i : string) (k : Checkpoint.t) (b : bool),
    match getPassengerById ls i with
    | None => updateCheckpointStatus ls i k b = (ls, false)
    | Some p =>
        snd (updateCheckpointStatus ls i k b) = true
        /\ getPassengerById (fst (updateCheckpointStatus ls i k b)) i
           = Some (withCheckpoint p k b)
        /\ getCheckpoint (checkpoints (withCheckpoint p k b)) k = b
        /\ (forall j, j <> i ->
              getPassengerById (fst (updateCheckpointStatus ls i k b)) j
              = getPassengerById ls j)
        /\ getStaffLogs (fst (updateCheckpointStatus ls i k b)) = getStaffLogs ls
    end.
Proof.
  intros ls i k b. unfold getPassengerById at 1. unfold updateCheckpointStatus.
  destruct (find (fun p => id p =? i) (getAllPassengers ls)) as [p|] eqn:F;
    [|reflexivity].
  assert (Hi : id p = i) by (apply find_some in F; apply String.eqb_eq, F).
  assert (Hs : JSON.passengerData (withCheckpoint p k b) = withCheckpoint p k b).
  { rewrite JSON_passengerData_withCheckpoint.
    rewrite (getAllPassengers_stored ls p (proj1 (find_some _ _ F))). reflexivity. }
  clear F. subst i. cbn [fst snd]. split; [reflexivity|]. split.
  { rewrite <- Hs at 2. apply (getPassengerById_save_same ls (withCheckpoint p k b)). }
  split; [destruct k; reflexivity|]. split.
  - intros j Hj. apply getPassengerById_save_other.
    rewrite id_withCheckpoint. exact Hj.
  - apply getStaffLogs_savePassengerData.
Qed.

(** ** Candidates of a verification *)

Lemma generatePassengerId_inj :
  forall u1 u2, generatePassengerId u1 = generatePassengerId u2 -> u1 = u2.
Proof. intros u1 u2 H. unfold generatePassengerId in H. cbn in H. congruence. Qed.

(** X4.  The candidates of a verification are, in store order, exactly the
    stored passengers for which [verifyBiometricMatch] reports both a face
    match and a fingerprint match; an absent or empty fingerprint hash
    matches every passenger, so only the face hash then selects. *)
Theorem candidates_are_the_biometric_matches :
  forall (ls : LocalStorage) (fHash : string) (fpHash : option string)
         (embedding : option (list float)),
    findPassengersByBiometrics ls fHash fpHash
    = filter
        (fun p =>
           BiometricMatch.faceMatch
             (verifyBiometricMatch (biometrics p) fHash fpHash embedding)
           && BiometricMatch.fingerprintMatch
                (verifyBiometricMatch (biometrics p) fHash fpHash embedding))
        (getAllPassengers ls)
    /\ findPassengersByBiometrics ls fHash (Some "")
       = findPassengersByBiometrics ls fHash None
    /\ findPassengersByBiometrics ls fHash None
       = filter (fun p => faceHash (biometrics p) =? fHash) (getAllPassengers ls).
Proof.
  intros ls fHash fpHash embedding. split; [reflexivity|]. split; [reflexivity|].
  unfold findPassengersByBiometrics. cbn [truthy_opt].
  apply filter_ext. intros p. apply andb_true_r.
Qed.

Section Candidates.

Variable newDate : string -> option Z.
Variable toFixed1 : float -> string.

Lemma outcome_NO_MATCH_iff :
  forall checkpoint ls fHash embedding fpHash env,
    outcome (snd (processVerification newDate toFixed1 checkpoint ls fHash
                    embedding fpHash env)) = NO_MATCH
    <-> findPassengersByBiometrics ls fHash fpHash = [].
Proof.
  intros checkpoint ls fHash embedding fpHash env. unfold processVerification.
  destruct (findPassengersByBiometrics ls fHash fpHash) as [|first rest].
  { split; reflexivity. }
  destruct (selectBestMatch fHash fpHash embedding first (first :: rest)) as [best sim].
  split; [|discriminate]. intros H. exfalso.
  destruct (negb (isFlightValid newDate (clock env) (departureTime best)));
    [discriminate|].
  destruct (Checkpoint.eqb checkpoint Checkpoint.immigration
            && negb (security (checkpoints best))); [discriminate|].
  destruct (Checkpoint.eqb checkpoint Checkpoint.boarding
            && (negb (security (checkpoints best))
                || negb (immigration (checkpoints best)))); [discriminate|].
  destruct (getCheckpoint (checkpoints best) checkpoint); [discriminate|].
  cbn [snd] in H. rewrite outcome_granted_message in H. discriminate.
Qed.

Lemma processVerification_passenger_In :
  forall checkpoint ls fHash embedding fpHash env p,
    passenger (snd (processVerification newDate toFixed1 checkpoint ls fHash
                      embedding fpHash env)) = Some p ->
    In p (findPassengersByBiometrics ls fHash fpHash).
Proof.
  intros checkpoint ls fHash embedding fpHash env p.
  unfold processVerification.
  destruct (findPassengersByBiometrics ls fHash fpHash) as [|first rest] eqn:Hc.
  { discriminate. }
  pose proof (selectBestMatch_In fHash fpHash embedding (first :: rest)
                (first, 0%float)) as Hin.
  cbv zeta in Hin. unfold selectBestMatch.
  destruct (fold_left (bestMatchStep fHash fpHash embedding) (first :: rest)
              (first, 0%float)) as [best sim].
  cbn [fst] in Hin.
  assert (Hb : In best (first :: rest)).
  { destruct Hin as [H|H]; [left; symmetry; exact H | exact H]. }
  assert (Hp : Some best = Some p -> In p (first :: rest)).
  { intros H. inversion H. subst. exact Hb. }
  destruct (negb (isFlightValid newDate (clock env) (departureTime best)));
    [exact Hp|].
  destruct (Checkpoint.eqb checkpoint Checkpoint.immigration
            && negb (security (checkpoints best))); [exact Hp|].
  destruct (Checkpoint.eqb checkpoint Checkpoint.boarding
            && (negb (security (checkpoints best))
                || negb (immigration (checkpoints best)))); [exact Hp|].
  destruct (getCheckpoint (checkpoints best) checkpoint); exact Hp.
Qed.

(** X5.  A station verification answers "no matching passenger" exactly when
    no stored record carries the presented face hash.  So a passenger that
    was just saved is always found by a capture with its face hash, whatever
    embedding the capture carries. *)
Theorem no_match_iff_face_hash_unknown :
  forall (checkpoint : Checkpoint.t) (ls : LocalStorage)
         (capture : string * list float) (env : Reads),
    (outcome (snd (verifyCapture newDate toFixed1 checkpoint ls capture env)) = NO_MATCH
     <-> forall p, In p (getAllPassengers ls) -> faceHash (biometrics p) <> fst capture)
    /\ (forall p,
          faceHash (biometrics p) = fst capture ->
          outcome (snd (verifyCapture newDate toFixed1 checkpoint
                          (savePassengerData ls p) capture env)) <> NO_MATCH).
Proof.
  intros checkpoint ls capture env.
  assert (Hiff : forall ls0,
    outcome (snd (verifyCapture newDate toFixed1 checkpoint ls0 capture env)) = NO_MATCH
    <-> forall p, In p (getAllPassengers ls0) -> faceHash (biometrics p) <> fst capture).
  { intros ls0. unfold verifyCapture. rewrite outcome_NO_MATCH_iff.
    unfold findPassengersByBiometrics. cbn [truthy_opt]. split.
    - intros H p Hp Heq.
      assert (Hin : In p (filter (fun p0 => (faceHash (biometrics p0) =? fst capture) && true)
                            (getAllPassengers ls0))).
      { apply filter_In. split; [exact Hp|]. rewrite Heq, String.eqb_refl. reflexivity. }
      rewrite H in Hin. destruct Hin.
    - intros H.
      destruct (filter (fun p0 => (faceHash (biometrics p0) =? fst capture) && true)
                  (getAllPassengers ls0)) as [|q qs] eqn:F; [reflexivity|].
      assert (Hin : In q (q :: qs)) by (left; reflexivity).
      rewrite <- F in Hin. apply filter_In in Hin. destruct Hin as [Hq Hm].
      rewrite andb_true_r in Hm. apply String.eqb_eq in Hm.
      exfalso. apply (H q Hq Hm). }
  split; [apply Hiff|].
  intros p Hp Hno.
  apply (proj1 (Hiff (savePassengerData ls p)) Hno (JSON.passengerData p)
           (In_savePassengerData ls p) Hp).
Qed.

(** X6.  After [deletePassengerData] no verification returns a passenger
    with the deleted id, for any checkpoint and any presented sample. *)
Theorem deleted_passenger_is_never_matched :
  forall (ls : LocalStorage) (passengerId : string) (checkpoint : Checkpoint.t)
         (fHash : string) (embedding : list float) (fpHash : option string)
         (env : Reads),
    match passenger
            (snd (processVerification newDate toFixed1 checkpoint
                    (fst (deletePassengerData ls passengerId))
                    fHash embedding fpHash env)) with
    | Some p => id p <> passengerId
    | None => True
    end.
Proof.
  intros ls i checkpoint fHash embedding fpHash env.
  destruct (passenger _) as [p|] eqn:E; [|exact I].
  apply processVerification_passenger_In in E.
  apply findPassengersByBiometrics_In in E.
  unfold deletePassengerData in E. cbn [fst] in E.
  rewrite getAllPassengers_setPassengers_filter in E. apply filter_In in E.
  destruct E as [_ E]. apply negb_true_iff, String.eqb_neq in E. exact E.
Qed.

End Candidates.

(** ** What any sequence of verifications keeps *)

Lemma advances_refl : forall p, advances p p.
Proof. intros p. unfold advances. repeat split; auto. Qed.

Lemma advances_trans :
  forall p q r, advances p q -> advances q r -> advances p r.
Proof.
  unfold advances. intros p q r
    [A1 [A2 [A3 [A4 [A5 [A6 [A7 [A8 [A9 [A10 A11]]]]]]]]]]
    [B1 [B2 [B3 [B4 [B5 [B6 [B7 [B8 [B9 [B10 B11]]]]]]]]]].
  repeat split; try congruence. intros k Hk. apply B11, A11, Hk.
Qed.

Lemma advances_withCheckpoint :
  forall p k, advances p (withCheckpoint p k true).
Proof.
  intros p k. unfold advances. repeat split.
  intros k' Hk'. destruct k, k'; cbn in *; auto.
Qed.

Lemma Forall2_advances_refl : forall l, Forall2 advances l l.
Proof. induction l; constructor; [apply advances_refl | assumption]. Qed.

Lemma Forall2_advances_trans :
  forall l1 l2 l3,
    Forall2 advances l1 l2 -> Forall2 advances l2 l3 -> Forall2 advances l1 l3.
Proof.
  intros l1 l2 l3 H. revert l3. induction H; intros l3 H'; inversion H'; subst;
    constructor; [eapply advances_trans; eassumption | auto].
Qed.

Lemma Forall2_advances_updateFirst :
  forall i k l,
    Forall2 advances l (updateFirst i (fun p => withCheckpoint p k true) l).
Proof.
  intros i k l. induction l as [|a l IH]; cbn [updateFirst]; [constructor|].
  destruct (id a =? i).
  - constructor; [apply advances_withCheckpoint | apply Forall2_advances_refl].
  - constructor; [apply advances_refl | exact IH].
Qed.

Section Kept.

Variable newDate : string -> option Z.
Variable toFixed1 : float -> string.

Lemma processVerification_advances :
  forall checkpoint ls fHash embedding fpHash env,
    Forall2 advances (getAllPassengers ls)
      (getAllPassengers
         (fst (processVerification newDate toFixed1 checkpoint ls fHash embedding
                 fpHash env))).
Proof.
  intros checkpoint ls fHash embedding fpHash env.
  destruct (processVerification_inv newDate toFixed1 checkpoint ls fHash embedding fpHash env)
    as [[_ H]|[first [rest [best [sim [_ [_ [_ [_ [_ [_ H]]]]]]]]]]]; rewrite H.
  - apply Forall2_advances_refl.
  - unfold grantResult. cbn [fst]. unfold logCheckpointAccess.
    rewrite getAllPassengers_setStaffLogs, getAllPassengers_updateCheckpointStatus.
    apply Forall2_advances_updateFirst.
Qed.

(** X7.  Verifications never add, remove or reorder records and never touch
    identity, flight or biometric fields: after any sequence of them the
    store holds, position by position, the same passengers, and every
    checkpoint that was cleared before is still cleared. *)
Theorem verifications_only_clear_checkpoints :
  forall (calls : list VerifyCall) (ls : LocalStorage),
    Forall2 advances (getAllPassengers ls)
      (getAllPassengers (verifyAll newDate toFixed1 ls calls))
    /\ List.length (getAllPassengers (verifyAll newDate toFixed1 ls calls))
       = List.length (getAllPassengers ls)
    /\ map id (getAllPassengers (verifyAll newDate toFixed1 ls calls))
       = map id (getAllPassengers ls).
Proof.
  intros calls ls.
  assert (H : Forall2 advances (getAllPassengers ls)
                (getAllPassengers (verifyAll newDate toFixed1 ls calls))).
  { revert ls. induction calls as [|c cs IH]; intros ls.
    - apply Forall2_advances_refl.
    - unfold verifyAll. cbn [fold_left].
      eapply Forall2_advances_trans; [|apply IH].
      unfold verifyCall. apply processVerification_advances. }
  split; [exact H|]. split.
  - symmetry. apply (Forall2_length H).
  - induction H as [|p q l l' Hpq _ IH]; [reflexivity|].
    cbn [map]. destruct Hpq as [Hid _]. rewrite Hid, IH. reflexivity.
Qed.

Lemma processVerification_logs :
  forall checkpoint ls fHash embedding fpHash env,
    let ls' := fst (processVerification newDate toFixed1 checkpoint ls fHash
                      embedding fpHash env) in
    getStaffLogs ls' = getStaffLogs ls
    \/ exists e, getStaffLogs ls' = (getStaffLogs ls ++ [e])%list /\ grantedBySystem e.
Proof.
  intros checkpoint ls fHash embedding fpHash env ls'. subst ls'.
  destruct (processVerification_inv newDate toFixed1 checkpoint ls fHash embedding fpHash env)
    as [[_ H]|[first [rest [best [sim [_ [_ [_ [_ [_ [_ H]]]]]]]]]]]; rewrite H.
  - left. reflexivity.
  - right. exists (grantEntry toFixed1 checkpoint best sim env).
    unfold grantResult. cbn [fst]. unfold logCheckpointAccess.
    rewrite getStaffLogs_setStaffLogs, getStaffLogs_updateCheckpointStatus.
    split; [reflexivity | split; reflexivity].
Qed.

(** X8.  The access log is append-only under verification: after any
    sequence of verifications the old log is a prefix of the new one, at
    most one entry was added per call, and every added entry has result
    [granted] and staff id "SYSTEM". *)
Theorem verifications_append_granted_entries :
  forall (calls : list VerifyCall) (ls : LocalStorage),
    exists added,
      getStaffLogs (verifyAll newDate toFixed1 ls calls)
      = (getStaffLogs ls ++ added)%list
      /\ (List.length added <= List.length calls)%nat
      /\ Forall grantedBySystem added.
Proof.
  intros calls. induction calls as [|c cs IH]; intros ls.
  - exists []. rewrite app_nil_r. repeat split; constructor.
  - unfold verifyAll. cbn [fold_left]. fold (verifyAll newDate toFixed1).
    change (fold_left (fun ls0 c0 => fst (verifyCall newDate toFixed1 ls0 c0)) cs
              (fst (verifyCall newDate toFixed1 ls c)))
      with (verifyAll newDate toFixed1 (fst (verifyCall newDate toFixed1 ls c)) cs).
    destruct (IH (fst (verifyCall newDate toFixed1 ls c))) as [added [E [Hlen Hall]]].
    unfold verifyCall in *.
    destruct (processVerification_logs (call_checkpoint c) ls (call_faceHash c)
                (call_embedding c) (call_fingerprintHash c) (call_env c))
      as [H|[e [H He]]]; cbv zeta in H; rewrite H in E.
    + exists added. split; [exact E|]. split; [cbn [List.length]; lia | exact Hall].
    + exists (e :: added). rewrite <- app_assoc in E. split; [exact E|].
      split; [cbn [List.length]; lia | constructor; assumption].
Qed.

End Kept.

(** ** What a successful verification guarantees *)

Section Success.

Variable newDate : string -> option Z.
Variable toFixed1 : float -> string.

(** X9.  A verification reports success only for a stored passenger whose
    flight has not left at the time of the call and whose earlier
    checkpoints are cleared; when it reports failure it has written
    nothing. *)
Theorem success_only_with_valid_flight_and_prerequisites :
  forall (checkpoint : Checkpoint.t) (ls : LocalStorage) (fHash : string)
         (embedding : list float) (fpHash : option string) (env : Reads),
    let r := processVerification newDate toFixed1 checkpoint ls fHash embedding fpHash env in
    if success (snd r)
    then exists best,
           passenger (snd r) = Some best
           /\ In best (getAllPassengers ls)
           /\ isFlightValid newDate (clock env) (departureTime best) = true
           /\ prerequisitesMet checkpoint (checkpoints best)
    else fst r = ls.
Proof.
  intros checkpoint ls fHash embedding fpHash env r. subst r.
  unfold processVerification.
  destruct (findPassengersByBiometrics ls fHash fpHash) as [|first rest] eqn:Hc;
    [reflexivity|].
  pose proof (selectBestMatch_In fHash fpHash embedding (first :: rest)
                (first, 0%float)) as Hin.
  cbv zeta in Hin. unfold selectBestMatch.
  destruct (fold_left (bestMatchStep fHash fpHash embedding) (first :: rest)
              (first, 0%float)) as [best sim].
  cbn [fst] in Hin.
  assert (Hb : In best (getAllPassengers ls)).
  { apply (findPassengersByBiometrics_In ls fHash fpHash). rewrite Hc.
    destruct Hin as [H|H]; [left; symmetry; exact H | exact H]. }
  destruct (isFlightValid newDate (clock env) (departureTime best)) eqn:Hv;
    cbn [negb]; [|reflexivity].
  destruct (Checkpoint.eqb checkpoint Checkpoint.immigration
            && negb (security (checkpoints best))) eqn:Hi; [reflexivity|].
  destruct (Checkpoint.eqb checkpoint Checkpoint.boarding
            && (negb (security (checkpoints best))
                || negb (immigration (checkpoints best)))) eqn:Hbd; [reflexivity|].
  assert (Hp : prerequisitesMet checkpoint (checkpoints best)).
  { split.
    - intros ->. cbn [Checkpoint.eqb andb] in Hi.
      destruct (security (checkpoints best)); [reflexivity | discriminate].
    - intros ->. cbn [Checkpoint.eqb andb] in Hbd.
      destruct (security (checkpoints best)), (immigration (checkpoints best));
        try discriminate. split; reflexivity. }
  destruct (getCheckpoint (checkpoints best) checkpoint); cbn [snd success];
    exists best; (split; [reflexivity|]); (split; [exact Hb|]);
    (split; [exact Hv | exact Hp]).
Qed.

Lemma isFlightValid_earlier :
  forall t t' s,
    (t <= t')%Z -> isFlightValid newDate t' s = true -> isFlightValid newDate t s = true.
Proof.
  intros t t' s Hle. unfold isFlightValid. destruct (newDate s) as [d|]; [|auto].
  rewrite !Z.ltb_lt. lia.
Qed.

(** X10.  A departed flight stays departed: when a verification answers
    "flight has already departed", every verification of the same sample at
    that time or later, for any checkpoint, gives the same answer with the
    same passenger and similarity, and the store stays as it is. *)
Theorem flight_departed_is_final :
  forall (checkpoint : Checkpoint.t) (ls : LocalStorage) (fHash : string)
         (embedding : list float) (fpHash : option string) (env : Reads),
    outcome (snd (processVerification newDate toFixed1 checkpoint ls fHash
                    embedding fpHash env)) = FLIGHT_DEPARTED ->
    forall (checkpoint' : Checkpoint.t) (env' : Reads),
      (clock env <= clock env')%Z ->
      processVerification newDate toFixed1 checkpoint' ls fHash embedding fpHash env'
      = processVerification newDate toFixed1 checkpoint ls fHash embedding fpHash env.
Proof.
  intros checkpoint ls fHash embedding fpHash env H checkpoint' env' Hle.
  unfold processVerification in *.
  destruct (findPassengersByBiometrics ls fHash fpHash) as [|first rest];
    [discriminate|].
  destruct (selectBestMatch fHash fpHash embedding first (first :: rest)) as [best sim].
  destruct (isFlightValid newDate (clock env) (departureTime best)) eqn:Hv;
    cbn [negb] in *.
  - exfalso.
    destruct (Checkpoint.eqb checkpoint Checkpoint.immigration
              && negb (security (checkpoints best))); [discriminate|].
    destruct (Checkpoint.eqb checkpoint Checkpoint.boarding
              && (negb (security (checkpoints best))
                  || negb (immigration (checkpoints best)))); [discriminate|].
    destruct (getCheckpoint (checkpoints best) checkpoint); [discriminate|].
    cbn [snd] in H. rewrite outcome_granted_message in H. discriminate.
  - destruct (isFlightValid newDate (clock env') (departureTime best)) eqn:Hv';
      [|reflexivity].
    rewrite (isFlightValid_earlier _ _ _ Hle Hv') in Hv. discriminate.
Qed.

End Success.

(** A flight of 2020 is answered "departed" in 2026, and again in 2031 at
    another station. *)
Lemma flight_departed_is_final_witness :
  processVerification isoDate toFixedOne Checkpoint.boarding (storeOf [quentin])
    "h2" presented None (readsAt t2031 "u2")
  = processVerification isoDate toFixedOne Checkpoint.security (storeOf [quentin])
      "h2" presented None (readsAt t2026 "u1").
Proof.
  apply (flight_departed_is_final isoDate toFixedOne Checkpoint.security
           (storeOf [quentin]) "h2" presented None (readsAt t2026 "u1")).
  - reflexivity.
  - vm_compute. discriminate.
Defined.

(** ** Checkpoints are cleared in order *)

Lemma inOrder_withCheckpoint :
  forall k p,
    inOrder p -> prerequisitesMet k (checkpoints p) ->
    inOrder (withCheckpoint p k true).
Proof.
  intros k p [H1 H2] [Hi Hb]. unfold inOrder.
  destruct k; cbn [withCheckpoint checkpoints setCheckpoint security immigration boarding].
  - split; [reflexivity | exact H2].
  - split; [intros _; exact (Hi eq_refl) | reflexivity].
  - destruct (Hb eq_refl) as [Hs Him]. split; [intros _; exact Hs | intros _; exact Him].
Qed.

Lemma inOrder_grant :
  forall k best l,
    (forall p, In p l -> inOrder p) -> shadowedClear l ->
    In best l -> prerequisitesMet k (checkpoints best) ->
    (forall p, In p (updateFirst (id best) (fun p => withCheckpoint p k true) l) ->
               inOrder p)
    /\ shadowedClear (updateFirst (id best) (fun p => withCheckpoint p k true) l).
Proof.
  intros k best l. induction l as [|a l IH]; intros Hord Hsh Hin Hpre.
  - destruct Hin.
  - cbn [shadowedClear] in Hsh. destruct Hsh as [Hhead Htail].
    cbn [updateFirst]. destruct (id a =? id best) eqn:E.
    + apply String.eqb_eq in E. split.
      * intros p [Hp|Hp]; [|apply Hord; right; exact Hp]. subst p.
        apply inOrder_withCheckpoint; [apply Hord; left; reflexivity|].
        destruct Hin as [Hin|Hin]; [subst a; exact Hpre|].
        apply (prerequisitesMet_clear k (checkpoints best)); [|exact Hpre].
        apply Hhead; [exact Hin | symmetry; exact E].
      * cbn [shadowedClear]. split; [|exact Htail].
        intros q Hq Hid. apply Hhead; [exact Hq | exact Hid].
    + assert (Hin' : In best l).
      { destruct Hin as [Hin|Hin]; [|exact Hin]. subst a.
        rewrite String.eqb_refl in E. discriminate. }
      destruct (IH (fun p Hp => Hord p (or_intror Hp)) Htail Hin' Hpre) as [IH1 IH2].
      split.
      * intros p [Hp|Hp]; [apply Hord; left; exact Hp | apply IH1, Hp].
      * cbn [shadowedClear]. split; [|exact IH2].
        intros q Hq Hid. apply In_updateFirst in Hq.
        destruct Hq as [Hq|[p0 [_ [Hp0 Hq]]]]; [apply Hhead; assumption|].
        subst q. rewrite id_withCheckpoint in Hid. rewrite Hp0 in Hid.
        rewrite Hid, String.eqb_refl in E. discriminate.
Qed.

Lemma filter_length_le :
  forall (A : Type) (f g : A -> bool) (l : list A),
    (forall x, In x l -> f x = true -> g x = true) ->
    (List.length (filter f l) <= List.length (filter g l))%nat.
Proof.
  intros A f g l. induction l as [|a l IH]; intros H; [apply le_n|].
  cbn [filter].
  assert (IH' : (List.length (filter f l) <= List.length (filter g l))%nat).
  { apply IH. intros x Hx. apply H. right. exact Hx. }
  destruct (f a) eqn:Ef.
  - rewrite (H a (or_introl eq_refl) Ef). cbn [List.length]. lia.
  - destruct (g a); cbn [List.length]; lia.
Qed.

Section Order.

Variable newDate : string -> option Z.
Variable toFixed1 : float -> string.

Lemma inOrder_verifyAll :
  forall calls ls,
    (forall p, In p (getAllPassengers ls) -> inOrder p) ->
    shadowedClear (getAllPassengers ls) ->
    (forall p, In p (getAllPassengers (verifyAll newDate toFixed1 ls calls)) -> inOrder p)
    /\ shadowedClear (getAllPassengers (verifyAll newDate toFixed1 ls calls)).
Proof.
  intros calls. induction calls as [|c cs IH]; intros ls Hord Hsh; [split; assumption|].
  unfold verifyAll. cbn [fold_left].
  change (fold_left (fun ls0 c0 => fst (verifyCall newDate toFixed1 ls0 c0)) cs
            (fst (verifyCall newDate toFixed1 ls c)))
    with (verifyAll newDate toFixed1 (fst (verifyCall newDate toFixed1 ls c)) cs).
  unfold verifyCall.
  destruct (processVerification_inv newDate toFixed1 (call_checkpoint c) ls
              (call_faceHash c) (call_embedding c) (call_fingerprintHash c) (call_env c))
    as [[_ H]|[first [rest [best [sim [_ [_ [Hin [_ [Hpre [_ H]]]]]]]]]]].
  - apply IH; rewrite H; assumption.
  - assert (E : getAllPassengers
                  (fst (processVerification newDate toFixed1 (call_checkpoint c) ls
                          (call_faceHash c) (call_embedding c)
                          (call_fingerprintHash c) (call_env c)))
                = updateFirst (id best)
                    (fun p => withCheckpoint p (call_checkpoint c) true)
                    (getAllPassengers ls)).
    { rewrite H. unfold grantResult. cbn [fst]. unfold logCheckpointAccess.
      rewrite getAllPassengers_setStaffLogs.
      apply getAllPassengers_updateCheckpointStatus. }
    destruct (inOrder_grant (call_checkpoint c) best (getAllPassengers ls)
                Hord Hsh Hin Hpre) as [G1 G2].
    apply IH; rewrite E; assumption.
Qed.

Lemma inOrder_from_clear :
  forall calls ls,
    (forall p, In p (getAllPassengers ls) -> checkpoints p = noCheckpoints) ->
    forall p, In p (getAllPassengers (verifyAll newDate toFixed1 ls calls)) -> inOrder p.
Proof.
  intros calls ls Hinit.
  destruct (storeInvariant_initial _ Hinit) as [_ Hsh].
  apply (inOrder_verifyAll calls ls); [|exact Hsh].
  intros p Hp. unfold inOrder. rewrite (Hinit p Hp). split; discriminate.
Qed.

(** X11.  Starting from records whose checkpoints are all false, after any
    sequence of verifications every stored record has its checkpoints
    cleared in order: immigration only with security, boarding only with
    immigration. *)
Theorem checkpoints_cleared_in_order :
  forall (ls : LocalStorage) (calls : list VerifyCall),
    (forall p, In p (getAllPassengers ls) -> checkpoints p = noCheckpoints) ->
    forall p,
      In p (getAllPassengers (verifyAll newDate toFixed1 ls calls)) ->
      (immigration (checkpoints p) = true -> security (checkpoints p) = true)
      /\ (boarding (checkpoints p) = true -> immigration (checkpoints p) = true).
Proof.
  intros ls calls Hinit p Hp. apply (inOrder_from_clear calls ls Hinit p Hp).
Qed.

(** X12.  On the dashboard the three checkpoint counters are then ordered:
    no more passengers are counted as boarded than as cleared by
    immigration, and no more as cleared by immigration than by security. *)
Theorem checkpoint_counters_are_ordered :
  forall (ls : LocalStorage) (calls : list VerifyCall) (now : Z),
    (forall p, In p (getAllPassengers ls) -> checkpoints p = noCheckpoints) ->
    let s := Stats.checkpointStats
               (getTruidaStats newDate (verifyAll newDate toFixed1 ls calls) now) in
    (Stats.boarding s <= Stats.immigration s)%nat
    /\ (Stats.immigration s <= Stats.security s)%nat.
Proof.
  intros ls calls now Hinit s. subst s. unfold getTruidaStats.
  cbn [Stats.checkpointStats Stats.boarding Stats.immigration Stats.security].
  split; apply filter_length_le; intros p Hp H;
    destruct (inOrder_from_clear calls ls Hinit p Hp) as [H1 H2]; auto.
Qed.

End Order.

(** After the three stations, the one passenger who boarded is counted in
    all three counters. *)
Lemma checkpoints_cleared_in_order_witness :
  security (checkpoints aliceBoarded) = true
  /\ immigration (checkpoints aliceBoarded) = true.
Proof.
  assert (Hin : In aliceBoarded
                  (getAllPassengers
                     (verifyAll isoDate toFixedOne (storeOf [bob; alice])
                        throughAllStations))).
  { vm_compute. right. left. reflexivity. }
  destruct (checkpoints_cleared_in_order isoDate toFixedOne (storeOf [bob; alice])
              throughAllStations) with (p := aliceBoarded) as [H1 H2].
  - intros p [<-|[<-|[]]]; reflexivity.
  - exact Hin.
  - split; [apply H1, H2; reflexivity | apply H2; reflexivity].
Defined.

Lemma checkpoint_counters_are_ordered_witness :
  let s := Stats.checkpointStats
             (getTruidaStats isoDate
                (verifyAll isoDate toFixedOne (storeOf [bob; alice]) throughAllStations)
                t2026) in
  (Stats.boarding s <= Stats.immigration s)%nat
  /\ (Stats.immigration s <= Stats.security s)%nat.
Proof.
  apply (checkpoint_counters_are_ordered isoDate toFixedOne (storeOf [bob; alice])
           throughAllStations t2026).
  intros p [<-|[<-|[]]]; reflexivity.
Defined.

(** ** Statistics and the dashboard *)

Lemma length_sliceLast :
  forall (A : Type) (n : nat) (l : list A),
    List.length (sliceLast n l) = Nat.min n (List.length l).
Proof. intros A n l. unfold sliceLast. rewrite length_skipn. lia. Qed.

Lemma sliceLast_suffix :
  forall (A : Type) (n : nat) (l : list A),
    exists older, l = (older ++ sliceLast n l)%list.
Proof.
  intros A n l. exists (firstn (List.length l - n) l).
  unfold sliceLast. symmetry. apply firstn_skipn.
Qed.

Lemma In_sliceLast :
  forall (A : Type) (n : nat) (l : list A) x, In x (sliceLast n l) -> In x l.
Proof.
  intros A n l x H. destruct (sliceLast_suffix A n l) as [older E].
  rewrite E. apply in_or_app. right. exact H.
Qed.

Lemma filter_length_bound :
  forall (A : Type) (f : A -> bool) (l : list A),
    (List.length (filter f l) <= List.length l)%nat.
Proof.
  intros A f l. induction l as [|a l IH]; [apply le_n|].
  cbn [filter]. destruct (f a); cbn [List.length]; lia.
Qed.

Section StatisticsProperties.

Variable newDate : string -> option Z.

(** X13.  In the statistics no counter exceeds the number of enrolled
    passengers; the recent activity holds at most ten entries, each of them
    a log entry stamped within the last hour, and they are the latest such
    entries, in log order. *)
Theorem getTruidaStats_bounds :
  forall (ls : LocalStorage) (now : Z),
    let s := getTruidaStats newDate ls now in
    Stats.totalEnrolled s = List.length (getAllPassengers ls)
    /\ (Stats.totalActive s <= Stats.totalEnrolled s)%nat
    /\ (Stats.security (Stats.checkpointStats s) <= Stats.totalEnrolled s)%nat
    /\ (Stats.immigration (Stats.checkpointStats s) <= Stats.totalEnrolled s)%nat
    /\ (Stats.boarding (Stats.checkpointStats s) <= Stats.totalEnrolled s)%nat
    /\ (List.length (Stats.recentActivity s) <= 10)%nat
    /\ (forall e, In e (Stats.recentActivity s) ->
          In e (getStaffLogs ls)
          /\ (now - 3600000 < StaffLog.timestamp (StaffLog.entry e))%Z)
    /\ (exists older,
          filter (fun log => (now - 3600000 <? StaffLog.timestamp (StaffLog.entry log))%Z)
            (getStaffLogs ls)
          = (older ++ Stats.recentActivity s)%list).
Proof.
  intros ls now s. subst s. unfold getTruidaStats.
  cbn [Stats.totalEnrolled Stats.totalActive Stats.checkpointStats Stats.security
       Stats.immigration Stats.boarding Stats.recentActivity].
  change (60 * 60 * 1000)%Z with 3600000%Z.
  split; [reflexivity|].
  do 4 (split; [apply filter_length_bound|]).
  split; [rewrite length_sliceLast; lia|]. split.
  - intros e He. apply In_sliceLast in He. apply filter_In in He.
    destruct He as [H1 H2]. split; [exact H1 | apply Z.ltb_lt, H2].
  - apply sliceLast_suffix.
Qed.

(** X14.  The "Cleanup Expired" button: the count it reports is the number
    of enrolled passengers that were not counted as active at the time of
    the sweep; the refreshed dashboard lists the passengers that are left,
    and when it is refreshed at the time of the sweep every one of them is
    counted as active. *)
Theorem handleCleanup_counts :
  forall (ls : LocalStorage) (sweepNow refreshNow : Z),
    let before := getTruidaStats newDate ls sweepNow in
    let r := handleCleanup newDate ls sweepNow refreshNow in
    let after := Dashboard.stats (snd r) in
    snd (fst r)
    = (Z.of_nat (Stats.totalEnrolled before) - Z.of_nat (Stats.totalActive before))%Z
    /\ Stats.totalEnrolled after = Stats.totalActive before
    /\ Dashboard.passengers (snd r) = getAllPassengers (fst (fst r))
    /\ (Stats.totalActive after <= Stats.totalEnrolled after)%nat
    /\ (refreshNow = sweepNow -> Stats.totalActive after = Stats.totalEnrolled after).
Proof.
  intros ls sweepNow refreshNow before r after. subst before r after.
  unfold handleCleanup, cleanupExpiredPassengers, refreshData, getTruidaStats.
  cbn [fst snd Dashboard.stats Dashboard.passengers Stats.totalEnrolled Stats.totalActive].
  rewrite !getAllPassengers_setPassengers_filter.
  split; [reflexivity|]. split; [reflexivity|]. split; [reflexivity|].
  split; [apply filter_length_bound|].
  intros ->. rewrite filter_idempotent. reflexivity.
Qed.

(** X15.  The dashboard shows the latest fifty log entries, newest first;
    right after an entry is logged it is the first one shown. *)
Theorem dashboard_shows_latest_logs_first :
  forall (ls : LocalStorage) (now : Z) (uuid : string) (entry : StaffLog.fields),
    Dashboard.logs (refreshData newDate ls now) = firstn 50 (rev (getStaffLogs ls))
    /\ (List.length (Dashboard.logs (refreshData newDate ls now)) <= 50)%nat
    /\ Dashboard.logs (refreshData newDate (logCheckpointAccess ls uuid entry) now)
       = {| StaffLog.entry := entry; StaffLog.id := uuid |}
         :: firstn 49 (rev (getStaffLogs ls)).
Proof.
  intros ls now uuid entry. unfold refreshData. cbn [Dashboard.logs].
  unfold sliceLast. rewrite <- !firstn_rev.
  split; [reflexivity|]. split; [apply firstn_le_length|].
  unfold logCheckpointAccess. rewrite getStaffLogs_setStaffLogs.
  rewrite rev_app_distr. reflexivity.
Qed.

End StatisticsProperties.

(** X16.  The name shown beside a log entry: after the passenger of the
    entry is saved, it is that passenger's first and last name; after the
    passenger is deleted, the entry stays in the log and is shown as
    "Unknown Passenger". *)
Theorem passengerLabel_follows_the_store :
  forall (ls : LocalStorage) (log : StaffLog.StaffLogEntry),
    let i := StaffLog.passengerId (StaffLog.entry log) in
    passengerLabel (getAllPassengers (fst (deletePassengerData ls i))) log
    = "Unknown Passenger"
    /\ getStaffLogs (fst (deletePassengerData ls i)) = getStaffLogs ls
    /\ (forall p,
          id p = i ->
          passengerLabel (getAllPassengers (savePassengerData ls p)) log
          = firstName p ++ " " ++ lastName p).
Proof.
  intros ls log i. subst i. unfold passengerLabel. split; [|split; [reflexivity|]].
  - unfold deletePassengerData. cbn [fst].
    rewrite getAllPassengers_setPassengers_filter.
    rewrite (find_filter_negb
               (fun p => id p =? StaffLog.passengerId (StaffLog.entry log))).
    reflexivity.
  - intros p Hp. rewrite <- Hp.
    pose proof (getPassengerById_save_same ls p) as H.
    unfold getPassengerById in H. rewrite H. reflexivity.
Qed.

(** ** One log entry per cleared checkpoint *)

Lemma clearedCount_withCheckpoint :
  forall p k,
    getCheckpoint (checkpoints p) k = false ->
    clearedCount (withCheckpoint p k true) = S (clearedCount p).
Proof.
  intros p k H. unfold clearedCount.
  destruct k; cbn [withCheckpoint checkpoints setCheckpoint security immigration
                   boarding getCheckpoint] in *; rewrite H; lia.
Qed.

Lemma clearedTotal_assign :
  forall l n p q,
    nth_error l n = Some p ->
    (clearedTotal (assign l n q) + clearedCount p = clearedTotal l + clearedCount q)%nat.
Proof.
  intros l. induction l as [|a l IH]; intros [|n] p q H; try discriminate.
  - inversion H. subst. cbn [assign clearedTotal]. lia.
  - cbn [nth_error] in H. cbn [assign clearedTotal]. specialize (IH n p q H). lia.
Qed.

Lemma clearedTotal_bound :
  forall l, (clearedTotal l <= 3 * List.length l)%nat.
Proof.
  induction l as [|a l IH]; [apply le_n|]. cbn [clearedTotal List.length].
  unfold clearedCount.
  destruct (security (checkpoints a)), (immigration (checkpoints a)),
    (boarding (checkpoints a)); lia.
Qed.

Section LogCount.

Variable newDate : string -> option Z.
Variable toFixed1 : float -> string.

Lemma processVerification_counts :
  forall checkpoint ls fHash embedding fpHash env,
    NoDup (map id (getAllPassengers ls)) ->
    let ls' := fst (processVerification newDate toFixed1 checkpoint ls fHash
                      embedding fpHash env) in
    (List.length (getStaffLogs ls') + clearedTotal (getAllPassengers ls)
     = List.length (getStaffLogs ls) + clearedTotal (getAllPassengers ls'))%nat.
Proof.
  intros checkpoint ls fHash embedding fpHash env Hnd ls'. subst ls'.
  destruct (processVerification_inv newDate toFixed1 checkpoint ls fHash embedding fpHash env)
    as [[_ H]|[first [rest [best [sim [_ [_ [Hin [_ [_ [Hk H]]]]]]]]]]]; rewrite H.
  - reflexivity.
  - unfold grantResult. cbn [fst]. unfold logCheckpointAccess.
    rewrite getStaffLogs_setStaffLogs, getAllPassengers_setStaffLogs.
    rewrite getStaffLogs_updateCheckpointStatus, getAllPassengers_updateCheckpointStatus.
    destruct (In_nth_error _ _ Hin) as [n Hn].
    rewrite (updateFirst_assign (id best) (fun p => withCheckpoint p checkpoint true)
               _ n best Hnd Hn eq_refl).
    pose proof (clearedTotal_assign _ _ _ (withCheckpoint best checkpoint true) Hn) as E.
    rewrite (clearedCount_withCheckpoint _ _ Hk) in E.
    rewrite length_app. cbn [List.length]. lia.
Qed.

(** X17.  In a store with unique ids every log entry written by a
    verification stands for one checkpoint flag turned on: over any sequence
    of verifications the log grows by exactly the number of flags that were
    set, so by at most three entries per stored passenger. *)
Theorem one_log_entry_per_cleared_checkpoint :
  forall (calls : list VerifyCall) (ls : LocalStorage),
    NoDup (map id (getAllPassengers ls)) ->
    let ls' := verifyAll newDate toFixed1 ls calls in
    (List.length (getStaffLogs ls') + clearedTotal (getAllPassengers ls)
     = List.length (getStaffLogs ls) + clearedTotal (getAllPassengers ls'))%nat
    /\ (List.length (getStaffLogs ls')
        <= List.length (getStaffLogs ls) + 3 * List.length (getAllPassengers ls'))%nat.
Proof.
  intros calls ls Hnd ls'. subst ls'.
  assert (H : (List.length (getStaffLogs (verifyAll newDate toFixed1 ls calls))
               + clearedTotal (getAllPassengers ls)
               = List.length (getStaffLogs ls)
                 + clearedTotal (getAllPassengers (verifyAll newDate toFixed1 ls calls)))%nat).
  { revert ls Hnd. induction calls as [|c cs IH]; intros ls Hnd; [reflexivity|].
    unfold verifyAll. cbn [fold_left].
    change (fold_left (fun ls0 c0 => fst (verifyCall newDate toFixed1 ls0 c0)) cs
              (fst (verifyCall newDate toFixed1 ls c)))
      with (verifyAll newDate toFixed1 (fst (verifyCall newDate toFixed1 ls c)) cs).
    unfold verifyCall.
    pose proof (processVerification_counts (call_checkpoint c) ls (call_faceHash c)
                  (call_embedding c) (call_fingerprintHash c) (call_env c) Hnd) as H1.
    cbv zeta in H1.
    pose proof (ids_unique_processVerification newDate toFixed1 (call_checkpoint c) ls
                  (call_faceHash c) (call_embedding c) (call_fingerprintHash c)
                  (call_env c) Hnd) as Hnd'.
    specialize (IH _ Hnd'). unfold verifyCall in IH. lia. }
  split; [exact H|].
  pose proof (clearedTotal_bound (getAllPassengers (verifyAll newDate toFixed1 ls calls))).
  lia.
Qed.

End LogCount.

(** The two example passengers pass three stations: three entries. *)
Lemma one_log_entry_per_cleared_checkpoint_witness :
  List.length
    (getStaffLogs (verifyAll isoDate toFixedOne (storeOf [bob; alice]) throughAllStations))
  = 3%nat.
Proof.
  pose proof (proj1 (one_log_entry_per_cleared_checkpoint isoDate toFixedOne
                       throughAllStations (storeOf [bob; alice]) example_ids_unique))
    as H.
  vm_compute in H. vm_compute. lia.
Defined.

(** ** The enrollment wizard *)

Lemma scansPresent_step :
  forall ls w e, scansPresent w -> scansPresent (snd (Enrollment.step (ls, w) e)).
Proof.
  intros ls [st pr sm f fd fh c u] e [Hs Hu]. wizard_fields.
  unfold scansPresent, Enrollment.step, Enrollment.goto.
  destruct e; wizard_fields;
    try (destruct (completeEnrollment ls f fd fh uuid capturedAt enrolledAt)
           as [ls' [q|]]);
    destruct st, pr, sm, c as [|c], u as [|u]; wizard_fields;
    try (destruct (Enrollment.continueDisabled f)); unfold Enrollment.initial;
    wizard_fields;
    repeat split; try exact I; try tauto; try discriminate;
    try (intros _; apply Hu; discriminate);
    try (apply Hu; discriminate).
Qed.

Lemma scansPresent_run :
  forall events ls w,
    scansPresent w -> scansPresent (snd (Enrollment.run (ls, w) events)).
Proof.
  intros events. induction events as [|e es IH]; intros ls w Hw; [exact Hw|].
  unfold Enrollment.run. cbn [fold_left].
  pose proof (scansPresent_step ls w e Hw) as H.
  destruct (Enrollment.step (ls, w) e) as [ls' w']. apply IH, H.
Qed.

(** X18.  Whatever the user did in the wizard, and whenever the captures
    and uploads that were pending finished, on the last step both scans
    are there and no operation is marked as in progress: "Complete
    Enrollment" is enabled, and it saves the record built from the form as
    it is then, unless the fingerprint hash is the empty string.  On the
    fingerprint step the face scan is there, and an upload is pending only
    when the face scan is there. *)
Theorem wizard_collects_before_completing :
  forall (events : list Enrollment.event) (ls0 : LocalStorage)
         (uuid : string) (capturedAt enrolledAt : Z),
    let s := Enrollment.run (ls0, Enrollment.initial) events in
    match Enrollment.currentStep (snd s) with
    | Enrollment.complete =>
        exists fd h,
          Enrollment.faceData (snd s) = Some fd
          /\ Enrollment.fingerprintHash (snd s) = Some h
          /\ Enrollment.isProcessing (snd s) = false
          /\ Enrollment.step s (Enrollment.Complete uuid capturedAt enrolledAt)
             = if truthy h
               then (savePassengerData (fst s)
                       (newPassenger (Enrollment.formData (snd s)) fd h uuid
                          capturedAt enrolledAt),
                     Enrollment.initial)
               else s
    | Enrollment.fingerprint => Enrollment.faceData (snd s) <> None
    | _ => True
    end
    /\ (Enrollment.uploads (snd s) <> 0%nat -> Enrollment.faceData (snd s) <> None).
Proof.
  intros events ls0 uuid capturedAt enrolledAt s.
  assert (Hs : scansPresent (snd s)).
  { subst s. apply scansPresent_run. split; [exact I|]. intros H. exfalso. apply H.
    reflexivity. }
  destruct s as [ls w]. cbn [fst snd] in *. unfold scansPresent in Hs.
  destruct Hs as [Hs Hu]. split; [|exact Hu].
  destruct (Enrollment.currentStep w) eqn:Es; try exact I; [exact Hs|].
  destruct Hs as [H1 [H2 H3]].
  destruct (Enrollment.faceData w) as [fd|] eqn:Ef; [|contradiction].
  destruct (Enrollment.fingerprintHash w) as [h|] eqn:Eh; [|contradiction].
  exists fd, h. split; [reflexivity|]. split; [reflexivity|]. split; [exact H3|].
  unfold Enrollment.step. rewrite Es, H3, Ef, Eh. unfold completeEnrollment.
  destruct (truthy h); reflexivity.
Qed.

(** X19.  Enrollment does not look at the passport number: enrolling the
    same form twice, with two different generated UUIDs whose ids are not
    stored yet, appends two records that differ in their id only, and a
    lookup by that passport number keeps returning the record enrolled
    first.  The two records are read back as [JSON.stringify] wrote them,
    which is as they were enrolled when the numbers of the embedding are
    finite and not the negative zero (as those drawn by [Math.random]
    are). *)
Theorem enrolling_twice_adds_two_records :
  forall (ls : LocalStorage) (f : Form.t) (fd : string * list float) (h : string)
         (u1 u2 : string) (capturedAt enrolledAt : Z),
    truthy h = true ->
    u1 <> u2 ->
    getPassengerById ls (generatePassengerId u1) = None ->
    getPassengerById ls (generatePassengerId u2) = None ->
    let p1 := newPassenger f fd h u1 capturedAt enrolledAt in
    let p2 := newPassenger f fd h u2 capturedAt enrolledAt in
    let ls1 := fst (completeEnrollment ls f (Some fd) (Some h) u1 capturedAt enrolledAt) in
    let ls2 := fst (completeEnrollment ls1 f (Some fd) (Some h) u2 capturedAt enrolledAt) in
    getAllPassengers ls2
    = (getAllPassengers ls ++ [JSON.passengerData p1; JSON.passengerData p2])%list
    /\ (Forall exactNumber (snd fd) ->
        getAllPassengers ls2 = (getAllPassengers ls ++ [p1; p2])%list)
    /\ id p1 <> id p2
    /\ biometrics p1 = biometrics p2
    /\ passportNumber p1 = passportNumber p2
    /\ (getPassengerByPassport ls (Form.passportNumber f) = None ->
        getPassengerByPassport ls2 (Form.passportNumber f)
        = Some (JSON.passengerData p1)).
Proof.
  intros ls f fd h u1 u2 capturedAt enrolledAt Ht Hne H1 H2 p1 p2 ls1 ls2.
  assert (Hid : id p1 <> id p2).
  { intros E. apply Hne. apply generatePassengerId_inj. exact E. }
  assert (E1 : getAllPassengers ls1
               = (getAllPassengers ls ++ [JSON.passengerData p1])%list).
  { subst ls1. unfold completeEnrollment. rewrite Ht. cbn [fst].
    apply savePassengerData_fresh. exact H1. }
  assert (E2 : getAllPassengers ls2
               = ((getAllPassengers ls ++ [JSON.passengerData p1])
                  ++ [JSON.passengerData p2])%list).
  { subst ls2. unfold completeEnrollment. rewrite Ht. cbn [fst].
    rewrite <- E1. apply savePassengerData_fresh.
    fold (getPassengerById ls1 (id p2)). subst ls1.
    unfold completeEnrollment. rewrite Ht. cbn [fst].
    rewrite getPassengerById_save_other; [exact H2|].
    intros E. apply Hid. symmetry. exact E. }
  assert (E3 : getAllPassengers ls2
               = (getAllPassengers ls
                  ++ [JSON.passengerData p1; JSON.passengerData p2])%list).
  { rewrite E2, <- app_assoc. reflexivity. }
  split; [exact E3|]. split.
  { intros Hx. rewrite E3.
    rewrite (proj2 (JSON_passengerData_exact p1)
               (newPassenger_readBackAsWritten _ _ _ _ _ _ Hx)).
    rewrite (proj2 (JSON_passengerData_exact p2)
               (newPassenger_readBackAsWritten _ _ _ _ _ _ Hx)).
    reflexivity. }
  split; [exact Hid|]. split; [reflexivity|]. split; [reflexivity|].
  intros Hp. unfold getPassengerByPassport in *. rewrite E2.
  rewrite !find_app_last, Hp. subst p1.
  cbn [passportNumber newPassenger JSON.passengerData].
  rewrite String.eqb_refl. reflexivity.
Qed.

(** The example form enrolled twice into an empty store. *)
Lemma enrolling_twice_adds_two_records_witness :
  List.length
    (getAllPassengers
       (fst (completeEnrollment
               (fst (completeEnrollment emptyStorage exampleForm
                       (Some ("h1", presented)) (Some "f1") "0001" t2026 t2026))
               exampleForm (Some ("h1", presented)) (Some "f1") "0002" t2026 t2026)))
  = 2%nat.
Proof.
  rewrite (proj1 (enrolling_twice_adds_two_records emptyStorage exampleForm
                    ("h1", presented) "f1" "0001" "0002" t2026 t2026
                    eq_refl ltac:(discriminate) eq_refl eq_refl)).
  reflexivity.
Defined.

(** ** Hashing *)

Lemma unhexPair_render :
  forall b : Byte.byte, unhexPair (padStart 2 (toString16 b)) = Some b.
Proof. intros b. destruct b; reflexivity. Qed.

Lemma render_two_digits :
  forall b : Byte.byte,
    exists c1 c2, padStart 2 (toString16 b) = String c1 (String c2 EmptyString).
Proof.
  intros b.
  destruct (padStart 2 (toString16 b)) as [|c1 [|c2 [|c3 r]]] eqn:E;
    try (pose proof (unhexPair_render b) as H; rewrite E in H; discriminate).
  exists c1, c2. reflexivity.
Qed.

Lemma concat_empty_cons :
  forall (x : string) (xs : list string),
    String.concat "" (x :: xs) = x ++ String.concat "" xs.
Proof.
  intros x [|y ys]; cbn [String.concat].
  - induction x as [|c x IH]; [reflexivity|]. cbn [append]. rewrite <- IH. reflexivity.
  - reflexivity.
Qed.

Lemma render_all_inj :
  forall l1 l2 : list Byte.byte,
    String.concat "" (map (fun b => padStart 2 (toString16 b)) l1)
    = String.concat "" (map (fun b => padStart 2 (toString16 b)) l2) ->
    l1 = l2.
Proof.
  intros l1. induction l1 as [|b1 l1 IH]; intros [|b2 l2] H.
  - reflexivity.
  - cbn [map] in H. rewrite concat_empty_cons in H.
    destruct (render_two_digits b2) as [c1 [c2 E]]. rewrite E in H. discriminate.
  - cbn [map] in H. rewrite concat_empty_cons in H.
    destruct (render_two_digits b1) as [c1 [c2 E]]. rewrite E in H. discriminate.
  - cbn [map] in H. rewrite !concat_empty_cons in H.
    pose proof (unhexPair_render b1) as U1. pose proof (unhexPair_render b2) as U2.
    destruct (render_two_digits b1) as [c1 [c2 E1]].
    destruct (render_two_digits b2) as [d1 [d2 E2]].
    rewrite E1 in H, U1. rewrite E2 in H, U2. cbn [append] in H.
    inversion H as [[Hc1 Hc2 Hrest]]. subst d1 d2.
    rewrite U1 in U2. inversion U2. subst b2. f_equal. apply IH, Hrest.
Qed.

Lemma render_all_length :
  forall l : list Byte.byte,
    String.length (String.concat "" (map (fun b => padStart 2 (toString16 b)) l))
    = (2 * List.length l)%nat.
Proof.
  induction l as [|b l IH]; [reflexivity|].
  cbn [map]. rewrite concat_empty_cons.
  destruct (render_two_digits b) as [c1 [c2 E]]. rewrite E.
  cbn [append String.length List.length]. rewrite IH. lia.
Qed.

Section HashingProperties.

Variable encode : string -> list Byte.byte.
Variable sha256 : list Byte.byte -> list Byte.byte.

(** X20.  Writing the digest in hexadecimal loses nothing: two inputs have
    the same hash string exactly when they have the same digest, and the
    hash string has two characters per digest byte. *)
Theorem hashData_equal_iff_digest_equal :
  forall data1 data2 : string,
    (hashData encode sha256 data1 = hashData encode sha256 data2
     <-> sha256 (encode data1) = sha256 (encode data2))
    /\ String.length (hashData encode sha256 data1)
       = (2 * List.length (sha256 (encode data1)))%nat.
Proof.
  intros data1 data2. unfold hashData. split; [split|].
  - apply render_all_inj.
  - intros H. rewrite H. reflexivity.
  - apply render_all_length.
Qed.

(** X21.  With a digest of 32 bytes, as SHA-256 gives, the hash of any input
    is a string of 64 characters, so it is never empty: once both images are
    processed, [completeEnrollment] does not reject for a missing scan and
    saves the passenger. *)
Theorem processed_scans_are_accepted :
  (forall bytes, List.length (sha256 bytes) = 32%nat) ->
  forall (ls : LocalStorage) (f : Form.t) (faceImage fingerprintImage : string)
         (randoms : list float) (uuid : string) (capturedAt enrolledAt : Z),
    String.length (hashData encode sha256 faceImage) = 64%nat
    /\ truthy (processFingerprintImage encode sha256 fingerprintImage) = true
    /\ completeEnrollment ls f
         (Some (processFaceImage encode sha256 faceImage randoms))
         (Some (processFingerprintImage encode sha256 fingerprintImage))
         uuid capturedAt enrolledAt
       = (savePassengerData ls
            (newPassenger f (processFaceImage encode sha256 faceImage randoms)
               (processFingerprintImage encode sha256 fingerprintImage)
               uuid capturedAt enrolledAt),
          Some (newPassenger f (processFaceImage encode sha256 faceImage randoms)
                  (processFingerprintImage encode sha256 fingerprintImage)
                  uuid capturedAt enrolledAt)).
Proof.
  intros H32 ls f faceImage fingerprintImage randoms uuid capturedAt enrolledAt.
  assert (Hlen : forall d, String.length (hashData encode sha256 d) = 64%nat).
  { intros d. unfold hashData. rewrite render_all_length, H32. reflexivity. }
  assert (Ht : truthy (processFingerprintImage encode sha256 fingerprintImage) = true).
  { unfold processFingerprintImage, truthy.
    specialize (Hlen fingerprintImage).
    destruct (hashData encode sha256 fingerprintImage); [discriminate | reflexivity]. }
  split; [apply Hlen|]. split; [exact Ht|].
  unfold completeEnrollment. rewrite Ht. reflexivity.
Qed.

End HashingProperties.

(** An instance with a digest that is constant, of 32 bytes. *)
Lemma processed_scans_are_accepted_witness :
  String.length
    (hashData (fun _ => []) (fun _ => repeat Byte.x00 32) "image") = 64%nat.
Proof.
  apply (processed_scans_are_accepted (fun _ => []) (fun _ => repeat Byte.x00 32)
           (fun _ => eq_refl) emptyStorage exampleForm "image" "image" [] "0001"
           t2026 t2026).
Defined.

(** ** More on the similarity *)

Lemma SFmul_comm :
  forall prec emax a b, SFmul prec emax a b = SFmul prec emax b a.
Proof.
  intros prec emax [sa|sa| |sa ma ea] [sb|sb| |sb mb eb]; cbn [SFmul];
    try reflexivity; try (rewrite xorb_comm; reflexivity).
  rewrite xorb_comm, Pos.mul_comm, Z.add_comm. reflexivity.
Qed.

Lemma float_mul_comm : forall x y : float, (x * y)%float = (y * x)%float.
Proof.
  intros x y. apply Prim2SF_inj. rewrite !mul_spec. apply SFmul_comm.
Qed.

Lemma similarityLoop_swap :
  forall e1 e2 d n1 n2,
    similarityLoop e2 e1 (d, n2, n1)
    = (fst (fst (similarityLoop e1 e2 (d, n1, n2))),
       snd (similarityLoop e1 e2 (d, n1, n2)),
       snd (fst (similarityLoop e1 e2 (d, n1, n2)))).
Proof.
  intros e1. induction e1 as [|x e1 IH]; intros [|y e2] d n1 n2; try reflexivity.
  cbn [similarityLoop]. rewrite (float_mul_comm y x). apply IH.
Qed.

(** X22.  The similarity does not depend on the order of its two
    arguments: the stored and the presented embedding can be exchanged, and
    the result is the same number, bit for bit. *)
Theorem calculateFaceSimilarity_symmetric :
  forall embedding1 embedding2 : list float,
    calculateFaceSimilarity embedding1 embedding2
    = calculateFaceSimilarity embedding2 embedding1.
Proof.
  intros e1 e2. unfold calculateFaceSimilarity.
  rewrite (Nat.eqb_sym (List.length e2) (List.length e1)).
  destruct (Nat.eqb (List.length e1) (List.length e2)); cbn [negb]; [|reflexivity].
  rewrite (similarityLoop_swap e1 e2).
  destruct (similarityLoop e1 e2 (0%float, 0%float, 0%float)) as [[d n1] n2].
  cbn [fst snd]. rewrite (float_mul_comm (PrimFloat.sqrt n2)). reflexivity.
Qed.

Lemma zeroOrNaN_mul_l :
  forall x y : float, zeroOrNaN x -> zeroOrNaN (x * y)%float.
Proof.
  intros x y. unfold zeroOrNaN. rewrite mul_spec. unfold SF64mul.
  destruct (Prim2SF x), (Prim2SF y); cbn; tauto.
Qed.

Lemma zeroOrNaN_add :
  forall x y : float, zeroOrNaN x -> zeroOrNaN y -> zeroOrNaN (x + y)%float.
Proof.
  intros x y. unfold zeroOrNaN. rewrite add_spec. unfold SF64add.
  destruct (Prim2SF x) as [[]|[]| |], (Prim2SF y) as [[]|[]| |]; cbn; tauto.
Qed.

Lemma zeroOrNaN_sqrt :
  forall x : float, zeroOrNaN x -> zeroOrNaN (PrimFloat.sqrt x).
Proof.
  intros x. unfold zeroOrNaN. rewrite sqrt_spec. unfold SF64sqrt.
  destruct (Prim2SF x) as [[]|[]| |]; cbn; tauto.
Qed.

Lemma zeroOrNaN_div :
  forall x y : float, zeroOrNaN x -> zeroOrNaN y -> (x / y)%float = nan.
Proof.
  intros x y. unfold zeroOrNaN. intros Hx Hy. apply Prim2SF_inj. rewrite div_spec.
  change (Prim2SF nan) with S754_nan. unfold SF64div.
  destruct (Prim2SF x), (Prim2SF y); cbn; tauto.
Qed.

Lemma zeroOrNaN_zero : zeroOrNaN 0%float.
Proof. exact I. Qed.

Lemma similarityLoop_zero :
  forall e1 e2 d n1 n2,
    Forall (fun x => x = 0%float) e1 ->
    zeroOrNaN d -> zeroOrNaN n1 ->
    zeroOrNaN (fst (fst (similarityLoop e1 e2 (d, n1, n2))))
    /\ zeroOrNaN (snd (fst (similarityLoop e1 e2 (d, n1, n2)))).
Proof.
  intros e1. induction e1 as [|x e1 IH]; intros e2 d n1 n2 Hz Hd Hn.
  - split; assumption.
  - destruct e2 as [|y e2]; [split; assumption|].
    inversion Hz as [|x0 l0 Hx Hz']. subst. cbn [similarityLoop].
    apply IH; [exact Hz'| |].
    + apply zeroOrNaN_add; [exact Hd | apply zeroOrNaN_mul_l, zeroOrNaN_zero].
    + apply zeroOrNaN_add; [exact Hn | apply zeroOrNaN_mul_l, zeroOrNaN_zero].
Qed.

(** X23.  A stored or presented embedding that is all zeros, of the length
    of the other one, never scores 0: the result is NaN, whatever the other
    embedding holds, and also for two empty embeddings. *)
Theorem calculateFaceSimilarity_zero_vector_nan :
  forall embedding1 embedding2 : list float,
    Forall (fun x => x = 0%float) embedding1 ->
    List.length embedding1 = List.length embedding2 ->
    calculateFaceSimilarity embedding1 embedding2 = nan
    /\ calculateFaceSimilarity embedding2 embedding1 = nan.
Proof.
  intros e1 e2 Hz Hlen.
  assert (H : calculateFaceSimilarity e1 e2 = nan).
  { unfold calculateFaceSimilarity. rewrite Hlen, Nat.eqb_refl. cbn [negb].
    destruct (similarityLoop_zero e1 e2 0%float 0%float 0%float Hz
                zeroOrNaN_zero zeroOrNaN_zero) as [Hd Hn].
    destruct (similarityLoop e1 e2 (0%float, 0%float, 0%float)) as [[d n1] n2].
    cbn [fst snd] in *. apply zeroOrNaN_div; [exact Hd|].
    apply zeroOrNaN_mul_l, zeroOrNaN_sqrt, Hn. }
  split; [exact H|]. rewrite <- H. unfold calculateFaceSimilarity.
  rewrite (Nat.eqb_sym (List.length e2) (List.length e1)).
  destruct (Nat.eqb (List.length e1) (List.length e2)); cbn [negb]; [|reflexivity].
  rewrite (similarityLoop_swap e1 e2).
  destruct (similarityLoop e1 e2 (0%float, 0%float, 0%float)) as [[d n1] n2].
  cbn [fst snd]. rewrite (float_mul_comm (PrimFloat.sqrt n2)). reflexivity.
Qed.

(** A zero embedding against an embedding with an infinite entry. *)
Lemma calculateFaceSimilarity_zero_vector_nan_witness :
  calculateFaceSimilarity [0; 0]%float [1; infinity]%float = nan.
Proof.
  apply (calculateFaceSimilarity_zero_vector_nan [0; 0]%float [1; infinity]%float).
  - repeat constructor.
  - reflexivity.
Defined.

Section Confidence.

Variable newDate : string -> option Z.
Variable toFixed1 : float -> string.

Lemma selectBestMatch_similarity :
  forall fHash fpHash embedding first rest,
    let r := selectBestMatch fHash fpHash embedding first (first :: rest) in
    snd r = 0%float \/ (0 <? snd r)%float = true.
Proof.
  intros fHash fpHash embedding first rest r.
  pose proof (bestMatch_loop_selected fHash fpHash embedding (first :: rest)
                (first, 0%float)) as H.
  fold (selectBestMatch fHash fpHash embedding first (first :: rest)) in H. fold r in H.
  destruct H as [[E _]|[l1 [l2 [_ [_ [Hpos _]]]]]].
  - left. rewrite E. reflexivity.
  - right. exact Hpos.
Qed.

(** X24.  The similarity that a verification returns is 0 or a number
    strictly above 0: a candidate scoring NaN or a negative number never
    becomes the best match, and a verification without candidates returns
    no similarity. *)
Theorem returned_similarity_is_zero_or_positive :
  forall (checkpoint : Checkpoint.t) (ls : LocalStorage) (fHash : string)
         (embedding : list float) (fpHash : option string) (env : Reads),
    match similarity (snd (processVerification newDate toFixed1 checkpoint ls fHash
                             embedding fpHash env)) with
    | Some s => s = 0%float \/ (0 <? s)%float = true
    | None => findPassengersByBiometrics ls fHash fpHash = []
    end.
Proof.
  intros checkpoint ls fHash embedding fpHash env. unfold processVerification.
  destruct (findPassengersByBiometrics ls fHash fpHash) as [|first rest];
    [reflexivity|].
  pose proof (selectBestMatch_similarity fHash fpHash embedding first rest) as H.
  cbv zeta in H.
  destruct (selectBestMatch fHash fpHash embedding first (first :: rest)) as [best sim].
  cbn [snd] in H.
  destruct (negb (isFlightValid newDate (clock env) (departureTime best)));
    [exact H|].
  destruct (Checkpoint.eqb checkpoint Checkpoint.immigration
            && negb (security (checkpoints best))); [exact H|].
  destruct (Checkpoint.eqb checkpoint Checkpoint.boarding
            && (negb (security (checkpoints best))
                || negb (immigration (checkpoints best)))); [exact H|].
  destruct (getCheckpoint (checkpoints best) checkpoint); exact H.
Qed.

End Confidence.

(** ** From the capture to the station *)

Section Capture.

Variable newDate : string -> option Z.
Variable toFixed1 : float -> string.
Variable encode : string -> list Byte.byte.
Variable sha256 : list Byte.byte -> list Byte.byte.

Lemma saved_passenger_is_candidate :
  forall ls p fHash,
    faceHash (biometrics p) = fHash ->
    findPassengersByBiometrics (savePassengerData ls p) fHash None <> [].
Proof.
  intros ls p fHash Hp H.
  assert (Hin : In (JSON.passengerData p)
                  (findPassengersByBiometrics (savePassengerData ls p) fHash None)).
  { unfold findPassengersByBiometrics. apply filter_In.
    split; [apply In_savePassengerData|].
    cbn [truthy_opt JSON.passengerData JSON.biometricData biometrics faceHash].
    rewrite Hp, String.eqb_refl. reflexivity. }
  rewrite H in Hin. destruct Hin.
Qed.

(** X25.  A passenger enrolled from a face image is found again at every
    station by a capture of the same image: the outcome is never "no
    matching passenger", whatever random embeddings the two captures drew
    and whatever the digest function is. *)
Theorem enrolled_image_is_found :
  forall (ls : LocalStorage) (f : Form.t) (faceImage : string) (fingerprint : string)
         (randoms1 randoms2 : list float) (uuid : string) (capturedAt enrolledAt : Z)
         (checkpoint : Checkpoint.t) (env : Reads),
    truthy fingerprint = true ->
    let enrolled :=
      fst (completeEnrollment ls f
             (Some (processFaceImage encode sha256 faceImage randoms1))
             (Some fingerprint) uuid capturedAt enrolledAt) in
    outcome (snd (verifyCapture newDate toFixed1 checkpoint enrolled
                    (processFaceImage encode sha256 faceImage randoms2) env))
    <> NO_MATCH.
Proof.
  intros ls f faceImage fingerprint randoms1 randoms2 uuid capturedAt enrolledAt
    checkpoint env Ht enrolled H.
  subst enrolled. unfold verifyCapture in H. apply outcome_NO_MATCH_iff in H.
  unfold completeEnrollment in H. rewrite Ht in H. cbn [fst] in H.
  revert H. apply saved_passenger_is_candidate. reflexivity.
Qed.

(** X26.  "Clear All Data": when the confirmation is declined nothing
    changes; when it is accepted the passengers and the access log are both
    erased, the refreshed dashboard shows no passenger, no log entry and
    counters at 0, and every verification answers "no matching
    passenger". *)
Theorem handleClearAll_erases_passengers_and_logs :
  forall (ls : LocalStorage) (now : Z) (checkpoint : Checkpoint.t) (fHash : string)
         (embedding : list float) (fpHash : option string) (env : Reads),
    handleClearAll newDate ls false now = (ls, None)
    /\ (let r := handleClearAll newDate ls true now in
        getAllPassengers (fst r) = []
        /\ getStaffLogs (fst r) = []
        /\ snd r
           = Some {| Dashboard.stats :=
                       {| Stats.totalEnrolled := 0;
                          Stats.totalActive := 0;
                          Stats.checkpointStats :=
                            {| Stats.security := 0; Stats.immigration := 0;
                               Stats.boarding := 0 |};
                          Stats.recentActivity := [] |};
                     Dashboard.passengers := [];
                     Dashboard.logs := [] |}
        /\ outcome (snd (processVerification newDate toFixed1 checkpoint (fst r)
                           fHash embedding fpHash env)) = NO_MATCH).
Proof.
  intros ls now checkpoint fHash embedding fpHash env.
  split; [reflexivity|]. cbv zeta. repeat split.
Qed.

End Capture.

(** The example passenger enrolled from an image and presented again. *)
Lemma enrolled_image_is_found_witness :
  outcome
    (snd (verifyCapture isoDate toFixedOne Checkpoint.security
            (fst (completeEnrollment emptyStorage exampleForm
                    (Some (processFaceImage (fun _ => []) (fun _ => repeat Byte.x00 32)
                             "image" presented))
                    (Some "f1") "0001" t2026 t2026))
            (processFaceImage (fun _ => []) (fun _ => repeat Byte.x00 32)
               "image" [0; 1; 0; 0]%float)
            (readsAt t2026 "u1")))
  <> NO_MATCH.
Proof.
  apply (enrolled_image_is_found isoDate toFixedOne (fun _ => [])
           (fun _ => repeat Byte.x00 32) emptyStorage exampleForm "image" "f1"
           presented [0; 1; 0; 0]%float "0001" t2026 t2026 Checkpoint.security
           (readsAt t2026 "u1")).
  reflexivity.
Defined.

(** ** The sweep on a list *)

Section SweepOnListProperties.

Variable newDate : string -> option Z.

Lemma cleanupExpiredDataFrom_between :
  forall (clock : nat -> Z) (t0 t1 : Z) (l : list PassengerData) (k : nat),
    (forall j, (t0 <= clock j)%Z /\ (clock j <= t1)%Z) ->
    (forall p, In p (cleanupExpiredDataFrom newDate clock k l) ->
               In p l /\ isFlightValid newDate t0 (departureTime p) = true)
    /\ (forall p, In p l -> isFlightValid newDate t1 (departureTime p) = true ->
                  In p (cleanupExpiredDataFrom newDate clock k l)).
Proof.
  intros clock t0 t1 l. induction l as [|a l IH]; intros k Hc.
  { split; [intros p [] | intros p []]. }
  destruct (IH (S k) Hc) as [IH1 IH2]. destruct (Hc k) as [Hlo Hhi].
  cbn [cleanupExpiredDataFrom].
  destruct (isFlightValid newDate (clock k) (departureTime a)) eqn:E; split.
  - intros p [<-|Hp].
    + split; [left; reflexivity | apply (isFlightValid_earlier newDate _ _ _ Hlo E)].
    + destruct (IH1 p Hp) as [H1 H2]. split; [right; exact H1 | exact H2].
  - intros p [<-|Hp] Hv; [left; reflexivity | right; apply IH2; assumption].
  - intros p Hp. destruct (IH1 p Hp) as [H1 H2]. split; [right; exact H1 | exact H2].
  - intros p [<-|Hp] Hv; [|apply IH2; assumption].
    rewrite (isFlightValid_earlier newDate _ _ _ Hhi Hv) in E. discriminate.
Qed.

Lemma cleanupExpiredDataFrom_constant :
  forall (clock : nat -> Z) (now : Z) (l : list PassengerData) (k : nat),
    (forall j, clock j = now) ->
    cleanupExpiredDataFrom newDate clock k l
    = filter (fun p => isFlightValid newDate now (departureTime p)) l.
Proof.
  intros clock now l. induction l as [|a l IH]; intros k Hc; [reflexivity|].
  cbn [cleanupExpiredDataFrom filter]. rewrite Hc, (IH (S k) Hc). reflexivity.
Qed.

(** X27.  [cleanupExpiredData] reads the clock once per record.  When all
    reads fall between [t0] and [t1], every record it keeps was stored with
    a flight still valid at [t0], and no record whose flight is still valid
    at [t1] is dropped; when the clock does not move, it keeps exactly the
    records that [cleanupExpiredPassengers] leaves in the store. *)
Theorem cleanupExpiredData_between_clock_reads :
  forall (clock : nat -> Z) (t0 t1 : Z) (ls : LocalStorage),
    (forall j, (t0 <= clock j)%Z /\ (clock j <= t1)%Z) ->
    (forall p, In p (cleanupExpiredData newDate clock (getAllPassengers ls)) ->
               In p (getAllPassengers ls)
               /\ isFlightValid newDate t0 (departureTime p) = true)
    /\ (forall p, In p (getAllPassengers ls) ->
                  isFlightValid newDate t1 (departureTime p) = true ->
                  In p (cleanupExpiredData newDate clock (getAllPassengers ls)))
    /\ (t0 = t1 ->
        cleanupExpiredData newDate clock (getAllPassengers ls)
        = getAllPassengers (fst (cleanupExpiredPassengers newDate ls t0))).
Proof.
  intros clock t0 t1 ls Hc. unfold cleanupExpiredData.
  destruct (cleanupExpiredDataFrom_between clock t0 t1 (getAllPassengers ls) 0%nat Hc)
    as [H1 H2].
  split; [exact H1|]. split; [exact H2|].
  intros <-. unfold cleanupExpiredPassengers. cbn [fst].
  rewrite getAllPassengers_setPassengers_filter.
  apply cleanupExpiredDataFrom_constant.
  intros j. destruct (Hc j). lia.
Qed.

End SweepOnListProperties.

(** A clock that advances by one millisecond per read, over 2026. *)
Lemma cleanupExpiredData_between_clock_reads_witness :
  In alice
    (cleanupExpiredData isoDate (fun j => (t2026 + Z.of_nat (Nat.min j 10))%Z)
       (getAllPassengers (storeOf [quentin; alice]))).
Proof.
  assert (Hc : forall j : nat,
            (t2026 <= t2026 + Z.of_nat (Nat.min j 10))%Z
            /\ (t2026 + Z.of_nat (Nat.min j 10) <= t2026 + 10)%Z) by (intros j; lia).
  apply (proj1 (proj2 (cleanupExpiredData_between_clock_reads isoDate
                         (fun j => (t2026 + Z.of_nat (Nat.min j 10))%Z)
                         t2026 (t2026 + 10)%Z (storeOf [quentin; alice]) Hc))).
  - right. left. reflexivity.
  - vm_compute. reflexivity.
Defined.

(** Two saves of the same passenger and a verification, from an empty
    store. *)
Lemma reachable_ids_unique_witness :
  NoDup
    (map id
       (getAllPassengers
          (fst (processVerification isoDate toFixedOne Checkpoint.security
                  (savePassengerData (savePassengerData emptyStorage alice) alice)
                  "h1" presented None (readsAt t2026 "u1"))))).
Proof.
  apply (reachable_ids_unique isoDate toFixedOne).
  apply reach_verify, reach_save, reach_save, reach_empty.
Defined.
